(** * ai-hedge-fund: persona scoring, pipeline, state store and risk limits

    A shallow embedding of the Python sources

    - [src/plugins/bill_ackman.py], [src/plugins/michael_burry.py]
      (sub-analyses and signal aggregation),
    - [src/plugins/risk_manager.py], [src/plugins/portfolio_manager.py],
    - [src/mcp/server.py], [src/mcp/client.py] (the state store),
    - [src/llm/models.py], [src/utils/agents.py], [src/utils/analysts.py]
      (the models offered, the kernel of an agent, the analyst listings),
    - [src/main.py] (the orchestrator and the script),

    together with the properties of the specification stated over it.

    Numbers.  Python [int] scores are [Z].  Python [float] quantities
    (financial facts, prices, cash) are exact rationals [Q]; equality of
    computed amounts is [Qeq] ([==]).  Rounding of binary64 arithmetic is
    not modelled.  Exceptions are values of [result].

    Text.  A Python [str] is held as the bytes of its UTF-8 encoding, so a
    code point above U+007F takes two or three characters of a [string]. *)

From Stdlib Require Import ZArith QArith Qabs Qminmax Lqa Lia String List Ascii Bool.
From Stdlib Require Import Sorting.Sorted.
From stdpp Require Import base option list strings gmap.
Import ListNotations.

Local Open Scope string_scope.
Local Open Scope Z_scope.
Local Open Scope list_scope.

(** ** Python run-time conventions *)

Module Py.

Inductive exn : Type :=
| ZeroDivisionError
| IndexError
| KeyError
| ValueError
| AttributeError
| UnboundLocalError
| KernelServiceNotFoundError
| SystemExit (code : Z).

Inductive result (A : Type) : Type :=
| Ok (a : A)
| Raise (e : exn).
Arguments Ok {A} a.
Arguments Raise {A} e.

#[global] Instance result_ret : MRet result := fun A a => Ok a.
#[global] Instance result_bind : MBind result := fun A B f m =>
  match m with
  | Ok a => f a
  | Raise e => Raise e
  end.

Definition is_ok {A} (r : result A) : bool :=
  match r with Ok _ => true | Raise _ => false end.

(** [x < y] on floats. *)
Definition Qlt_bool (x y : Q) : bool := negb (Qle_bool y x).

(** Truth value of an optional number: [None] and [0] are false. *)
Definition truthy (o : option Q) : bool :=
  match o with
  | Some x => negb (Qeq_bool x 0%Q)
  | None => false
  end.

(** [x if x else 0] and [x or 0]. *)
Definition or_zero (o : option Q) : Q :=
  if truthy o then default 0%Q o else 0%Q.

(** Truth value of a number. *)
Definition nonzero (x : Q) : bool := negb (Qeq_bool x 0%Q).

(** [a / b], raising [ZeroDivisionError] when [b] is zero. *)
Definition div (a b : Q) : result Q :=
  if Qeq_bool b 0%Q then Raise ZeroDivisionError else Ok (a / b)%Q.

(** [l[0]] and [l[-1]]. *)
Definition first {A} (l : list A) : result A :=
  match l with
  | [] => Raise IndexError
  | x :: _ => Ok x
  end.

Definition last {A} (l : list A) : result A :=
  match list.last l with
  | Some x => Ok x
  | None => Raise IndexError
  end.

(** [not l] for a list. *)
Definition is_empty {A} (l : list A) : bool :=
  match l with [] => true | _ => false end.

(** [len(l)] and [sum(1 for x in l if p x)] as Python ints. *)
Definition len {A} (l : list A) : Z := Z.of_nat (length l).
Definition count {A} (p : A -> bool) (l : list A) : Z :=
  Z.of_nat (length (List.filter p l)).

(** [sum(l)] over floats, accumulating from [0] left to right. *)
Definition sum (l : list Q) : Q := fold_left Qplus l 0%Q.

(** [min(a, b)] and [max(a, b)]: the first argument wins ties. *)
Definition min (a b : Q) : Q := if Qlt_bool b a then b else a.
Definition max (a b : Q) : Q := if Qlt_bool a b then b else a.

(** [sep.join(parts)]. *)
Definition join (sep : string) (parts : list string) : string :=
  String.concat sep parts.

(** ASCII part of [str.lower]. *)
Definition lower_ascii (c : ascii) : ascii :=
  let n := nat_of_ascii c in
  if (65 <=? n)%nat && (n <=? 90)%nat then ascii_of_nat (n + 32) else c.

Fixpoint lower (s : string) : string :=
  match s with
  | EmptyString => EmptyString
  | String c s' => String (lower_ascii c) (lower s')
  end.

(** [x in l] for strings. *)
Definition str_in (x : string) (l : list string) : bool :=
  existsb (String.eqb x) l.

End Py.

Import Py.

(** ** Financial facts supplied by the data provider

    Every field may be [None].  One record carries the line-item fields
    either persona asks [search_line_items] for. *)

Record Metrics : Type := {
  return_on_equity : option Q;
  ev_to_ebit : option Q;
  m_debt_to_equity : option Q
}.

Record LineItem : Type := {
  revenue : option Q;
  operating_margin : option Q;
  debt_to_equity : option Q;
  free_cash_flow : option Q;
  total_assets : option Q;
  total_liabilities : option Q;
  dividends_and_other_cash_distributions : option Q;
  outstanding_shares : option Q;
  cash_and_equivalents : option Q;
  total_debt : option Q
}.

Record InsiderTrade : Type := { transaction_shares : option Q }.

Record News : Type := { sentiment : option string }.

(** ** Signals *)

Inductive Signal : Type := bullish | bearish | neutral.

(** The [if / elif / else] every persona ends with:
    [total_score >= 0.7 * max_score], then [total_score <= 0.3 * max_score]. *)
Definition classify (total_score max_score : Z) : Signal :=
  if Qle_bool ((7 # 10) * inject_Z max_score)%Q (inject_Z total_score) then bullish
  else if Qle_bool (inject_Z total_score) ((3 # 10) * inject_Z max_score)%Q then bearish
  else neutral.

(** A running [(score, details)] pair; [note] appends a detail string and
    [award] also adds points. *)
Definition tally : Type := (Z * list string)%type.

Definition note (msg : string) (t : tally) : tally := (t.1, t.2 ++ [msg]).
Definition award (pts : Z) (msg : string) (t : tally) : tally :=
  (t.1 + pts, t.2 ++ [msg]).

(** A [for] loop over [l] threading the variables [s] it assigns, in a
    monad of effects. *)
Fixpoint for_each {M : Type -> Type} `{!MBind M, !MRet M} {A S : Type}
    (l : list A) (body : A -> S -> M S) (s : S) : M S :=
  match l with
  | [] => mret s
  | x :: l' => s' ← body x s; for_each l' body s'
  end.

(** [range(lo, lo + n)]. *)
Definition range (lo : nat) (n : nat) : list Z := map Z.of_nat (seq lo n).

(** Result of a sub-analysis that reports no maximum of its own. *)
Record Analysis : Type := {
  score : Z;
  details : string
}.

(** Result of a sub-analysis that reports its maximum. *)
Record ScoredAnalysis : Type := {
  s_score : Z;
  s_max_score : Z;
  s_details : string
}.

(** ** Bill Ackman persona ([src/plugins/bill_ackman.py]) *)

Module BillAckman.

(** Result of [analyze_valuation].  The keys ["intrinsic_value"] and
    ["margin_of_safety"] are not always present: the outer [option] is
    the presence of the key, the inner one of [intrinsic_value] is
    Python's [None]. *)
Record Valuation : Type := {
  v_score : Z;
  v_details : string;
  intrinsic_value : option (option Q);
  margin_of_safety : option Q
}.

Record SignalRecord : Type := {
  signal : Signal;
  total_score : Z;
  max_score : Z;
  quality_analysis : Analysis;
  balance_sheet_analysis : Analysis;
  activism_analysis : Analysis;
  valuation_analysis : Valuation
}.

Section Plugin.

(** [fmt spec x] is the text of [x] under the format specification
    [spec] of an f-string, [f"{x:spec}"]. *)
Variable fmt : string -> Q -> string.

(** The data provider, [src.tools.api]. *)
Variable get_financial_metrics :
  string -> string -> option string -> option Z -> list Metrics.
Variable search_line_items :
  string -> list string -> string -> option string -> option Z -> list LineItem.
Variable get_market_cap : string -> string -> option Q.

Definition analyze_business_quality
    (metrics : list Metrics) (financial_line_items : list LineItem)
  : result Analysis :=
  if is_empty metrics || is_empty financial_line_items then
    Ok {| score := 0;
          details := "Insufficient data to analyze business quality" |}
  else
    let t : tally := (0, []) in
    (* 1. Multi-period revenue growth analysis *)
    let revenues := omap revenue financial_line_items in
    t ← (if 2 <=? len revenues then
           initial ← last revenues;
           final ← first revenues;
           if nonzero initial && nonzero final && Qlt_bool initial final then
             growth_rate ← div (final - initial)%Q (Qabs initial);
             if Qlt_bool (5 # 10) growth_rate then
               Ok (award 2 ("Revenue grew by " +:+ fmt ".1f" (growth_rate * 100)%Q
                            +:+ "% over the full period (strong growth).") t)
             else
               Ok (award 1 ("Revenue growth is positive but under 50% cumulatively ("
                            +:+ fmt ".1f" (growth_rate * 100)%Q +:+ "%).") t)
           else
             Ok (note "Revenue did not grow significantly or data insufficient." t)
         else
           Ok (note "Not enough revenue data for multi-period trend." t));
    (* 2. Operating margin and free cash flow consistency *)
    let fcf_vals := omap free_cash_flow financial_line_items in
    let op_margin_vals := omap operating_margin financial_line_items in
    let t :=
      if negb (is_empty op_margin_vals) then
        let above_15 := count (fun m => Qlt_bool (15 # 100) m) op_margin_vals in
        if len op_margin_vals / 2 + 1 <=? above_15 then
          award 2 "Operating margins have often exceeded 15% (indicates good profitability)." t
        else
          note "Operating margin not consistently above 15%." t
      else
        note "No operating margin data across periods." t in
    let t :=
      if negb (is_empty fcf_vals) then
        let positive_fcf_count := count (fun f => Qlt_bool 0 f) fcf_vals in
        if len fcf_vals / 2 + 1 <=? positive_fcf_count then
          award 1 "Majority of periods show positive free cash flow." t
        else
          note "Free cash flow not consistently positive." t
      else
        note "No free cash flow data across periods." t in
    (* 3. Return on Equity (ROE) check from the latest metrics *)
    latest_metrics ← first metrics;
    let t :=
      match return_on_equity latest_metrics with
      | Some roe =>
          if nonzero roe && Qlt_bool (15 # 100) roe then
            award 2 ("High ROE of " +:+ fmt ".1%" roe
                     +:+ ", indicating a competitive advantage.") t
          else if nonzero roe then
            note ("ROE of " +:+ fmt ".1%" roe +:+ " is moderate.") t
          else
            note "ROE data not available." t
      | None => note "ROE data not available." t
      end in
    Ok {| score := t.1; details := join "; " t.2 |}.

Definition analyze_financial_discipline
    (metrics : list Metrics) (financial_line_items : list LineItem)
  : result Analysis :=
  if is_empty metrics || is_empty financial_line_items then
    Ok {| score := 0;
          details := "Insufficient data to analyze financial discipline" |}
  else
    let t : tally := (0, []) in
    (* 1. Multi-period debt ratio or debt_to_equity *)
    let debt_to_equity_vals := omap debt_to_equity financial_line_items in
    t ← (if negb (is_empty debt_to_equity_vals) then
           let below_one_count := count (fun d => Qlt_bool d 1) debt_to_equity_vals in
           if len debt_to_equity_vals / 2 + 1 <=? below_one_count then
             Ok (award 2 "Debt-to-equity < 1.0 for the majority of periods (reasonable leverage)." t)
           else
             Ok (note "Debt-to-equity >= 1.0 in many periods (could be high leverage)." t)
         else
           (* Fallback to total_liabilities / total_assets *)
           liab_to_assets ←
             for_each financial_line_items
               (fun item acc =>
                  match total_liabilities item, total_assets item with
                  | Some tl, Some ta =>
                      if nonzero tl && nonzero ta && Qlt_bool 0 ta then
                        ratio ← div tl ta; Ok (acc ++ [ratio])
                      else Ok acc
                  | _, _ => Ok acc
                  end) [];
           if negb (is_empty liab_to_assets) then
             let below_50pct_count :=
               count (fun ratio => Qlt_bool ratio (5 # 10)) liab_to_assets in
             if len liab_to_assets / 2 + 1 <=? below_50pct_count then
               Ok (award 2 "Liabilities-to-assets < 50% for majority of periods." t)
             else
               Ok (note "Liabilities-to-assets >= 50% in many periods." t)
           else
             Ok (note "No consistent leverage ratio data available." t));
    (* 2. Capital allocation approach (dividends + share counts) *)
    let dividends_list :=
      omap dividends_and_other_cash_distributions financial_line_items in
    let t :=
      if negb (is_empty dividends_list) then
        let paying_dividends_count := count (fun d => Qlt_bool d 0) dividends_list in
        if len dividends_list / 2 + 1 <=? paying_dividends_count then
          award 1 "Company has a history of returning capital to shareholders (dividends)." t
        else
          note "Dividends not consistently paid or no data on distributions." t
      else
        note "No dividend data found across periods." t in
    (* Check for decreasing share count (simple approach) *)
    let shares := omap outstanding_shares financial_line_items in
    t ← (if 2 <=? len shares then
           newest ← first shares;
           oldest ← last shares;
           if Qlt_bool newest oldest then
             Ok (award 1 "Outstanding shares have decreased over time (possible buybacks)." t)
           else
             Ok (note "Outstanding shares have not decreased over the available periods." t)
         else
           Ok (note "No multi-period share count data to assess buybacks." t));
    Ok {| score := t.1; details := join "; " t.2 |}.

Definition analyze_activism_potential (financial_line_items : list LineItem)
  : result Analysis :=
  if is_empty financial_line_items then
    Ok {| score := 0; details := "Insufficient data for activism potential" |}
  else
    let revenues := omap revenue financial_line_items in
    let op_margins := omap operating_margin financial_line_items in
    if (len revenues <? 2) || is_empty op_margins then
      Ok {| score := 0;
            details := "Not enough data to assess activism potential (need multi-year revenue + margins)." |}
    else
      initial ← last revenues;
      final ← first revenues;
      revenue_growth ←
        (if nonzero initial then div (final - initial)%Q (Qabs initial) else Ok 0%Q);
      avg_margin ← div (sum op_margins) (inject_Z (len op_margins));
      let t : tally := (0, []) in
      let t :=
        if Qlt_bool (15 # 100) revenue_growth && Qlt_bool avg_margin (10 # 100) then
          award 2 ("Revenue growth is healthy (~" +:+ fmt ".1f" (revenue_growth * 100)%Q
                   +:+ "%), but margins are low (avg " +:+ fmt ".1f" (avg_margin * 100)%Q
                   +:+ "%). " +:+ "Activism could unlock margin improvements.") t
        else
          note "No clear sign of activism opportunity (either margins are already decent or growth is weak)." t in
      Ok {| score := t.1; details := join "; " t.2 |}.

(** Basic DCF assumptions. *)
Definition growth_rate : Q := 6 # 100.
Definition discount_rate : Q := 10 # 100.
Definition terminal_multiple : Q := 15.
Definition projection_years : nat := 5.

Definition analyze_valuation
    (financial_line_items : list LineItem) (market_cap : option Q)
  : result Valuation :=
  match financial_line_items, market_cap with
  | [], _ | _, None =>
      Ok {| v_score := 0; v_details := "Insufficient data to perform valuation";
            intrinsic_value := None; margin_of_safety := None |}
  | latest :: _, Some market_cap =>
      let fcf := or_zero (free_cash_flow latest) in
      if Qle_bool fcf 0 then
        Ok {| v_score := 0;
              v_details := "No positive FCF for valuation; FCF = " +:+ fmt "" fcf;
              intrinsic_value := Some None; margin_of_safety := None |}
      else
        present_value ←
          for_each (range 1 projection_years)
            (fun year present_value =>
               let future_fcf := (fcf * (1 + growth_rate) ^ year)%Q in
               pv ← div future_fcf ((1 + discount_rate) ^ year)%Q;
               Ok (present_value + pv)%Q) 0%Q;
        (* Terminal Value *)
        terminal_value ←
          div (fcf * (1 + growth_rate) ^ Z.of_nat projection_years * terminal_multiple)%Q
              ((1 + discount_rate) ^ Z.of_nat projection_years)%Q;
        let intrinsic := (present_value + terminal_value)%Q in
        mos ← div (intrinsic - market_cap)%Q market_cap;
        let score :=
          if Qlt_bool (3 # 10) mos then 0 + 3
          else if Qlt_bool (1 # 10) mos then 0 + 1
          else 0 in
        let details :=
          [ "Calculated intrinsic value: ~" +:+ fmt ",.2f" intrinsic;
            "Market cap: ~" +:+ fmt ",.2f" market_cap;
            "Margin of safety: " +:+ fmt ".2%" mos ] in
        Ok {| v_score := score; v_details := join "; " details;
              intrinsic_value := Some (Some intrinsic);
              margin_of_safety := Some mos |}
  end.

Definition line_item_fields : list string :=
  [ "revenue"; "operating_margin"; "debt_to_equity"; "free_cash_flow";
    "total_assets"; "total_liabilities";
    "dividends_and_other_cash_distributions"; "outstanding_shares" ].

Definition get_analysis_data (ticker end_date : string)
  : result (gmap string SignalRecord) :=
  let metrics := get_financial_metrics ticker end_date (Some "annual") (Some 5) in
  let financial_line_items :=
    search_line_items ticker line_item_fields end_date (Some "annual") (Some 5) in
  let market_cap := get_market_cap ticker end_date in
  quality ← analyze_business_quality metrics financial_line_items;
  balance_sheet ← analyze_financial_discipline metrics financial_line_items;
  activism ← analyze_activism_potential financial_line_items;
  valuation ← analyze_valuation financial_line_items market_cap;
  (* Combine partial scores or signals *)
  let total := score quality + score balance_sheet + score activism
               + v_score valuation in
  let max_possible_score := 20 in
  let signal := classify total max_possible_score in
  Ok (<[ ticker := {| signal := signal; total_score := total;
                      max_score := max_possible_score;
                      quality_analysis := quality;
                      balance_sheet_analysis := balance_sheet;
                      activism_analysis := activism;
                      valuation_analysis := valuation |} ]> ∅).

End Plugin.

End BillAckman.

(** ** Michael Burry persona ([src/plugins/michael_burry.py]) *)

Module MichaelBurry.

Record SignalRecord : Type := {
  signal : Signal;
  total_score : Z;
  max_score : Z;
  value_analysis : ScoredAnalysis;
  balance_sheet_analysis : ScoredAnalysis;
  insider_analysis : ScoredAnalysis;
  contrarian_analysis : ScoredAnalysis;
  market_cap : option Q
}.

Section Plugin.

Variable fmt : string -> Q -> string.

(** The data provider, [src.tools.api]. *)
Variable get_financial_metrics :
  string -> string -> option string -> option Z -> list Metrics.
Variable search_line_items :
  string -> list string -> string -> option string -> option Z -> list LineItem.
Variable get_market_cap : string -> string -> option Q.
Variable get_insider_trades : string -> string -> string -> list InsiderTrade.
Variable get_company_news : string -> string -> string -> Z -> list News.

(** [(datetime.fromisoformat(d) - timedelta(days=365)).date().isoformat()];
    [fromisoformat] raises [ValueError] on text that is not a date. *)
Variable one_year_before : string -> result string.

(** Return the most recent line-item object or [None]. *)
Definition _latest_line_item (line_items : list LineItem) : option LineItem :=
  head line_items.

Definition _analyze_value
    (metrics : list Metrics) (line_items : list LineItem) (market_cap : option Q)
  : result ScoredAnalysis :=
  let max_score := 6 in
  let t : tally := (0, []) in
  (* Free-cash-flow yield *)
  let latest_item := _latest_line_item line_items in
  let fcf := latest_item ≫= free_cash_flow in
  t ← (match fcf, market_cap with
       | Some fcf, Some market_cap =>
           if nonzero market_cap then
             fcf_yield ← div fcf market_cap;
             if Qle_bool (15 # 100) fcf_yield then
               Ok (award 4 ("Extraordinary FCF yield " +:+ fmt ".1%" fcf_yield) t)
             else if Qle_bool (12 # 100) fcf_yield then
               Ok (award 3 ("Very high FCF yield " +:+ fmt ".1%" fcf_yield) t)
             else if Qle_bool (8 # 100) fcf_yield then
               Ok (award 2 ("Respectable FCF yield " +:+ fmt ".1%" fcf_yield) t)
             else
               Ok (note ("Low FCF yield " +:+ fmt ".1%" fcf_yield) t)
           else Ok (note "FCF data unavailable" t)
       | _, _ => Ok (note "FCF data unavailable" t)
       end);
  (* EV/EBIT (from financial metrics) *)
  let t :=
    match metrics with
    | latest :: _ =>
        match ev_to_ebit latest with
        | Some ev_ebit =>
            if Qlt_bool ev_ebit 6 then
              award 2 ("EV/EBIT " +:+ fmt ".1f" ev_ebit +:+ " (<6)") t
            else if Qlt_bool ev_ebit 10 then
              award 1 ("EV/EBIT " +:+ fmt ".1f" ev_ebit +:+ " (<10)") t
            else
              note ("High EV/EBIT " +:+ fmt ".1f" ev_ebit) t
        | None => note "EV/EBIT data unavailable" t
        end
    | [] => note "Financial metrics unavailable" t
    end in
  Ok {| s_score := t.1; s_max_score := max_score; s_details := join "; " t.2 |}.

Definition _analyze_balance_sheet
    (metrics : list Metrics) (line_items : list LineItem)
  : ScoredAnalysis :=
  let max_score := 3 in
  let t : tally := (0, []) in
  let latest_metrics := head metrics in
  let latest_item := _latest_line_item line_items in
  let debt_to_equity := latest_metrics ≫= m_debt_to_equity in
  let t :=
    match debt_to_equity with
    | Some debt_to_equity =>
        if Qlt_bool debt_to_equity (5 # 10) then
          award 2 ("Low D/E " +:+ fmt ".2f" debt_to_equity) t
        else if Qlt_bool debt_to_equity 1 then
          award 1 ("Moderate D/E " +:+ fmt ".2f" debt_to_equity) t
        else
          note ("High leverage D/E " +:+ fmt ".2f" debt_to_equity) t
    | None => note "Debt‑to‑equity data unavailable" t
    end in
  (* Quick liquidity sanity check (cash vs total debt) *)
  let t :=
    match latest_item with
    | Some latest_item =>
        match cash_and_equivalents latest_item, total_debt latest_item with
        | Some cash, Some total_debt =>
            if Qlt_bool total_debt cash then award 1 "Net cash position" t
            else note "Net debt position" t
        | _, _ => note "Cash/debt data unavailable" t
        end
    | None => t
    end in
  {| s_score := t.1; s_max_score := max_score; s_details := join "; " t.2 |}.

(** [t.transaction_shares or 0]. *)
Definition shares_or_0 (t : InsiderTrade) : Q := or_zero (transaction_shares t).

Definition _analyze_insider_activity (insider_trades : list InsiderTrade)
  : result ScoredAnalysis :=
  let max_score := 2 in
  let t : tally := (0, []) in
  if is_empty insider_trades then
    let t := note "No insider trade data" t in
    Ok {| s_score := t.1; s_max_score := max_score; s_details := join "; " t.2 |}
  else
    let shares_bought :=
      sum (map shares_or_0
             (List.filter (fun t => Qlt_bool 0 (shares_or_0 t)) insider_trades)) in
    let shares_sold :=
      Qabs (sum (map shares_or_0
                   (List.filter (fun t => Qlt_bool (shares_or_0 t) 0) insider_trades))) in
    let net := (shares_bought - shares_sold)%Q in
    t ← (if Qlt_bool 0 net then
           ratio ← div net (max shares_sold 1);
           Ok (award (if Qlt_bool 1 ratio then 2 else 1)
                     ("Net insider buying of " +:+ fmt "," net +:+ " shares") t)
         else
           Ok (note "Net insider selling" t));
    Ok {| s_score := t.1; s_max_score := max_score; s_details := join "; " t.2 |}.

Definition is_negative_sentiment (n : News) : bool :=
  match sentiment n with
  | Some s =>
      negb (String.eqb s "") && str_in (lower s) ["negative"; "bearish"]
  | None => false
  end.

Definition _analyze_contrarian_sentiment (news : list News) : ScoredAnalysis :=
  let max_score := 1 in
  let t : tally := (0, []) in
  if is_empty news then
    let t := note "No recent news" t in
    {| s_score := t.1; s_max_score := max_score; s_details := join "; " t.2 |}
  else
    (* Count negative sentiment articles *)
    let sentiment_negative_count := count is_negative_sentiment news in
    let t :=
      if 5 <=? sentiment_negative_count then
        award 1 (fmt "" (inject_Z sentiment_negative_count)
                 +:+ " negative headlines (contrarian opportunity)") t
      else
        note "Limited negative press" t in
    {| s_score := t.1; s_max_score := max_score; s_details := join "; " t.2 |}.

Definition line_item_fields : list string :=
  [ "free_cash_flow"; "net_income"; "total_debt"; "cash_and_equivalents";
    "total_assets"; "total_liabilities"; "outstanding_shares";
    "issuance_or_purchase_of_equity_shares" ].

Definition get_analysis_data (ticker end_date : string)
  : result (gmap string SignalRecord) :=
  (* We look one year back for insider trades / news flow *)
  start_date ← one_year_before end_date;
  let metrics := get_financial_metrics ticker end_date (Some "ttm") (Some 5) in
  let line_items := search_line_items ticker line_item_fields end_date None None in
  let insider_trades := get_insider_trades ticker end_date start_date in
  let news := get_company_news ticker end_date start_date 250 in
  let market_cap := get_market_cap ticker end_date in
  value ← _analyze_value metrics line_items market_cap;
  let balance_sheet := _analyze_balance_sheet metrics line_items in
  insider ← _analyze_insider_activity insider_trades;
  let contrarian := _analyze_contrarian_sentiment news in
  let total := s_score value + s_score balance_sheet + s_score insider
               + s_score contrarian in
  let max_total := s_max_score value + s_max_score balance_sheet
                   + s_max_score insider + s_max_score contrarian in
  let signal := classify total max_total in
  Ok (<[ ticker := {| signal := signal; total_score := total;
                      max_score := max_total;
                      value_analysis := value;
                      balance_sheet_analysis := balance_sheet;
                      insider_analysis := insider;
                      contrarian_analysis := contrarian;
                      market_cap := market_cap |} ]> ∅).

End Plugin.

End MichaelBurry.

(** ** JSON documents *)

#[local] Set Warnings "-register-all".

Inductive Json : Type :=
| JNull
| JBool (b : bool)
| JNum (q : Q)
| JStr (s : string)
| JList (items : list Json)
| JDict (members : list (string * Json)).

(** [isinstance(j, dict) and k in j]. *)
Definition has_key (k : string) (j : Json) : bool :=
  match j with
  | JDict members => existsb (fun kv => String.eqb kv.1 k) members
  | _ => false
  end.

(** ** The state-store service ([src/mcp/server.py])

    The service is started afresh for every request of a client
    ([src/mcp/client.py] opens a new stdio session per call), so its only
    lasting state is the file [agent_state.json]: [None] when the file does
    not exist, otherwise its text. *)

Module StateServer.

Definition Files : Type := option string.

Section Server.

(** [json.dump] / [json.dumps] and [json.load]; [None] is
    [JSONDecodeError]. *)
Variable json_dumps : Json -> string.
Variable json_loads : string -> option Json.

(** Loads the AgentState from the JSON file. *)
Definition load_state_from_file (fs : Files) : option Json :=
  match fs with
  | None => None
  | Some text =>
      match json_loads text with
      | Some data =>
          if forallb (fun k => has_key k data) ["data"; "metadata"]
          then Some data
          else None
      | None => None
      end
  end.

(** Saves the current AgentState to the JSON file. *)
Definition save_state_to_file (current_state : Json) (fs : Files) : Files :=
  Some (json_dumps current_state).

(** The tool [get]. *)
Definition get (fs : Files) : option Json := load_state_from_file fs.

(** The tool [set]: the process-global [state] is assigned and the
    state is saved; the global does not outlive the request. *)
Definition set (new_state : Json) (fs : Files) : Files :=
  save_state_to_file new_state fs.

End Server.

End StateServer.

(** ** The agent state as the plugins read and write it

    The JSON document of the store has a fixed shape, modelled by records.
    A key read with [d.get(k, default)] is an [option] field. *)

Record Position : Type := {
  long : option Q;
  short : option Q;
  long_cost_basis : option Q;
  short_cost_basis : option Q;
  short_margin_used : option Q
}.

Record RealizedGains : Type := {
  rg_long : Q;
  rg_short : Q
}.

(** [positions] and [realized_gains] are the [items()] of the dicts. *)
Record Portfolio : Type := {
  cash : option Q;
  margin_requirement : Q;
  margin_used : Q;
  positions : option (list (string * Position));
  realized_gains : list (string * RealizedGains)
}.

Inductive Reasoning : Type :=
| ReasonError (error : string)
| ReasonLimits (portfolio_value current_position_value position_limit
                remaining_limit available_cash : Q).

Record RiskEntry : Type := {
  remaining_position_limit : Q;
  current_price : Q;
  reasoning : Reasoning
}.

(** What one key of [analyst_signals] can hold. *)
Inductive AnalystSignals : Type :=
| AckmanSignals (records : gmap string BillAckman.SignalRecord)
| BurrySignals (records : gmap string MichaelBurry.SignalRecord)
| RiskSignals (records : gmap string RiskEntry).

Record Data : Type := {
  tickers : list string;
  portfolio : Portfolio;
  start_date : string;
  end_date : string;
  analyst_signals : gmap string AnalystSignals
}.

Record Metadata : Type := {
  show_reasoning : bool;
  model_name : string;
  model_provider : string
}.

Record AgentState : Type := {
  data : Data;
  metadata : Metadata
}.

(** The document held by the state store, as the clients see it through
    [mcp_read_state] and [mcp_upsert_state]: [None] before any [set]. *)
Definition Store : Type := option AgentState.

(** Code that reads and writes the store and may raise.  The store
    survives an exception. *)
Definition SM (A : Type) : Type := Store -> result A * Store.

Definition sm_ret {A} (a : A) : SM A := fun st => (Ok a, st).
Definition sm_bind {A B} (m : SM A) (f : A -> SM B) : SM B := fun st =>
  match m st with
  | (Ok a, st') => f a st'
  | (Raise e, st') => (Raise e, st')
  end.
Definition sm_raise {A} (e : exn) : SM A := fun st => (Raise e, st).

(** A computation that touches no store. *)
Definition sm_lift {A} (r : result A) : SM A := fun st => (r, st).

#[global] Instance sm_mret : MRet SM := fun A a => sm_ret a.
#[global] Instance sm_mbind : MBind SM := fun A B f m => sm_bind m f.

(** [json.loads((await mcp_read_state())[0].text)]: the tool result of an
    absent state has no content, so indexing it raises. *)
Definition mcp_read_state : SM AgentState := fun st =>
  match st with
  | Some state => (Ok state, st)
  | None => (Raise IndexError, st)
  end.

(** [await mcp_upsert_state(state)]: the whole state is replaced. *)
Definition mcp_upsert_state (state : AgentState) : SM unit := fun _ =>
  (Ok tt, Some state).

(** ** Portfolio plugin ([src/plugins/portfolio_manager.py]) *)

Module PortfolioManager.

Section Plugin.

Variable json_dumps : Portfolio -> string.

Definition get_porforlio_data (ticker : string) : SM string :=
  state ← mcp_read_state;
  mret (json_dumps (portfolio (data state))).

End Plugin.

End PortfolioManager.

(** ** Risk plugin ([src/plugins/risk_manager.py]) *)

Module RiskManager.

Section Plugin.

(** [src.tools.api.get_prices] and the ["close"] column of the frame
    built by [prices_to_df], in row order. *)
Variable Price : Type.
Variable get_prices : string -> string -> string -> list Price.
Variable close_column : list Price -> list Q.

(** One turn of the price loop: the latest close of [ticker], if any. *)
Definition fetch_price (d : Data) (ticker : string) : option Q :=
  let prices := get_prices ticker (start_date d) (end_date d) in
  if is_empty prices then None
  else list.last (close_column prices).

Definition position_keys (p : Portfolio) : list string :=
  map fst (default [] (positions p)).

(** [set(tickers) | set(portfolio.get("positions", {}).keys())]. *)
Definition all_tickers (d : Data) : gset string :=
  list_to_set (tickers d) ∪ list_to_set (position_keys (portfolio d)).

Definition fetch_prices (d : Data) : gmap string Q :=
  fold_left
    (fun current_prices ticker =>
       match fetch_price d ticker with
       | Some current_price => <[ ticker := current_price ]> current_prices
       | None => current_prices
       end)
    (elements (all_tickers d)) ∅.

(** Net liquidation value. *)
Definition total_value (p : Portfolio) (current_prices : gmap string Q) : Q :=
  fold_left
    (fun total_portfolio_value '(ticker, position) =>
       match current_prices !! ticker with
       | Some price =>
           let total_portfolio_value :=
             (total_portfolio_value + default 0 (long position) * price)%Q in
           (total_portfolio_value - default 0 (short position) * price)%Q
       | None => total_portfolio_value
       end)
    (default [] (positions p)) (default 0%Q (cash p)).

(** [portfolio.get("positions", {}).get(ticker, {})]. *)
Definition position_of (p : Portfolio) (ticker : string) : option Position :=
  snd <$> List.find (fun kv => String.eqb kv.1 ticker) (default [] (positions p)).

(** The body of the loop over the tickers of the run. *)
Definition risk_entry (p : Portfolio) (current_prices : gmap string Q)
    (total_portfolio_value : Q) (ticker : string) : RiskEntry :=
  match current_prices !! ticker with
  | None =>
      {| remaining_position_limit := 0;
         current_price := 0;
         reasoning := ReasonError "Missing price data for risk calculation" |}
  | Some current_price =>
      let position := position_of p ticker in
      let long_value := (default 0 (position ≫= long) * current_price)%Q in
      let short_value := (default 0 (position ≫= short) * current_price)%Q in
      let current_position_value := Qabs (long_value - short_value) in
      let position_limit := (total_portfolio_value * (20 # 100))%Q in
      let remaining_position_limit := (position_limit - current_position_value)%Q in
      let max_position_size := min remaining_position_limit (default 0%Q (cash p)) in
      {| remaining_position_limit := max_position_size;
         current_price := current_price;
         reasoning :=
           ReasonLimits total_portfolio_value current_position_value
             position_limit remaining_position_limit (default 0%Q (cash p)) |}
  end.

Definition risk_analysis_of (d : Data) : gmap string RiskEntry :=
  let current_prices := fetch_prices d in
  let total_portfolio_value := total_value (portfolio d) current_prices in
  fold_left
    (fun risk_analysis ticker =>
       <[ ticker := risk_entry (portfolio d) current_prices
                      total_portfolio_value ticker ]> risk_analysis)
    (tickers d) ∅.

Definition set_risk_signals (state : AgentState)
    (risk_analysis : gmap string RiskEntry) : AgentState :=
  let d := data state in
  {| data := {| tickers := tickers d; portfolio := portfolio d;
                start_date := start_date d; end_date := end_date d;
                analyst_signals :=
                  <[ "risk_management_agent" := RiskSignals risk_analysis ]>
                    (analyst_signals d) |};
     metadata := metadata state |}.

Definition get_risk_data (ticker : string) : SM (gmap string RiskEntry) :=
  state ← mcp_read_state;
  let risk_analysis := risk_analysis_of (data state) in
  (* Add the signal to the analyst_signals list *)
  mcp_upsert_state (set_risk_signals state risk_analysis);;
  mret risk_analysis.

End Plugin.

End RiskManager.

(** ** The models offered for selection ([src/llm/models.py]) *)

Module Models.

(** Enum for supported LLM providers. *)
Inductive ModelProvider : Type :=
| ANTHROPIC | DEEPSEEK | GEMINI | GROQ | OPENAI | OLLAMA.

(** [provider.value]. *)
Definition value (p : ModelProvider) : string :=
  match p with
  | ANTHROPIC => "Anthropic"
  | DEEPSEEK => "DeepSeek"
  | GEMINI => "Gemini"
  | GROQ => "Groq"
  | OPENAI => "OpenAI"
  | OLLAMA => "Ollama"
  end.

Definition all_providers : list ModelProvider :=
  [ANTHROPIC; DEEPSEEK; GEMINI; GROQ; OPENAI; OLLAMA].

(** [ModelProvider(text)]: the member with that value, [ValueError] when
    there is none. *)
Definition provider_of (text : string) : result ModelProvider :=
  match List.find (fun p => String.eqb (value p) text) all_providers with
  | Some p => Ok p
  | None => Raise ValueError
  end.

(** Represents an LLM model configuration. *)
Record LLMModel : Type := {
  display_name : string;
  model_name : string;
  provider : ModelProvider
}.

(** [sub in s]. *)
Fixpoint contains (sub s : string) : bool :=
  String.prefix sub s ||
  match s with
  | EmptyString => false
  | String _ s' => contains sub s'
  end.

(** Convert to format needed for questionary choices. *)
Definition to_choice_tuple (m : LLMModel) : string * string * string :=
  (display_name m, model_name m, value (provider m)).

Definition is_custom (m : LLMModel) : bool := String.eqb (model_name m) "-".

(** Check if the model is a DeepSeek model. *)
Definition is_deepseek (m : LLMModel) : bool := String.prefix "deepseek" (model_name m).

(** Check if the model is a Gemini model. *)
Definition is_gemini (m : LLMModel) : bool := String.prefix "gemini" (model_name m).

(** Check if the model is an Ollama model. *)
Definition is_ollama (m : LLMModel) : bool :=
  match provider m with OLLAMA => true | _ => false end.

(** Check if the model supports JSON mode. *)
Definition has_json_mode (m : LLMModel) : bool :=
  if is_deepseek m || is_gemini m then false
  else if is_ollama m then
    (* Only certain Ollama models support JSON mode *)
    contains "llama3" (model_name m) || contains "neural-chat" (model_name m)
  else true.

(** One entry of a models file: display_name, model_name, provider. *)
Definition model_data : Type := (string * string * string)%type.

(** Load models from a JSON file, given its entries. *)
Definition load_models_from_json (models_data : list model_data)
  : result (list LLMModel) :=
  for_each models_data
    (fun '(display, name, provider_text) models =>
       (* Convert string provider to ModelProvider enum *)
       provider_enum ← provider_of provider_text;
       Ok (models ++ [ {| display_name := display; model_name := name;
                          provider := provider_enum |} ]))
    [].

Section Loaded.

(** The models loaded from [api_models.json] and [ollama_models.json]. *)
Variable AVAILABLE_MODELS : list LLMModel.
Variable OLLAMA_MODELS : list LLMModel.

Definition LLM_ORDER : list (string * string * string) :=
  map to_choice_tuple AVAILABLE_MODELS.

Definition OLLAMA_LLM_ORDER : list (string * string * string) :=
  map to_choice_tuple OLLAMA_MODELS.

(** Get model information by model_name: the first model of that name
    and provider. *)
Definition get_model_info (name provider_text : string) : option LLMModel :=
  let all_models := AVAILABLE_MODELS ++ OLLAMA_MODELS in
  List.find
    (fun model =>
       String.eqb (model_name model) name
       && String.eqb (value (provider model)) provider_text)
    all_models.

End Loaded.

End Models.

(** ** Kernels ([src/utils/agents.py])

    Of the library [semantic_kernel] a kernel is the list of the chat
    completion services added to it; the constructors of the services and
    of the clients are taken to return. *)

Module Agents.

Inductive ChatCompletion : Type :=
| OpenAIChatCompletion (ai_model_id api_key base_url service_id : string)
| GoogleAIChatCompletion (gemini_model_id api_key service_id : string).

Definition service_id_of (service : ChatCompletion) : string :=
  match service with
  | OpenAIChatCompletion _ _ _ service_id => service_id
  | GoogleAIChatCompletion _ _ service_id => service_id
  end.

Definition Kernel : Type := list ChatCompletion.

Inductive FunctionChoiceBehavior : Type := Auto.

Record PromptExecutionSettings : Type := {
  settings_service_id : string;
  function_choice_behavior : option FunctionChoiceBehavior
}.

(** [kernel.add_service(service)]. *)
Definition add_service (service : ChatCompletion) (kernel : Kernel) : Kernel :=
  kernel ++ [service].

(** [kernel.get_prompt_execution_settings_from_service_id(service_id)]:
    the settings of the service of that id; the library raises when the
    kernel has no such service. *)
Definition get_prompt_execution_settings_from_service_id (kernel : Kernel)
    (service_id : string) : result PromptExecutionSettings :=
  match List.find (fun service => String.eqb (service_id_of service) service_id)
          kernel with
  | Some _ => Ok {| settings_service_id := service_id;
                    function_choice_behavior := None |}
  | None => Raise KernelServiceNotFoundError
  end.

Section Environment.

(** [os.environ]. *)
Variable environ : string -> option string.

(** [os.environ[name]]. *)
Definition environ_item (name : string) : result string :=
  match environ name with
  | Some value => Ok value
  | None => Raise KeyError
  end.

Definition create_kernel_with_chat_completion
    (model_id model_provider service_id : string)
  : result (Kernel * PromptExecutionSettings) :=
  let kernel : Kernel := [] in
  kernel ←
    (if String.eqb model_provider "OpenAI" then
       api_key ← environ_item "GITHUB_TOKEN";
       Ok (add_service
             (OpenAIChatCompletion model_id api_key
                "https://models.inference.ai.azure.com/" service_id) kernel)
     else if String.eqb model_provider "DeepSeek" then
       api_key ← environ_item "DEEPSEEK_API_KEY";
       Ok (add_service
             (OpenAIChatCompletion model_id api_key
                "https://api.deepseek.com/v1" service_id) kernel)
     else if String.eqb model_provider "Gemini" then
       api_key ← environ_item "GOOGLE_API_KEY";
       Ok (add_service (GoogleAIChatCompletion model_id api_key service_id) kernel)
     else Ok kernel);
  settings ← get_prompt_execution_settings_from_service_id kernel service_id;
  let settings :=
    {| settings_service_id := settings_service_id settings;
       function_choice_behavior := Some Auto |} in
  Ok (kernel, settings).

End Environment.

End Agents.

(** ** The orchestrator ([src/main.py], [src/utils/analysts.py]) *)

(** The state [run_hedge_fund] writes before anything else. *)
Definition initial_state (tickers : list string) (start_date end_date : string)
    (portfolio : Portfolio) (show_reasoning : bool)
    (model_name model_provider : string) : AgentState :=
  {| data := {| tickers := tickers; portfolio := portfolio;
                start_date := start_date; end_date := end_date;
                analyst_signals := ∅ |};
     metadata := {| show_reasoning := show_reasoning;
                    model_name := model_name;
                    model_provider := model_provider |} |}.

(** [s.replace(old, new)]: every non-overlapping occurrence, left to right. *)
Fixpoint replace_from (old new : string) (skip : nat) (s : string) : string :=
  match s with
  | EmptyString => EmptyString
  | String c s' =>
      match skip with
      | S k => replace_from old new k s'
      | O =>
          if String.prefix old s
          then new +:+ replace_from old new (String.length old - 1) s'
          else String c (replace_from old new 0 s')
      end
  end.

Definition replace (old new s : string) : string :=
  match old with
  | EmptyString =>
      new +:+ String.concat "" (map (fun c => String c new) (list_ascii_of_string s))
  | _ => replace_from old new 0 s
  end.

(** [s.split(",")]. *)
Fixpoint split_comma_from (cur : string) (s : string) : list string :=
  match s with
  | EmptyString => [cur]
  | String c s' =>
      if Ascii.eqb c "," then cur :: split_comma_from "" s'
      else split_comma_from (cur +:+ String c "") s'
  end.

Definition split_comma (s : string) : list string := split_comma_from "" s.

(** [str.strip()].  Text is held as its UTF-8 bytes.  The characters
    Python strips are those for which [str.isspace] holds: U+0009 to
    U+000D, U+001C to U+0020, U+0085, U+00A0, U+1680, U+2000 to U+200A,
    U+2028, U+2029, U+202F, U+205F and U+3000, here by their encodings. *)
Definition bytes (codes : list nat) : string :=
  string_of_list_ascii (map ascii_of_nat codes).

Definition whitespace : list string :=
  map bytes
    [ [9]; [10]; [11]; [12]; [13]; [28]; [29]; [30]; [31]; [32];
      [194; 133]; [194; 160]; [225; 154; 128];
      [226; 128; 128]; [226; 128; 129]; [226; 128; 130]; [226; 128; 131];
      [226; 128; 132]; [226; 128; 133]; [226; 128; 134]; [226; 128; 135];
      [226; 128; 136]; [226; 128; 137]; [226; 128; 138];
      [226; 128; 168]; [226; 128; 169]; [226; 128; 175];
      [226; 129; 159]; [227; 128; 128] ]%nat.

(** The character of [chars] that [s] begins with, if any. *)
Definition leading (chars : list string) (s : string) : option string :=
  List.find (fun c => String.prefix c s) chars.

(** [s] without the characters of [chars] it begins with; [skip] bytes
    of the character being removed are still to go. *)
Fixpoint lstrip_from (chars : list string) (skip : nat) (s : string) : string :=
  match s with
  | EmptyString => EmptyString
  | String _ s' =>
      match skip with
      | S k => lstrip_from chars k s'
      | O =>
          match leading chars s with
          | Some c => lstrip_from chars (String.length c - 1) s'
          | None => s
          end
      end
  end.

Definition reverse (s : string) : string :=
  string_of_list_ascii (rev (list_ascii_of_string s)).

Definition lstrip (s : string) : string := lstrip_from whitespace 0 s.

(** A text ends with a character exactly when its bytes, reversed, begin
    with the reversed bytes of that character. *)
Definition rstrip (s : string) : string :=
  reverse (lstrip_from (map reverse whitespace) 0 (reverse s)).

Definition strip (s : string) : string := rstrip (lstrip s).

Module Main.

(** One entry of [agents_config.json]. *)
Record AnalystConfig : Type := {
  display_name : string;
  order : Z;
  agent_instructions : string;
  agent_message_template : string;
  agent_plugins : list string
}.

(** A [ChatCompletionAgent]; [plugins] names the plugin classes
    instantiated for it. *)
Record Agent : Type := {
  name : string;
  instructions : string;
  kernel : Agents.Kernel;
  plugins : list string
}.

(** [create_agent] of [src/utils/agents.py]. *)
Definition create_agent (name : string) (kernel : Agents.Kernel)
    (instructions : string) (plugins : list string) : Agent :=
  {| name := name; instructions := instructions; kernel := kernel;
     plugins := plugins |}.

(** The state store together with the log of agent invocations,
    [(agent.name, user_message)] in the order they are made. *)
Record World : Type := {
  store : Store;
  invocations : list (string * string)
}.

Definition IO (A : Type) : Type := World -> result A * World.

#[global] Instance io_mret : MRet IO := fun A a w => (Ok a, w).
#[global] Instance io_mbind : MBind IO := fun A B f m w =>
  match m w with
  | (Ok a, w') => f a w'
  | (Raise e, w') => (Raise e, w')
  end.

Definition io_result {A} (r : result A) : IO A := fun w => (r, w).

Definition io_store {A} (m : SM A) : IO A := fun w =>
  let '(r, st) := m (store w) in
  (r, {| store := st; invocations := invocations w |}).

Record RunResult : Type := {
  decisions : option Json;
  analyst_signals : gmap string (option Json)
}.

Definition plugin_registry : list string :=
  [ "AnalysisDataPlugin4AswathDamodaran"; "AnalysisDataPlugin4CathieWood";
    "AnalysisDataPlugin4BenGraham"; "AnalysisDataPlugin4BillAckman";
    "AnalysisDataPlugin4CharlieMunger"; "AnalysisDataPlugin4MichaelBurry";
    "AnalysisDataPlugin4PeterLynch"; "AnalysisDataPlugin4PhilFisher";
    "AnalysisDataPlugin4RakeshJhunjhunwala";
    "AnalysisDataPlugin4StanleyDruckenmiller";
    "AnalysisDataPlugin4WarrenBuffett"; "PorfolioDataPlugin"; "RiskDataPlugin" ].

(** The command line of [__main__], as [argparse] returns it. *)
Record Args : Type := {
  initial_cash : Q;
  margin_requirement_arg : Q;
  tickers_arg : string;
  start_date_arg : option string;
  end_date_arg : option string;
  show_reasoning_arg : bool;
  show_agent_graph_arg : bool;
  ollama_arg : bool
}.

(** What the user answers at the prompts of the model selection; [None]
    is an interrupted prompt. *)
Record Prompts : Type := {
  ollama_model_prompt : option string;
  model_choice_prompt : option (string * string);
  custom_model_prompt : option string
}.

(** Keys of a dict comprehension over [l]: first occurrences, in order. *)
Fixpoint dict_keys (seen : list string) (l : list string) : list string :=
  match l with
  | [] => []
  | x :: l' =>
      if str_in x seen then dict_keys seen l' else x :: dict_keys (x :: seen) l'
  end.

Definition empty_position : Position :=
  {| long := Some 0%Q; short := Some 0%Q; long_cost_basis := Some 0%Q;
     short_cost_basis := Some 0%Q; short_margin_used := Some 0%Q |}.

(** Initialize portfolio with cash amount and stock positions. *)
Definition initial_portfolio (args : Args) (tickers : list string) : Portfolio :=
  {| cash := Some (initial_cash args);
     margin_requirement := margin_requirement_arg args;
     margin_used := 0%Q;
     positions := Some (map (fun ticker => (ticker, empty_position))
                            (dict_keys [] tickers));
     realized_gains :=
       map (fun ticker => (ticker, {| rg_long := 0%Q; rg_short := 0%Q |}))
           (dict_keys [] tickers) |}.

(** An optional text argument that is given and not empty. *)
Definition given (o : option string) : option string :=
  match o with
  | Some EmptyString => None
  | _ => o
  end.

Section Program.

(** The content of [agents_config.json], as [items()]. *)
Variable ANALYST_CONFIG : list (string * AnalystConfig).

(** The language-model backend behind [agent.invoke]: from the agent,
    the message and the store it can reach through the agent's plugins,
    the text of the first response and the store it leaves. *)
Variable llm : Agent -> string -> Store -> string * Store.

(** [re.search] of the json code fence (its group 1) and [json.loads]
    ([None] is [JSONDecodeError]). *)
Variable search_json_fence : string -> option string.
Variable json_loads : string -> option Json.

(** [os.environ]. *)
Variable environ : string -> option string.

(** Parses a JSON string and returns a dictionary, [None] on failure. *)
Definition parse_hedge_fund_response (response : string) : option Json :=
  match search_json_fence response with
  | Some group1 => json_loads (strip group1)
  | None => json_loads response
  end.

Definition invoke_agent (agent : Agent) (user_message : string) : IO string :=
  fun w =>
    let '(response, st) := llm agent user_message (store w) in
    (Ok response,
     {| store := st;
        invocations := invocations w ++ [(name agent, user_message)] |}).

(** Get the mapping of analyst keys to their
    (node_name, instructions, user_message_template, plugins) tuples. *)
Definition get_analyst_nodes
  : list (string * (string * string * string * list string)) :=
  map (fun '(key, config) =>
         (key, (key +:+ "_agent", agent_instructions config,
                agent_message_template config, agent_plugins config)))
      ANALYST_CONFIG.

(** [d[key]] on the [items()] of a dict. *)
Definition lookup_key {V} (key : string) (d : list (string * V)) : result V :=
  match List.find (fun kv => String.eqb kv.1 key) d with
  | Some kv => Ok kv.2
  | None => Raise KeyError
  end.

(** The steps [create_agents] takes for one key: the node of the key, its
    plugins that are in the registry, the agent. *)
Definition make_agent (kernel : Agents.Kernel) (analyst_key : string)
  : result (Agent * string) :=
  '(node_name, instructions, user_message_template, plugins) ←
    lookup_key analyst_key get_analyst_nodes;
  let plugin_instances :=
    List.filter (fun plugin_name => str_in plugin_name plugin_registry) plugins in
  Ok (create_agent node_name kernel instructions plugin_instances,
      user_message_template).

Definition create_agents (selected_analysts : list string)
    (model_id model_provider : string) : result (list (Agent * string)) :=
  '(kernel, settings) ←
    Agents.create_kernel_with_chat_completion environ model_id model_provider
      "HedgeFundAgent";
  (* Add selected analyst nodes *)
  agents ← for_each selected_analysts
              (fun analyst_key agents =>
                 agent ← make_agent kernel analyst_key; Ok (agents ++ [agent])) [];
  (* add the portfolio manager agent to the chain of agents *)
  agent ← make_agent kernel "portfolio_manager";
  Ok (agents ++ [agent]).

(** The variables [response] and [analysis_data] of one ticker's turn:
    [response] is [None] until the first agent has answered. *)
Definition chain_vars : Type := (option string * gmap string (option Json))%type.

Definition run_agent (ticker end_date : string) (a : Agent * string)
    (vars : chain_vars) : IO chain_vars :=
  let '(agent, user_message_template) := a in
  let '(response, analysis_data) := vars in
  let user_message :=
    replace "{$end_date}" end_date (replace "{$ticker}" ticker user_message_template) in
  let user_message :=
    match response with
    | Some content => replace "{$analysis_data}" content user_message
    | None => user_message
    end in
  response ← invoke_agent agent user_message;
  let analysis_data :=
    if negb (String.eqb (name agent) "portfolio_manager_agent") then
      <[ name agent := parse_hedge_fund_response response ]> analysis_data
    else analysis_data in
  mret (Some response, analysis_data).

(** One turn of the loop over the tickers. *)
Definition run_ticker (agents : list (Agent * string)) (end_date ticker : string)
  : IO chain_vars :=
  for_each agents (run_agent ticker end_date) (None, ∅).

Definition run_hedge_fund (tickers : list string) (start_date end_date : string)
    (portfolio : Portfolio) (show_reasoning : bool)
    (selected_analysts : list string) (model_name model_provider : string)
  : IO RunResult :=
  let state := initial_state tickers start_date end_date portfolio
                 show_reasoning model_name model_provider in
  io_store (mcp_upsert_state state);;
  (* Create the agents with selected analysts *)
  agents ← io_result (create_agents selected_analysts model_name model_provider);
  (* [None]: [response] and [analysis_data] are not bound yet *)
  vars ← for_each tickers
           (fun ticker _ =>
              vars ← run_ticker agents end_date ticker; mret (Some vars)) None;
  match vars with
  | None => io_result (Raise UnboundLocalError)
  | Some (None, _) => io_result (Raise AttributeError)
  | Some (Some response, analysis_data) =>
      mret {| decisions := parse_hedge_fund_response response;
              analyst_signals := analysis_data |}
  end.

(** [datetime.strptime(s, "%Y-%m-%d")] ([None] is [ValueError]), the
    text of today's date, and the text of the date three months before
    a date. *)
Variable Date : Type.
Variable strptime : string -> option Date.
Variable today : string.
Variable three_months_before : Date -> string.

(** Validate dates if provided. *)
Definition validate_date (d : option string) : result unit :=
  match given d with
  | Some s =>
      match strptime s with
      | Some _ => Ok tt
      | None => Raise ValueError
      end
  | None => Ok tt
  end.

(** Set the start and end dates. *)
Definition resolve_dates (args : Args) : result (string * string) :=
  validate_date (start_date_arg args);;
  validate_date (end_date_arg args);;
  let end_date := default today (given (end_date_arg args)) in
  start_date ←
    match given (start_date_arg args) with
    | None =>
        (* Calculate 3 months before end_date *)
        match strptime end_date with
        | Some end_date_obj => Ok (three_months_before end_date_obj)
        | None => Raise ValueError
        end
    | Some start_date => Ok start_date
    end;
  Ok (start_date, end_date).

(** The models of [src.llm.models], and [ensure_ollama_and_model] of
    [src.utils.ollama]. *)
Variable AVAILABLE_MODELS : list Models.LLMModel.
Variable OLLAMA_MODELS : list Models.LLMModel.
Variable ensure_ollama_and_model : string -> bool.

(** Select LLM model based on whether Ollama is being used. *)
Definition select_model (args : Args) (answers : Prompts)
  : result (string * string) :=
  if ollama_arg args then
    (* Select from Ollama-specific models *)
    match given (ollama_model_prompt answers) with
    | None => Raise (SystemExit 0)
    | Some model_name =>
        model_name ←
          (if String.eqb model_name "-" then
             match given (custom_model_prompt answers) with
             | None => Raise (SystemExit 0)
             | Some model_name => Ok model_name
             end
           else Ok model_name);
        (* Ensure Ollama is installed, running, and the model is available *)
        if negb (ensure_ollama_and_model model_name) then Raise (SystemExit 1)
        else Ok (model_name, Models.value Models.OLLAMA)
    end
  else
    (* Use the standard cloud-based LLM selection *)
    match model_choice_prompt answers with
    | None => Raise (SystemExit 0)
    | Some (model_name, model_provider) =>
        (* Get model info using the helper function *)
        match Models.get_model_info AVAILABLE_MODELS OLLAMA_MODELS
                model_name model_provider with
        | Some model_info =>
            if Models.is_custom model_info then
              match given (custom_model_prompt answers) with
              | None => Raise (SystemExit 0)
              | Some model_name => Ok (model_name, model_provider)
              end
            else Ok (model_name, model_provider)
        | None => Ok (model_name, "Unknown")
        end
    end.

(** The script: [choices] is the analyst selection made at the prompt,
    [answers] what is answered at the prompts of the model selection. *)
Definition main (args : Args) (choices : list string) (answers : Prompts)
  : IO RunResult :=
  (* Parse tickers from comma-separated string *)
  let tickers := map strip (split_comma (tickers_arg args)) in
  if is_empty choices then io_result (Raise (SystemExit 0))
  else
    '(model_name, model_provider) ← io_result (select_model args answers);
    '(start_date, end_date) ← io_result (resolve_dates args);
    let portfolio := initial_portfolio args tickers in
    run_hedge_fund tickers start_date end_date portfolio
      (show_reasoning_arg args) choices model_name model_provider.

End Program.

End Main.

(** ** The analysts offered for selection ([src/utils/analysts.py]) *)

Module Analysts.

(** [sorted(l, key=key)]: every element is put behind the elements whose
    key is not greater, so that equal keys keep their order (the sort of
    Python is stable). *)
Fixpoint insert_sorted {A : Type} (key : A -> Z) (x : A) (l : list A) : list A :=
  match l with
  | [] => [x]
  | y :: l' => if key x <? key y then x :: l else y :: insert_sorted key x l'
  end.

Definition sorted {A : Type} (key : A -> Z) (l : list A) : list A :=
  fold_left (fun acc x => insert_sorted key x acc) l [].

(** The entries the comprehension of [ANALYST_ORDER] runs over: the items
    of the configuration sorted by ["order"], those with an order of at
    most 10. *)
Definition offered (ANALYST_CONFIG : list (string * Main.AnalystConfig))
  : list (string * Main.AnalystConfig) :=
  List.filter (fun kv => Main.order kv.2 <=? 10)
    (sorted (fun kv => Main.order kv.2) ANALYST_CONFIG).

(** [ANALYST_ORDER]: the pairs (display_name, key). *)
Definition ANALYST_ORDER (ANALYST_CONFIG : list (string * Main.AnalystConfig))
  : list (string * string) :=
  map (fun kv => (Main.display_name kv.2, kv.1)) (offered ANALYST_CONFIG).

End Analysts.

(** ** The listings of the analysts ([src/utils/analysts.py]) *)

Module AnalystLists.

(** One agent of [get_agents_list]. *)
Record AgentEntry : Type := {
  key : string;
  display_name : string;
  description : string;
  investing_style : string;
  order : Z
}.

(** One agent of a group of [get_agents_by_investing_style]. *)
Record GroupedAgent : Type := {
  g_key : string;
  g_display_name : string;
  g_description : string;
  g_order : Z
}.

(** [groups[style].append(agent)], after [groups[style] = []] when the
    style is not a key yet; the keys keep the order in which they come. *)
Fixpoint append_to (style : string) (agent : GroupedAgent)
    (groups : list (string * list GroupedAgent)) : list (string * list GroupedAgent) :=
  match groups with
  | [] => [(style, [agent])]
  | (s, agents) :: groups' =>
      if String.eqb s style then (s, agents ++ [agent]) :: groups'
      else (s, agents) :: append_to style agent groups'
  end.

Section Listings.

Variable ANALYST_CONFIG : list (string * Main.AnalystConfig).

(** The fields ["description"] and ["investing_style"] of an entry of the
    configuration. *)
Variable config_description : Main.AnalystConfig -> string.
Variable config_investing_style : Main.AnalystConfig -> string.

(** Get the list of agents for API responses. *)
Definition get_agents_list : list AgentEntry :=
  map (fun '(key, config) =>
         {| key := key;
            display_name := Main.display_name config;
            description := config_description config;
            investing_style := config_investing_style config;
            order := Main.order config |})
      (Analysts.sorted (fun kv => Main.order kv.2) ANALYST_CONFIG).

(** Get all unique investing styles; a set has no order of its own. *)
Definition get_investing_styles : list string :=
  elements (list_to_set (map (fun kv => config_investing_style kv.2) ANALYST_CONFIG)
            : gset string).

(** Get agents grouped by investing style. *)
Definition get_agents_by_investing_style : list (string * list GroupedAgent) :=
  let groups :=
    fold_left
      (fun groups '(key, config) =>
         append_to (config_investing_style config)
           {| g_key := key;
              g_display_name := Main.display_name config;
              g_description := config_description config;
              g_order := Main.order config |} groups)
      ANALYST_CONFIG [] in
  (* Sort agents within each group by order *)
  map (fun '(style, agents) => (style, Analysts.sorted g_order agents)) groups.

End Listings.

End AnalystLists.

(** * Statements of the specification

    Definitions the properties below are stated with. *)

(** The rule of the specification for a signal [sig] given the pair
    [(total, max)]. *)
Definition threshold_rule (sig : Signal) (total max : Z) : Prop :=
  (sig = bullish <-> ((7 # 10) * inject_Z max <= inject_Z total)%Q) /\
  (sig = bearish <-> (inject_Z total <= (3 # 10) * inject_Z max)%Q) /\
  (sig = neutral <->
     ~ ((7 # 10) * inject_Z max <= inject_Z total)%Q /\
     ~ (inject_Z total <= (3 # 10) * inject_Z max)%Q).

(** The discounted-cash-flow value of the specification: the sum of the
    [N] discounted projected cash flows and the discounted terminal value. *)
Definition Qsum_over (years : list Z) (term : Z -> Q) : Q :=
  fold_right (fun t acc => (term t + acc)%Q) 0%Q years.

Definition dcf_value (fcf g r m : Q) (N : nat) : Q :=
  (Qsum_over (range 1 N) (fun t => fcf * (1 + g) ^ t / (1 + r) ^ t)
   + fcf * (1 + g) ^ Z.of_nat N * m / (1 + r) ^ Z.of_nat N)%Q.

(** A signal together with the pair [(total_score, max_score)] it was
    computed from, for either persona and any data the provider returns. *)
Inductive computed_signal (sig : Signal) (total max : Z) : Prop :=
| computed_by_ackman
    (fmt : string -> Q -> string)
    (get_financial_metrics :
       string -> string -> option string -> option Z -> list Metrics)
    (search_line_items :
       string -> list string -> string -> option string -> option Z -> list LineItem)
    (get_market_cap : string -> string -> option Q)
    (ticker end_date : string)
    (records : gmap string BillAckman.SignalRecord) (r : BillAckman.SignalRecord) :
    BillAckman.get_analysis_data fmt get_financial_metrics search_line_items
      get_market_cap ticker end_date = Ok records ->
    records !! ticker = Some r ->
    sig = BillAckman.signal r ->
    total = BillAckman.total_score r ->
    max = BillAckman.max_score r ->
    computed_signal sig total max
| computed_by_burry
    (fmt : string -> Q -> string)
    (get_financial_metrics :
       string -> string -> option string -> option Z -> list Metrics)
    (search_line_items :
       string -> list string -> string -> option string -> option Z -> list LineItem)
    (get_market_cap : string -> string -> option Q)
    (get_insider_trades : string -> string -> string -> list InsiderTrade)
    (get_company_news : string -> string -> string -> Z -> list News)
    (one_year_before : string -> result string)
    (ticker end_date : string)
    (records : gmap string MichaelBurry.SignalRecord) (r : MichaelBurry.SignalRecord) :
    MichaelBurry.get_analysis_data fmt get_financial_metrics search_line_items
      get_market_cap get_insider_trades get_company_news one_year_before
      ticker end_date = Ok records ->
    records !! ticker = Some r ->
    sig = MichaelBurry.signal r ->
    total = MichaelBurry.total_score r ->
    max = MichaelBurry.max_score r ->
    computed_signal sig total max.

(** The valuation sub-analysis as the specification words it: a positive
    latest free cash flow always yields the discounted-cash-flow value. *)
Definition valuation_as_specified (fmt : string -> Q -> string)
    (items : list LineItem) (market_cap : option Q) : Prop :=
  forall latest fcf,
    head items = Some latest ->
    free_cash_flow latest = Some fcf ->
    (0 < fcf)%Q ->
    exists v iv,
      BillAckman.analyze_valuation fmt items market_cap = Ok v
      /\ BillAckman.intrinsic_value v = Some (Some iv)
      /\ (iv == dcf_value fcf (6 # 100) (10 # 100) 15 5)%Q.

(** ** The risk calculator as the specification words it *)

(** Net liquidation value: cash plus, over the positions whose ticker has a
    price, long shares times price minus short shares times price. *)
Definition net_liquidation_value (cash : Q) (positions : list (string * Position))
    (price : string -> option Q) : Q :=
  (cash +
   fold_right
     (fun '(ticker, position) acc =>
        match price ticker with
        | Some p => default 0 (long position) * p - default 0 (short position) * p + acc
        | None => acc
        end) 0 positions)%Q.

(** The positions without those of [ticker]. *)
Definition drop_position (ticker : string) (positions : list (string * Position))
  : list (string * Position) :=
  List.filter (fun kv => negb (String.eqb kv.1 ticker)) positions.

(** The position value of specification section 4.5, step 3:
    [|long_shares * price - short_shares| * price]. *)
Definition position_value_as_specified (long_shares short_shares price : Q) : Q :=
  (Qabs (long_shares * price - short_shares) * price)%Q.

(** ** The store and the pipeline as the specification words them *)

(** A persona plugin called while the store holds some state: the plugin
    has no access to the store. *)
Definition call_persona {A} (plugin : result A) : SM A := sm_lift plugin.

(** The store holds a record of [persona] for [ticker] in [analyst_signals]. *)
Definition merged_into_store (persona ticker : string) (st : Store) : Prop :=
  exists state signals,
    st = Some state
    /\ analyst_signals (data state) !! persona = Some signals
    /\ match signals with
       | AckmanSignals records => is_Some (records !! ticker)
       | BurrySignals records => is_Some (records !! ticker)
       | RiskSignals records => is_Some (records !! ticker)
       end.

(** A run that is rejected before the pipeline starts: it fails, no state
    is written and no stage is invoked. *)
Definition rejected_before_pipeline {A} (w : Main.World)
    (outcome : result A * Main.World) : Prop :=
  is_ok outcome.1 = false
  /\ Main.store outcome.2 = Main.store w
  /\ Main.invocations outcome.2 = Main.invocations w.

(** The names of the agents of a pipeline, in the order of the chain. *)
Definition agent_names (agents : list (Main.Agent * string)) : list string :=
  map (fun a => Main.name a.1) agents.

(** [decisions] has an entry for every ticker. *)
Definition covers_tickers (tickers : list string) (decisions : option Json) : Prop :=
  forall t, t ∈ tickers ->
    exists j, decisions = Some j /\ has_key t j = true.

(** The message a stage receives: the template with the ticker and the end
    date substituted and, when a stage ran before it, the response of that
    stage in place of the analysis-data placeholder. *)
Definition stage_message (ticker end_date template : string)
    (previous : option string) : string :=
  let user_message :=
    replace "{$end_date}" end_date (replace "{$ticker}" ticker template) in
  match previous with
  | Some content => replace "{$analysis_data}" content user_message
  | None => user_message
  end.

(** One turn of the loop of [run_hedge_fund] over the tickers: the chain of
    the ticker runs, whatever the turn before left in the variables. *)
Definition ticker_turn (llm : Main.Agent -> string -> Store -> string * Store)
    (search_json_fence : string -> option string)
    (json_loads : string -> option Json)
    (agents : list (Main.Agent * string)) (end_date : string)
    (ticker : string) (_ : option Main.chain_vars)
  : Main.IO (option Main.chain_vars) :=
  vars ← Main.run_ticker llm search_json_fence json_loads agents end_date ticker;
  mret (Some vars).

(** ** Notions the further properties are stated with *)

(** The environment variable that holds the token of a provider, for the
    providers the code knows. *)
Definition token_variable (model_provider : string) : option string :=
  if String.eqb model_provider "OpenAI" then Some "GITHUB_TOKEN"
  else if String.eqb model_provider "DeepSeek" then Some "DEEPSEEK_API_KEY"
  else if String.eqb model_provider "Gemini" then Some "GOOGLE_API_KEY"
  else None.

(** An agent that is built from the entry [config] under [key], on
    [kernel]. *)
Definition built_from (key : string) (config : Main.AnalystConfig)
    (kernel : Agents.Kernel) (a : Main.Agent * string) : Prop :=
  Main.name a.1 = key +:+ "_agent"
  /\ Main.instructions a.1 = Main.agent_instructions config
  /\ Main.kernel a.1 = kernel
  /\ a.2 = Main.agent_message_template config
  /\ Main.plugins a.1
     = List.filter (fun plugin_name => str_in plugin_name Main.plugin_registry)
         (Main.agent_plugins config).

(** ** Sample inputs *)

Module Sample.

(** A number format that prints nothing. *)
Definition fmt : string -> Q -> string := fun _ _ => "".

(** A line item that reports a free cash flow and nothing else. *)
Definition line_item (fcf : Q) : LineItem :=
  {| revenue := None; operating_margin := None; debt_to_equity := None;
     free_cash_flow := Some fcf; total_assets := None;
     total_liabilities := None;
     dividends_and_other_cash_distributions := None;
     outstanding_shares := None; cash_and_equivalents := None;
     total_debt := None |}.

Definition metrics : Metrics :=
  {| return_on_equity := None; ev_to_ebit := None; m_debt_to_equity := None |}.

(** A provider with no data at all. *)
Definition no_metrics
  : string -> string -> option string -> option Z -> list Metrics :=
  fun _ _ _ _ => [].
Definition no_line_items
  : string -> list string -> string -> option string -> option Z -> list LineItem :=
  fun _ _ _ _ _ => [].
Definition no_market_cap : string -> string -> option Q := fun _ _ => None.

(** A provider that reports one period with a free cash flow of 100 and a
    market capitalisation of zero. *)
Definition one_metrics
  : string -> string -> option string -> option Z -> list Metrics :=
  fun _ _ _ _ => [metrics].
Definition one_line_item
  : string -> list string -> string -> option string -> option Z -> list LineItem :=
  fun _ _ _ _ _ => [line_item 100].
Definition zero_market_cap : string -> string -> option Q := fun _ _ => Some 0%Q.

(** Prices: a price record is its close; ACME closed at [close], any
    other ticker has no prices. *)
Definition prices_of (close : Q) : string -> string -> string -> list Q :=
  fun ticker _ _ => if String.eqb ticker "ACME" then [close] else [].
Definition close_column : list Q -> list Q := fun prices => prices.

(** ACME and OTHER both closed at 10. *)
Definition prices_of_two : string -> string -> string -> list Q :=
  fun ticker _ _ =>
    if String.eqb ticker "ACME" then [10%Q]
    else if String.eqb ticker "OTHER" then [10%Q] else [].

Definition position (long_shares short_shares : Q) : Position :=
  {| long := Some long_shares; short := Some short_shares;
     long_cost_basis := Some 0%Q; short_cost_basis := Some 0%Q;
     short_margin_used := Some 0%Q |}.

Definition portfolio_of (cash : Q) (positions : list (string * Position))
  : Portfolio :=
  {| cash := Some cash; margin_requirement := 0%Q; margin_used := 0%Q;
     positions := Some positions; realized_gains := [] |}.

Definition data_of (tickers : list string) (p : Portfolio) : Data :=
  {| tickers := tickers; portfolio := p;
     start_date := "2024-01-01"; end_date := "2024-03-31";
     analyst_signals := ∅ |}.

(** A state document with the two keys of an AgentState, and a codec
    that knows this document only. *)
Definition state_doc : Json :=
  JDict [ ("data", JDict [ ("tickers", JList [JStr "ACME"]);
                           ("analyst_signals", JDict []) ]);
          ("metadata", JDict [ ("show_reasoning", JBool false) ]) ].
Definition json_dumps : Json -> string := fun _ => "state_doc".
Definition json_loads : string -> option Json :=
  fun text => if String.eqb text "state_doc" then Some state_doc else None.

(** An agent table with one analyst and the portfolio manager. *)
Definition analyst_config : list (string * Main.AnalystConfig) :=
  [ ("bill_ackman",
     {| Main.display_name := "Bill Ackman"; Main.order := 3;
        Main.agent_instructions := "Analyse like an activist investor.";
        Main.agent_message_template := "{$ticker}";
        Main.agent_plugins := ["AnalysisDataPlugin4BillAckman"] |});
    ("portfolio_manager",
     {| Main.display_name := "Portfolio Manager"; Main.order := 12;
        Main.agent_instructions := "Decide.";
        Main.agent_message_template := "{$ticker}";
        Main.agent_plugins := ["PorfolioDataPlugin"; "RiskDataPlugin"] |}) ].

(** A backend that answers with the ticker it was asked about and leaves
    the store alone, and a decoder that reads an answer T as the document
    with the one key T. *)
Definition llm : Main.Agent -> string -> Store -> string * Store :=
  fun _ user_message st => (user_message, st).
Definition no_json_fence : string -> option string := fun _ => None.
Definition decode_answer : string -> option Json :=
  fun answer => Some (JDict [(answer, JStr "hold")]).

(** Dates as (year, month, day); text of the form YYYY-MM-DD. *)
Definition Date : Type := (Z * Z * Z)%type.

Definition digit (c : ascii) : option Z :=
  let n := nat_of_ascii c in
  if (48 <=? n)%nat && (n <=? 57)%nat then Some (Z.of_nat (n - 48)) else None.

Definition number (cs : list ascii) : option Z :=
  fold_left (fun acc c => a ← acc; d ← digit c; Some (10 * a + d)) cs (Some 0).

Definition strptime (s : string) : option Date :=
  match list_ascii_of_string s with
  | [y1; y2; y3; y4; dash1; m1; m2; dash2; d1; d2] =>
      if Ascii.eqb dash1 "-" && Ascii.eqb dash2 "-" then
        y ← number [y1; y2; y3; y4];
        m ← number [m1; m2];
        d ← number [d1; d2];
        if (1 <=? m) && (m <=? 12) && (1 <=? d) && (d <=? 31)
        then Some (y, m, d) else None
      else None
  | _ => None
  end.

Definition date_before (a b : Date) : Prop :=
  let '(y1, m1, d1) := a in
  let '(y2, m2, d2) := b in
  y1 < y2 \/ (y1 = y2 /\ (m1 < m2 \/ (m1 = m2 /\ d1 < d2))).

Definition three_months_before : Date -> string := fun _ => "2023-10-01".

Definition args (start_date end_date : option string) : Main.Args :=
  {| Main.initial_cash := 100000; Main.margin_requirement_arg := 0;
     Main.tickers_arg := "AAPL,MSFT";
     Main.start_date_arg := start_date; Main.end_date_arg := end_date;
     Main.show_reasoning_arg := false; Main.show_agent_graph_arg := false;
     Main.ollama_arg := false |}.

(** An environment with the token of the OpenAI provider and nothing
    else, one cloud model, no Ollama model, and a user who picks that
    model. *)
Definition environ : string -> option string :=
  fun name => if String.eqb name "GITHUB_TOKEN" then Some "token" else None.

Definition available_models : list Models.LLMModel :=
  [ {| Models.display_name := "[openai] gpt 4o mini";
       Models.model_name := "gpt-4o-mini";
       Models.provider := Models.OPENAI |} ].

Definition no_ollama : string -> bool := fun _ => false.

Definition answers : Main.Prompts :=
  {| Main.ollama_model_prompt := None;
     Main.model_choice_prompt := Some ("gpt-4o-mini", "OpenAI");
     Main.custom_model_prompt := None |}.

Definition empty_world : Main.World :=
  {| Main.store := None; Main.invocations := [] |}.

End Sample.

(** * Properties *)

(** ** Arithmetic of the run-time conventions *)

Lemma Qlt_bool_iff (x y : Q) : Qlt_bool x y = true <-> (x < y)%Q.
Proof.
  unfold Qlt_bool. rewrite negb_true_iff, <- not_true_iff_false, Qle_bool_iff.
  split; [apply Qnot_le_lt | apply Qlt_not_le].
Qed.

Lemma Qlt_bool_false_iff (x y : Q) : Qlt_bool x y = false <-> (y <= x)%Q.
Proof.
  unfold Qlt_bool. rewrite negb_false_iff. apply Qle_bool_iff.
Qed.

Lemma Qle_bool_false_iff (x y : Q) : Qle_bool x y = false <-> (y < x)%Q.
Proof.
  rewrite <- not_true_iff_false, Qle_bool_iff.
  split; [apply Qnot_le_lt | apply Qlt_not_le].
Qed.

Lemma nonzero_iff (x : Q) : nonzero x = true <-> ~ (x == 0)%Q.
Proof.
  unfold nonzero. rewrite negb_true_iff, <- not_true_iff_false, Qeq_bool_iff.
  reflexivity.
Qed.

Lemma div_ok (a b : Q) : ~ (b == 0)%Q -> div a b = Ok (a / b)%Q.
Proof.
  intros Hb. unfold div.
  destruct (Qeq_bool b 0) eqn:E; [|reflexivity].
  apply Qeq_bool_iff in E. contradiction.
Qed.

Lemma div_zero (a b : Q) : (b == 0)%Q -> div a b = Raise ZeroDivisionError.
Proof.
  intros Hb. unfold div. apply Qeq_bool_iff in Hb. now rewrite Hb.
Qed.

Lemma Qabs_nonzero (x : Q) : ~ (x == 0)%Q -> ~ (Qabs x == 0)%Q.
Proof.
  intros Hx H. apply Hx.
  destruct (Qlt_le_dec x 0) as [Hneg | Hpos].
  - rewrite Qabs_neg in H by lra. lra.
  - rewrite Qabs_pos in H by lra. exact H.
Qed.

Lemma first_ok {A} (l : list A) : (0 < len l) -> exists x, first l = Ok x.
Proof.
  destruct l as [|x l]; unfold len; simpl; [lia | eauto].
Qed.

Lemma last_ok {A} (l : list A) : (0 < len l) -> exists x, last l = Ok x.
Proof.
  unfold last, len. intros H.
  destruct (list.last l) as [x|] eqn:E; [eauto|].
  apply last_None in E. subst l. simpl in H. lia.
Qed.

Lemma len_nonneg {A} (l : list A) : 0 <= len l.
Proof. unfold len. lia. Qed.

Lemma is_empty_false_len {A} (l : list A) : is_empty l = false -> 0 < len l.
Proof. destruct l; unfold len; simpl; [discriminate | lia]. Qed.

(** ** The threshold rule of the aggregator *)

Lemma classify_threshold_rule (total max : Z) :
  0 < max -> threshold_rule (classify total max) total max.
Proof.
  intros Hmax.
  assert (Hm : (0 < inject_Z max)%Q).
  { change 0%Q with (inject_Z 0). rewrite <- Zlt_Qlt. exact Hmax. }
  unfold threshold_rule, classify.
  destruct (Qle_bool ((7 # 10) * inject_Z max) (inject_Z total)) eqn:Hbull.
  - apply Qle_bool_iff in Hbull.
    repeat split; intros; try discriminate; try assumption; try reflexivity;
      try lra; tauto.
  - apply Qle_bool_false_iff in Hbull.
    destruct (Qle_bool (inject_Z total) ((3 # 10) * inject_Z max)) eqn:Hbear.
    + apply Qle_bool_iff in Hbear.
      repeat split; intros; try discriminate; try assumption; try reflexivity;
        try lra; tauto.
    + apply Qle_bool_false_iff in Hbear.
      repeat split; intros; try discriminate; try reflexivity; try lra.
Qed.

(** ** Sub-analyses: totality and score bounds *)

(** Name the first computation of a sequence and continue with its value,
    given a property [P] of that value. *)
Ltac bind_step P :=
  match goal with
  | |- exists a, (?m ≫= ?f) = Ok a /\ _ =>
      let t := fresh "t" in
      let E := fresh "E" in
      cut (exists t, m = Ok t /\ P t);
      [ intros (t & E & ?); rewrite E; change (Ok t ≫= f) with (f t); cbv beta
      | ]
  end.

Ltac split_conditions :=
  repeat match goal with
    | |- context [if ?c then _ else _] => destruct c eqn:?
    | |- context [match ?o with Some _ => _ | None => _ end] => destruct o eqn:?
    | |- context [match ?l with [] => _ | _ :: _ => _ end] => destruct l eqn:?
    end.

Ltac finish_ok := eexists; (split; [reflexivity|]); cbn; try lia.

Section AckmanBounds.

Variable fmt : string -> Q -> string.

Lemma analyze_business_quality_bounds metrics items :
  exists a, BillAckman.analyze_business_quality fmt metrics items = Ok a
            /\ 0 <= score a <= 7.
Proof.
  unfold BillAckman.analyze_business_quality.
  destruct (is_empty metrics || is_empty items) eqn:He; [finish_ok|].
  apply orb_false_iff in He as [Hm Hi].
  destruct (first_ok metrics (is_empty_false_len _ Hm)) as [lm Hlm].
  cbv zeta.
  bind_step (fun t : tally => 0 <= t.1 <= 2).
  - rewrite Hlm. change (Ok lm ≫= ?f) with (f lm). cbv beta.
    eexists; split; [reflexivity|].
    cbn [score].
    split_conditions; unfold award, note; cbn [fst snd]; lia.
  - set (revenues := omap revenue items).
    destruct (2 <=? len revenues) eqn:Hlen; [|finish_ok].
    apply Z.leb_le in Hlen.
    destruct (last_ok revenues ltac:(lia)) as [i Hi']. rewrite Hi'.
    destruct (first_ok revenues ltac:(lia)) as [f Hf]. rewrite Hf.
    cbn [mbind result_bind].
    destruct (nonzero i && nonzero f && Qlt_bool i f) eqn:Hc; [|finish_ok].
    apply andb_true_iff in Hc as [Hc _]. apply andb_true_iff in Hc as [Hc _].
    apply nonzero_iff in Hc.
    rewrite (div_ok _ _ (Qabs_nonzero _ Hc)). cbn [mbind result_bind].
    split_conditions; finish_ok.
Qed.

(** The fallback loop of the leverage check never raises. *)
Lemma liabilities_to_assets_ok (items : list LineItem) (acc : list Q) :
  exists ratios,
    for_each items
      (fun item acc =>
         match total_liabilities item, total_assets item with
         | Some tl, Some ta =>
             if nonzero tl && nonzero ta && Qlt_bool 0 ta then
               ratio ← div tl ta; Ok (acc ++ [ratio])
             else Ok acc
         | _, _ => Ok acc
         end) acc = Ok ratios.
Proof.
  revert acc. induction items as [|item items IH]; intros acc.
  - eexists. reflexivity.
  - cbn [for_each].
    destruct (total_liabilities item) as [tl|], (total_assets item) as [ta|];
      cbn [mbind result_bind]; try apply IH.
    destruct (nonzero tl && nonzero ta && Qlt_bool 0 ta) eqn:Hc;
      cbn [mbind result_bind]; try apply IH.
    apply andb_true_iff in Hc as [Hc _]. apply andb_true_iff in Hc as [_ Hc].
    apply nonzero_iff in Hc. rewrite (div_ok _ _ Hc).
    cbn [mbind result_bind]. apply IH.
Qed.

Lemma analyze_financial_discipline_bounds metrics items :
  exists a, BillAckman.analyze_financial_discipline metrics items = Ok a
            /\ 0 <= score a <= 4.
Proof.
  unfold BillAckman.analyze_financial_discipline.
  destruct (is_empty metrics || is_empty items) eqn:He; [finish_ok|].
  cbv zeta.
  bind_step (fun t : tally => 0 <= t.1 <= 2).
  - bind_step (fun t' : tally => t.1 <= t'.1 <= t.1 + 2).
    + eexists; (split; [reflexivity|]); cbn. lia.
    + set (shares := omap outstanding_shares items).
      destruct (2 <=? len shares) eqn:Hlen.
      * apply Z.leb_le in Hlen.
        destruct (last_ok shares ltac:(lia)) as [o Ho]. rewrite Ho.
        destruct (first_ok shares ltac:(lia)) as [n Hn]. rewrite Hn.
        cbn [mbind result_bind].
        split_conditions; eexists; (split; [reflexivity|]);
          unfold award, note; cbn [fst snd]; lia.
      * split_conditions; eexists; (split; [reflexivity|]);
          unfold award, note; cbn [fst snd]; lia.
  - destruct (negb (is_empty (omap debt_to_equity items))).
    + split_conditions; finish_ok.
    + destruct (liabilities_to_assets_ok items []) as [ratios Hr].
      rewrite Hr. cbn [mbind result_bind].
      split_conditions; finish_ok.
Qed.

Lemma inject_Z_nonzero (z : Z) : 0 < z -> ~ (inject_Z z == 0)%Q.
Proof.
  intros Hz H. unfold Qeq in H. simpl in H. lia.
Qed.

Lemma analyze_activism_potential_bounds items :
  exists a, BillAckman.analyze_activism_potential fmt items = Ok a
            /\ 0 <= score a <= 2.
Proof.
  unfold BillAckman.analyze_activism_potential.
  destruct (is_empty items); [finish_ok|].
  cbv zeta.
  set (revenues := omap revenue items).
  set (op_margins := omap operating_margin items).
  destruct ((len revenues <? 2) || is_empty op_margins) eqn:Hc; [finish_ok|].
  apply orb_false_iff in Hc as [Hlen Hm]. apply Z.ltb_ge in Hlen.
  destruct (last_ok revenues ltac:(lia)) as [i Hi]. rewrite Hi.
  destruct (first_ok revenues ltac:(lia)) as [f Hf]. rewrite Hf.
  cbn [mbind result_bind].
  assert (Hg : exists g, (if nonzero i then div (f - i)%Q (Qabs i) else Ok 0%Q) = Ok g).
  { destruct (nonzero i) eqn:Hnz; [|eauto].
    apply nonzero_iff in Hnz. rewrite (div_ok _ _ (Qabs_nonzero _ Hnz)). eauto. }
  destruct Hg as [g ->]. cbn [mbind result_bind].
  rewrite (div_ok _ _ (inject_Z_nonzero _ (is_empty_false_len _ Hm))).
  cbn [mbind result_bind].
  split_conditions; finish_ok.
Qed.

End AckmanBounds.

(** ** The valuation sub-analysis *)

Section AckmanValuation.

Variable fmt : string -> Q -> string.

Lemma analyze_valuation_insufficient items market_cap :
  items = [] \/ market_cap = None ->
  BillAckman.analyze_valuation fmt items market_cap =
    Ok {| BillAckman.v_score := 0;
          BillAckman.v_details := "Insufficient data to perform valuation";
          BillAckman.intrinsic_value := None;
          BillAckman.margin_of_safety := None |}.
Proof.
  intros [-> | ->]; [reflexivity|]. destruct items; reflexivity.
Qed.

Lemma analyze_valuation_no_fcf latest rest c :
  (or_zero (free_cash_flow latest) <= 0)%Q ->
  BillAckman.analyze_valuation fmt (latest :: rest) (Some c) =
    Ok {| BillAckman.v_score := 0;
          BillAckman.v_details :=
            "No positive FCF for valuation; FCF = "
            +:+ fmt "" (or_zero (free_cash_flow latest));
          BillAckman.intrinsic_value := Some None;
          BillAckman.margin_of_safety := None |}.
Proof.
  intros H. unfold BillAckman.analyze_valuation. cbv zeta.
  apply Qle_bool_iff in H. rewrite H. reflexivity.
Qed.

(** The loop and the terminal value never raise and add up to the
    discounted-cash-flow value. *)
Lemma dcf_loop (fcf : Q) :
  exists present_value,
    for_each (range 1 BillAckman.projection_years)
      (fun year present_value =>
         pv ← div (fcf * (1 + BillAckman.growth_rate) ^ year)%Q
                  ((1 + BillAckman.discount_rate) ^ year)%Q;
         Ok (present_value + pv)%Q) 0%Q = Ok present_value
    /\ (present_value ==
        Qsum_over (range 1 5)
          (fun t => fcf * (1 + (6 # 100)) ^ t / (1 + (10 # 100)) ^ t))%Q.
Proof.
  unfold BillAckman.projection_years, range. cbn [seq map for_each Z.of_nat Pos.of_succ_nat Pos.succ].
  cbv zeta.
  repeat (rewrite div_ok by (intros H; vm_compute in H; discriminate);
          cbn [mbind result_bind]).
  eexists; split; [reflexivity|].
  unfold Qsum_over, BillAckman.growth_rate, BillAckman.discount_rate.
  cbn [fold_right]. field.
  repeat split; intros H; vm_compute in H; discriminate.
Qed.

Lemma Qsum_over_ext years f g :
  (forall t, (f t == g t)%Q) -> (Qsum_over years f == Qsum_over years g)%Q.
Proof.
  intros H. induction years as [|y years IH]; cbn; [reflexivity|].
  rewrite H, IH. reflexivity.
Qed.

Lemma analyze_valuation_dcf latest rest c :
  let fcf := or_zero (free_cash_flow latest) in
  (0 < fcf)%Q -> ~ (c == 0)%Q ->
  exists v iv mos,
    BillAckman.analyze_valuation fmt (latest :: rest) (Some c) = Ok v
    /\ BillAckman.intrinsic_value v = Some (Some iv)
    /\ BillAckman.margin_of_safety v = Some mos
    /\ (iv == dcf_value fcf (6 # 100) (10 # 100) 15 5)%Q
    /\ (mos == (iv - c) / c)%Q
    /\ 0 <= BillAckman.v_score v <= 3.
Proof.
  intros fcf Hfcf Hc. unfold BillAckman.analyze_valuation. cbv zeta.
  fold fcf.
  apply Qle_bool_false_iff in Hfcf. rewrite Hfcf.
  destruct (dcf_loop fcf) as (pv & Hloop & Hpv). rewrite Hloop.
  cbn [mbind result_bind].
  rewrite div_ok by (intros H; vm_compute in H; discriminate).
  cbn [mbind result_bind].
  rewrite (div_ok _ _ Hc). cbn [mbind result_bind].
  eexists _, _, _. split; [reflexivity|].
  cbn [BillAckman.intrinsic_value BillAckman.margin_of_safety BillAckman.v_score].
  repeat split; try reflexivity.
  - unfold dcf_value. rewrite Hpv.
    unfold BillAckman.growth_rate, BillAckman.discount_rate,
      BillAckman.terminal_multiple, BillAckman.projection_years.
    reflexivity.
  - split_conditions; lia.
  - split_conditions; lia.
Qed.

Lemma analyze_valuation_zero_market_cap latest rest c :
  (0 < or_zero (free_cash_flow latest))%Q -> (c == 0)%Q ->
  BillAckman.analyze_valuation fmt (latest :: rest) (Some c) =
    Raise ZeroDivisionError.
Proof.
  intros Hfcf Hc. unfold BillAckman.analyze_valuation. cbv zeta.
  apply Qle_bool_false_iff in Hfcf. rewrite Hfcf.
  destruct (dcf_loop (or_zero (free_cash_flow latest))) as (pv & Hloop & _).
  rewrite Hloop. cbn [mbind result_bind].
  rewrite div_ok by (intros H; vm_compute in H; discriminate).
  cbn [mbind result_bind].
  rewrite (div_zero _ _ Hc). reflexivity.
Qed.

Lemma analyze_valuation_bounds items market_cap v :
  BillAckman.analyze_valuation fmt items market_cap = Ok v ->
  0 <= BillAckman.v_score v <= 3.
Proof.
  destruct items as [|latest rest].
  { rewrite analyze_valuation_insufficient by auto. intros [= <-]. simpl. lia. }
  destruct market_cap as [c|].
  2:{ rewrite analyze_valuation_insufficient by auto. intros [= <-]. simpl. lia. }
  destruct (Qlt_le_dec 0 (or_zero (free_cash_flow latest))) as [Hpos | Hneg].
  - destruct (Qeq_dec c 0) as [Hc | Hc].
    + rewrite (analyze_valuation_zero_market_cap _ _ _ Hpos Hc). discriminate.
    + destruct (analyze_valuation_dcf latest rest c Hpos Hc)
        as (v' & iv & mos & -> & _ & _ & _ & _ & Hs).
      intros [= <-]. exact Hs.
  - rewrite (analyze_valuation_no_fcf _ _ _ Hneg). intros [= <-]. simpl. lia.
Qed.

End AckmanValuation.

(** ** Michael Burry's sub-analyses *)

Section BurryBounds.

Variable fmt : string -> Q -> string.

Lemma _analyze_value_bounds metrics line_items market_cap :
  exists a, MichaelBurry._analyze_value fmt metrics line_items market_cap = Ok a
            /\ 0 <= s_score a <= 6 /\ s_max_score a = 6.
Proof.
  unfold MichaelBurry._analyze_value. cbv zeta.
  match goal with
  | |- exists a, (?m ≫= ?f) = Ok a /\ _ =>
      cut (exists t : tally, m = Ok t /\ 0 <= t.1 <= 4);
      [ intros (t & -> & ?); change (Ok t ≫= f) with (f t); cbv beta | ]
  end.
  - eexists; split; [reflexivity|]. cbn [s_score s_max_score].
    split; [|reflexivity].
    split_conditions; unfold award, note; cbn [fst snd]; lia.
  - destruct (_ ≫= free_cash_flow) as [fcf|]; [|finish_ok].
    destruct market_cap as [mc|]; [|finish_ok].
    destruct (nonzero mc) eqn:Hmc; [|finish_ok].
    apply nonzero_iff in Hmc. rewrite (div_ok _ _ Hmc).
    cbn [mbind result_bind].
    split_conditions; finish_ok.
Qed.

Lemma _analyze_balance_sheet_bounds metrics line_items :
  let a := MichaelBurry._analyze_balance_sheet fmt metrics line_items in
  0 <= s_score a <= 3 /\ s_max_score a = 3.
Proof.
  unfold MichaelBurry._analyze_balance_sheet. cbv zeta.
  cbn [s_score s_max_score]. split; [|reflexivity].
  split_conditions; unfold award, note; cbn [fst snd]; lia.
Qed.

Lemma max_one_nonzero (x : Q) : ~ (max x 1 == 0)%Q.
Proof.
  unfold max. destruct (Qlt_bool x 1) eqn:E.
  - intros H. vm_compute in H. discriminate.
  - apply Qlt_bool_false_iff in E. lra.
Qed.

Lemma _analyze_insider_activity_bounds insider_trades :
  exists a, MichaelBurry._analyze_insider_activity fmt insider_trades = Ok a
            /\ 0 <= s_score a <= 2 /\ s_max_score a = 2.
Proof.
  unfold MichaelBurry._analyze_insider_activity. cbv zeta.
  destruct (is_empty insider_trades).
  { eexists; split; [reflexivity|]. cbn. lia. }
  match goal with
  | |- context [if ?c then _ else _] => destruct c
  end.
  - rewrite (div_ok _ _ (max_one_nonzero _)). cbn [mbind result_bind].
    eexists; split; [reflexivity|]. cbn [s_score s_max_score].
    split; [|reflexivity].
    split_conditions; unfold award; cbn [fst snd]; lia.
  - eexists; split; [reflexivity|]. cbn. lia.
Qed.

Lemma _analyze_contrarian_sentiment_bounds news :
  let a := MichaelBurry._analyze_contrarian_sentiment fmt news in
  0 <= s_score a <= 1 /\ s_max_score a = 1.
Proof.
  unfold MichaelBurry._analyze_contrarian_sentiment. cbv zeta.
  split_conditions; cbn; lia.
Qed.

End BurryBounds.

(** ** The personas' records *)

Lemma ackman_record fmt gfm sli gmc ticker end_date records :
  BillAckman.get_analysis_data fmt gfm sli gmc ticker end_date = Ok records ->
  exists r,
    records = <[ ticker := r ]> ∅
    /\ BillAckman.signal r
       = classify (BillAckman.total_score r) (BillAckman.max_score r)
    /\ BillAckman.max_score r = 20
    /\ 0 <= BillAckman.total_score r <= 16.
Proof.
  unfold BillAckman.get_analysis_data. cbv zeta.
  destruct (analyze_business_quality_bounds fmt
              (gfm ticker end_date (Some "annual") (Some 5))
              (sli ticker BillAckman.line_item_fields end_date (Some "annual") (Some 5)))
    as (q & -> & Hq).
  destruct (analyze_financial_discipline_bounds
              (gfm ticker end_date (Some "annual") (Some 5))
              (sli ticker BillAckman.line_item_fields end_date (Some "annual") (Some 5)))
    as (b & -> & Hb).
  destruct (analyze_activism_potential_bounds fmt
              (sli ticker BillAckman.line_item_fields end_date (Some "annual") (Some 5)))
    as (a & -> & Ha).
  cbn [mbind result_bind].
  destruct (BillAckman.analyze_valuation fmt _ _) as [v|e] eqn:Hv;
    cbn [mbind result_bind]; [|discriminate].
  apply analyze_valuation_bounds in Hv.
  intros [= <-]. eexists. split; [reflexivity|].
  cbn [BillAckman.signal BillAckman.total_score BillAckman.max_score].
  repeat split; lia.
Qed.

Lemma burry_record fmt gfm sli gmc git gcn oyb ticker end_date records :
  MichaelBurry.get_analysis_data fmt gfm sli gmc git gcn oyb ticker end_date
    = Ok records ->
  exists r,
    records = <[ ticker := r ]> ∅
    /\ MichaelBurry.signal r
       = classify (MichaelBurry.total_score r) (MichaelBurry.max_score r)
    /\ MichaelBurry.max_score r = 12
    /\ 0 <= MichaelBurry.total_score r <= 12.
Proof.
  unfold MichaelBurry.get_analysis_data.
  destruct (oyb end_date) as [start_date|e]; cbn [mbind result_bind]; [|discriminate].
  cbv zeta.
  destruct (_analyze_value_bounds fmt (gfm ticker end_date (Some "ttm") (Some 5))
              (sli ticker MichaelBurry.line_item_fields end_date None None)
              (gmc ticker end_date)) as (v & -> & Hv & Hvm).
  destruct (_analyze_insider_activity_bounds fmt (git ticker end_date start_date))
    as (i & -> & Hi & Him).
  cbn [mbind result_bind].
  pose proof (_analyze_balance_sheet_bounds fmt
                (gfm ticker end_date (Some "ttm") (Some 5))
                (sli ticker MichaelBurry.line_item_fields end_date None None))
    as [Hb Hbm].
  pose proof (_analyze_contrarian_sentiment_bounds fmt
                (gcn ticker end_date start_date 250)) as [Hc Hcm].
  cbv zeta in Hb, Hbm, Hc, Hcm.
  generalize dependent (MichaelBurry._analyze_balance_sheet fmt
                          (gfm ticker end_date (Some "ttm") (Some 5))
                          (sli ticker MichaelBurry.line_item_fields end_date None None)).
  generalize dependent (MichaelBurry._analyze_contrarian_sentiment fmt
                          (gcn ticker end_date start_date 250)).
  intros c Hc Hcm b Hb Hbm.
  intros [= <-]. eexists. split; [reflexivity|].
  cbn [MichaelBurry.signal MichaelBurry.total_score MichaelBurry.max_score].
  repeat split; lia.
Qed.

(** Burry's plugin returns whenever the end date is a date. *)
Lemma burry_returns fmt gfm sli gmc git gcn oyb ticker end_date start_date :
  oyb end_date = Ok start_date ->
  exists records,
    MichaelBurry.get_analysis_data fmt gfm sli gmc git gcn oyb ticker end_date
      = Ok records.
Proof.
  intros Hd. unfold MichaelBurry.get_analysis_data. rewrite Hd.
  cbn [mbind result_bind]. cbv zeta.
  destruct (_analyze_value_bounds fmt (gfm ticker end_date (Some "ttm") (Some 5))
              (sli ticker MichaelBurry.line_item_fields end_date None None)
              (gmc ticker end_date)) as (v & -> & _).
  destruct (_analyze_insider_activity_bounds fmt (git ticker end_date start_date))
    as (i & -> & _).
  cbn [mbind result_bind]. eauto.
Qed.

(** C3.  For either persona and every pair (total_score, max_score) it
    computes, the signal is bullish exactly when total_score >= 0.7 max_score,
    bearish exactly when total_score <= 0.3 max_score, and neutral exactly
    when neither holds; a total of zero is classified (as bearish) like any
    other.  Both personas use the one rule [classify].  And the signal is
    produced: whenever its sub-analyses have returned their scores (for Bill
    Ackman, the valuation has returned; for Michael Burry, the end date is a
    date), the persona returns a record for the ticker, whose total is the
    sum of the sub-scores and whose signal follows the rule; sub-scores that
    are all zero give a record with the signal bearish, not an error. *)
Theorem signal_threshold_rule :
  (forall sig total max,
     computed_signal sig total max ->
     sig = classify total max
     /\ threshold_rule sig total max
     /\ (total = 0 -> sig = bearish))
  /\ (forall (fmt : string -> Q -> string)
        (get_financial_metrics :
           string -> string -> option string -> option Z -> list Metrics)
        (search_line_items :
           string -> list string -> string -> option string -> option Z
           -> list LineItem)
        (get_market_cap : string -> string -> option Q)
        (ticker end_date : string) (valuation : BillAckman.Valuation),
        BillAckman.analyze_valuation fmt
          (search_line_items ticker BillAckman.line_item_fields end_date
             (Some "annual") (Some 5))
          (get_market_cap ticker end_date) = Ok valuation ->
        exists records r,
          BillAckman.get_analysis_data fmt get_financial_metrics search_line_items
            get_market_cap ticker end_date = Ok records
          /\ records !! ticker = Some r
          /\ BillAckman.total_score r
             = score (BillAckman.quality_analysis r)
               + score (BillAckman.balance_sheet_analysis r)
               + score (BillAckman.activism_analysis r)
               + BillAckman.v_score (BillAckman.valuation_analysis r)
          /\ BillAckman.signal r
             = classify (BillAckman.total_score r) (BillAckman.max_score r)
          /\ threshold_rule (BillAckman.signal r) (BillAckman.total_score r)
               (BillAckman.max_score r)
          /\ (score (BillAckman.quality_analysis r) = 0 ->
              score (BillAckman.balance_sheet_analysis r) = 0 ->
              score (BillAckman.activism_analysis r) = 0 ->
              BillAckman.v_score (BillAckman.valuation_analysis r) = 0 ->
              BillAckman.signal r = bearish))
  /\ (forall (fmt : string -> Q -> string)
        (get_financial_metrics :
           string -> string -> option string -> option Z -> list Metrics)
        (search_line_items :
           string -> list string -> string -> option string -> option Z
           -> list LineItem)
        (get_market_cap : string -> string -> option Q)
        (get_insider_trades : string -> string -> string -> list InsiderTrade)
        (get_company_news : string -> string -> string -> Z -> list News)
        (one_year_before : string -> result string)
        (ticker end_date start_date : string),
        one_year_before end_date = Ok start_date ->
        exists records r,
          MichaelBurry.get_analysis_data fmt get_financial_metrics
            search_line_items get_market_cap get_insider_trades get_company_news
            one_year_before ticker end_date = Ok records
          /\ records !! ticker = Some r
          /\ MichaelBurry.total_score r
             = s_score (MichaelBurry.value_analysis r)
               + s_score (MichaelBurry.balance_sheet_analysis r)
               + s_score (MichaelBurry.insider_analysis r)
               + s_score (MichaelBurry.contrarian_analysis r)
          /\ MichaelBurry.signal r
             = classify (MichaelBurry.total_score r) (MichaelBurry.max_score r)
          /\ threshold_rule (MichaelBurry.signal r) (MichaelBurry.total_score r)
               (MichaelBurry.max_score r)
          /\ (s_score (MichaelBurry.value_analysis r) = 0 ->
              s_score (MichaelBurry.balance_sheet_analysis r) = 0 ->
              s_score (MichaelBurry.insider_analysis r) = 0 ->
              s_score (MichaelBurry.contrarian_analysis r) = 0 ->
              MichaelBurry.signal r = bearish)).
Proof.
  split; [|split].
  - intros sig total max
      [fmt gfm sli gmc ticker end_date records r Hrun Hr -> -> ->
      | fmt gfm sli gmc git gcn oyb ticker end_date records r Hrun Hr -> -> ->].
    + apply ackman_record in Hrun as (r' & -> & Hsig & Hmax & Htot).
      rewrite lookup_insert_eq in Hr. injection Hr as <-.
      split; [exact Hsig|]. rewrite Hsig, Hmax. split.
      * apply classify_threshold_rule. lia.
      * intros ->. reflexivity.
    + apply burry_record in Hrun as (r' & -> & Hsig & Hmax & Htot).
      rewrite lookup_insert_eq in Hr. injection Hr as <-.
      split; [exact Hsig|]. rewrite Hsig, Hmax. split.
      * apply classify_threshold_rule. lia.
      * intros ->. reflexivity.
  - intros fmt gfm sli gmc ticker end_date v Hv.
    destruct (analyze_business_quality_bounds fmt
                (gfm ticker end_date (Some "annual") (Some 5))
                (sli ticker BillAckman.line_item_fields end_date (Some "annual")
                   (Some 5))) as (q & Hq & _).
    destruct (analyze_financial_discipline_bounds
                (gfm ticker end_date (Some "annual") (Some 5))
                (sli ticker BillAckman.line_item_fields end_date (Some "annual")
                   (Some 5))) as (b & Hb & _).
    destruct (analyze_activism_potential_bounds fmt
                (sli ticker BillAckman.line_item_fields end_date (Some "annual")
                   (Some 5))) as (a & Ha & _).
    assert (Hrun : exists records,
               BillAckman.get_analysis_data fmt gfm sli gmc ticker end_date
               = Ok records
               /\ exists r, records = <[ ticker := r ]> ∅
                  /\ BillAckman.total_score r
                     = score (BillAckman.quality_analysis r)
                       + score (BillAckman.balance_sheet_analysis r)
                       + score (BillAckman.activism_analysis r)
                       + BillAckman.v_score (BillAckman.valuation_analysis r)).
    { unfold BillAckman.get_analysis_data. cbv zeta.
      rewrite Hq, Hb, Ha, Hv. cbn [mbind result_bind].
      eexists. split; [reflexivity|]. eexists. split; reflexivity. }
    destruct Hrun as (records & Hrun & r & Hrec & Hsum).
    destruct (ackman_record _ _ _ _ _ _ _ Hrun) as (r' & Hrec' & Hsig & Hmax & Htot).
    assert (r' = r) as ->.
    { rewrite Hrec in Hrec'. apply (f_equal (fun m => m !! ticker)) in Hrec'.
      rewrite !lookup_insert_eq in Hrec'. congruence. }
    exists records, r. split; [exact Hrun|].
    split; [rewrite Hrec; apply lookup_insert_eq|].
    split; [exact Hsum|]. split; [exact Hsig|]. split.
    + rewrite Hsig, Hmax. apply classify_threshold_rule. lia.
    + intros H1 H2 H3 H4. rewrite Hsig, Hmax, Hsum, H1, H2, H3, H4. reflexivity.
  - intros fmt gfm sli gmc git gcn oyb ticker end_date start_date Hd.
    destruct (_analyze_value_bounds fmt (gfm ticker end_date (Some "ttm") (Some 5))
                (sli ticker MichaelBurry.line_item_fields end_date None None)
                (gmc ticker end_date)) as (v & Hv & _).
    destruct (_analyze_insider_activity_bounds fmt (git ticker end_date start_date))
      as (i & Hi & _).
    assert (Hrun : exists records,
               MichaelBurry.get_analysis_data fmt gfm sli gmc git gcn oyb ticker
                 end_date = Ok records
               /\ exists r, records = <[ ticker := r ]> ∅
                  /\ MichaelBurry.total_score r
                     = s_score (MichaelBurry.value_analysis r)
                       + s_score (MichaelBurry.balance_sheet_analysis r)
                       + s_score (MichaelBurry.insider_analysis r)
                       + s_score (MichaelBurry.contrarian_analysis r)).
    { unfold MichaelBurry.get_analysis_data. rewrite Hd.
      cbn [mbind result_bind]. cbv zeta. rewrite Hv, Hi. cbn [mbind result_bind].
      eexists. split; [reflexivity|]. eexists. split; reflexivity. }
    destruct Hrun as (records & Hrun & r & Hrec & Hsum).
    destruct (burry_record _ _ _ _ _ _ _ _ _ _ Hrun)
      as (r' & Hrec' & Hsig & Hmax & Htot).
    assert (r' = r) as ->.
    { rewrite Hrec in Hrec'. apply (f_equal (fun m => m !! ticker)) in Hrec'.
      rewrite !lookup_insert_eq in Hrec'. congruence. }
    exists records, r. split; [exact Hrun|].
    split; [rewrite Hrec; apply lookup_insert_eq|].
    split; [exact Hsum|]. split; [exact Hsig|]. split.
    + rewrite Hsig, Hmax. apply classify_threshold_rule. lia.
    + intros H1 H2 H3 H4. rewrite Hsig, Hmax, Hsum, H1, H2, H3, H4. reflexivity.
Qed.

(** With no data at all from the provider, both personas return a record
    with the signal bearish. *)
Lemma signal_threshold_rule_witness :
  (exists records r,
     BillAckman.get_analysis_data Sample.fmt Sample.no_metrics
       Sample.no_line_items Sample.no_market_cap "ACME" "2024-01-01" = Ok records
     /\ records !! "ACME" = Some r
     /\ BillAckman.signal r = bearish)
  /\ (exists records r,
        MichaelBurry.get_analysis_data Sample.fmt Sample.no_metrics
          Sample.no_line_items Sample.no_market_cap (fun _ _ _ => [])
          (fun _ _ _ _ => []) (fun _ => Ok "2023-01-01") "ACME" "2024-01-01"
        = Ok records
        /\ records !! "ACME" = Some r
        /\ MichaelBurry.signal r = bearish).
Proof.
  split.
  - destruct (proj1 (proj2 signal_threshold_rule) Sample.fmt Sample.no_metrics
                Sample.no_line_items Sample.no_market_cap "ACME" "2024-01-01"
                _ eq_refl)
      as (records & r & Hrun & Hr & _ & _ & _ & Hzero).
    exists records, r. split; [exact Hrun|]. split; [exact Hr|].
    vm_compute in Hrun. injection Hrun as <-.
    vm_compute in Hr. injection Hr as <-. reflexivity.
  - destruct (proj2 (proj2 signal_threshold_rule) Sample.fmt Sample.no_metrics
                Sample.no_line_items Sample.no_market_cap (fun _ _ _ => [])
                (fun _ _ _ _ => []) (fun _ => Ok "2023-01-01") "ACME" "2024-01-01"
                "2023-01-01" eq_refl)
      as (records & r & Hrun & Hr & _ & _ & _ & Hzero).
    exists records, r. split; [exact Hrun|]. split; [exact Hr|].
    vm_compute in Hrun. injection Hrun as <-.
    vm_compute in Hr. injection Hr as <-. reflexivity.
Defined.

(** ** Missing data and failures of the sub-analyses *)

(** On fully missing input every sub-analysis scores 0 and says why. *)
Lemma sub_analyses_on_missing_data (fmt : string -> Q -> string) :
  BillAckman.analyze_business_quality fmt [] []
    = Ok {| score := 0; details := "Insufficient data to analyze business quality" |}
  /\ BillAckman.analyze_financial_discipline [] []
    = Ok {| score := 0; details := "Insufficient data to analyze financial discipline" |}
  /\ BillAckman.analyze_activism_potential fmt []
    = Ok {| score := 0; details := "Insufficient data for activism potential" |}
  /\ BillAckman.analyze_valuation fmt [] None
    = Ok {| BillAckman.v_score := 0;
            BillAckman.v_details := "Insufficient data to perform valuation";
            BillAckman.intrinsic_value := None;
            BillAckman.margin_of_safety := None |}
  /\ MichaelBurry._analyze_value fmt [] [] None
    = Ok {| s_score := 0; s_max_score := 6;
            s_details := "FCF data unavailable; Financial metrics unavailable" |}
  /\ MichaelBurry._analyze_balance_sheet fmt [] []
    = {| s_score := 0; s_max_score := 3;
         s_details := "Debt‑to‑equity data unavailable" |}
  /\ MichaelBurry._analyze_insider_activity fmt []
    = Ok {| s_score := 0; s_max_score := 2; s_details := "No insider trade data" |}
  /\ MichaelBurry._analyze_contrarian_sentiment fmt []
    = {| s_score := 0; s_max_score := 1; s_details := "No recent news" |}.
Proof. repeat split. Qed.

(** C4 (fails on the code).  The claim: every sub-analysis returns a result
    on every input, with no unguarded division.  [analyze_valuation] divides by
    the market capitalisation after testing it only against [None]: with a
    positive free cash flow and a market capitalisation of zero it raises
    [ZeroDivisionError], and so does the persona's [get_analysis_data]. *)
Theorem valuation_raises_on_zero_market_cap (fmt : string -> Q -> string) :
  BillAckman.analyze_valuation fmt [Sample.line_item 100] (Some 0%Q)
    = Raise ZeroDivisionError
  /\ BillAckman.get_analysis_data fmt Sample.one_metrics Sample.one_line_item
       Sample.zero_market_cap "ACME" "2024-01-01"
     = Raise ZeroDivisionError.
Proof.
  assert (Hv : BillAckman.analyze_valuation fmt [Sample.line_item 100] (Some 0%Q)
               = Raise ZeroDivisionError).
  { apply analyze_valuation_zero_market_cap; [|reflexivity].
    vm_compute. reflexivity. }
  split; [exact Hv|].
  unfold BillAckman.get_analysis_data. cbv zeta.
  destruct (analyze_business_quality_bounds fmt
              (Sample.one_metrics "ACME" "2024-01-01" (Some "annual") (Some 5))
              (Sample.one_line_item "ACME" BillAckman.line_item_fields "2024-01-01"
                 (Some "annual") (Some 5))) as (q & -> & _).
  destruct (analyze_financial_discipline_bounds
              (Sample.one_metrics "ACME" "2024-01-01" (Some "annual") (Some 5))
              (Sample.one_line_item "ACME" BillAckman.line_item_fields "2024-01-01"
                 (Some "annual") (Some 5))) as (b & -> & _).
  destruct (analyze_activism_potential_bounds fmt
              (Sample.one_line_item "ACME" BillAckman.line_item_fields "2024-01-01"
                 (Some "annual") (Some 5))) as (a & -> & _).
  cbn [mbind result_bind].
  change (Sample.one_line_item "ACME" BillAckman.line_item_fields "2024-01-01"
            (Some "annual") (Some 5)) with [Sample.line_item 100].
  change (Sample.zero_market_cap "ACME" "2024-01-01") with (Some 0%Q).
  rewrite Hv. reflexivity.
Qed.

(** ** The valuation sub-analysis against the specification *)

(** C5 as the specification states it fails when the market capitalisation
    is absent: no intrinsic value is returned for a free cash flow of 100. *)
Lemma valuation_without_market_cap :
  ~ valuation_as_specified Sample.fmt [Sample.line_item 100] None.
Proof.
  intros H.
  destruct (H (Sample.line_item 100) 100%Q eq_refl eq_refl eq_refl)
    as (v & iv & Hv & Hiv & _).
  cbn in Hv. injection Hv as <-. discriminate Hiv.
Qed.

(** C5 (amended).  With line items and a market capitalisation present:
    for a latest free cash flow fcf > 0 and a non-zero market capitalisation
    the sub-analysis returns intrinsic_value = sum for t = 1..5 of
    fcf 1.06^t / 1.10^t, plus fcf 1.06^5 15 / 1.10^5, and margin_of_safety =
    (intrinsic_value - market_cap) / market_cap; for fcf <= 0 it returns
    score 0 with the no-positive-FCF rationale and [None] as intrinsic value;
    the result depends on the line items only through the latest free cash
    flow.  Whatever the market capitalisation, fcf <= 0 gives score 0 and no
    exception.  When the line items are empty or the market capitalisation
    is absent, the sub-analysis returns score 0 with the rationale
    'Insufficient data to perform valuation' and no intrinsic value, whatever
    the free cash flow. *)
Theorem valuation_with_market_cap (fmt : string -> Q -> string)
    (latest : LineItem) (rest : list LineItem) (c : Q) :
  let fcf := or_zero (free_cash_flow latest) in
  ((0 < fcf)%Q -> ~ (c == 0)%Q ->
   exists v iv mos,
     BillAckman.analyze_valuation fmt (latest :: rest) (Some c) = Ok v
     /\ BillAckman.intrinsic_value v = Some (Some iv)
     /\ BillAckman.margin_of_safety v = Some mos
     /\ (iv == dcf_value fcf (6 # 100) (10 # 100) 15 5)%Q
     /\ (mos == (iv - c) / c)%Q)
  /\ ((fcf <= 0)%Q ->
      BillAckman.analyze_valuation fmt (latest :: rest) (Some c) =
        Ok {| BillAckman.v_score := 0;
              BillAckman.v_details :=
                "No positive FCF for valuation; FCF = " +:+ fmt "" fcf;
              BillAckman.intrinsic_value := Some None;
              BillAckman.margin_of_safety := None |})
  /\ ((fcf <= 0)%Q ->
      forall market_cap, exists v,
        BillAckman.analyze_valuation fmt (latest :: rest) market_cap = Ok v
        /\ BillAckman.v_score v = 0)
  /\ (forall latest' rest',
        free_cash_flow latest' = free_cash_flow latest ->
        BillAckman.analyze_valuation fmt (latest' :: rest') (Some c)
        = BillAckman.analyze_valuation fmt (latest :: rest) (Some c))
  /\ (forall items market_cap,
        items = [] \/ market_cap = None ->
        BillAckman.analyze_valuation fmt items market_cap =
          Ok {| BillAckman.v_score := 0;
                BillAckman.v_details := "Insufficient data to perform valuation";
                BillAckman.intrinsic_value := None;
                BillAckman.margin_of_safety := None |}).
Proof.
  intros fcf. split; [|split; [|split; [|split]]].
  - intros Hfcf Hc.
    destruct (analyze_valuation_dcf fmt latest rest c Hfcf Hc)
      as (v & iv & mos & Hv & Hiv & Hmos & Heq & Hm & _).
    exists v, iv, mos. auto.
  - apply analyze_valuation_no_fcf.
  - intros Hfcf [mc|].
    + rewrite (analyze_valuation_no_fcf fmt latest rest mc Hfcf). eauto.
    + rewrite analyze_valuation_insufficient by auto. eauto.
  - intros latest' rest' Hsame. unfold BillAckman.analyze_valuation.
    rewrite Hsame. reflexivity.
  - intros items market_cap Hmissing.
    apply analyze_valuation_insufficient. exact Hmissing.
Qed.

Lemma valuation_with_market_cap_witness :
  exists v iv mos,
    BillAckman.analyze_valuation Sample.fmt [Sample.line_item 100] (Some 1000%Q) = Ok v
    /\ BillAckman.intrinsic_value v = Some (Some iv)
    /\ BillAckman.margin_of_safety v = Some mos
    /\ (iv == dcf_value (or_zero (Some 100%Q)) (6 # 100) (10 # 100) 15 5)%Q
    /\ (mos == (iv - 1000) / 1000)%Q.
Proof.
  apply (proj1 (valuation_with_market_cap Sample.fmt (Sample.line_item 100) [] 1000%Q)).
  - vm_compute. reflexivity.
  - intros H. vm_compute in H. discriminate.
Defined.

(** ** The risk calculator *)

(** A loop that stores [f k] under every key [k] of [l] for which it is
    defined. *)
Lemma fold_insert_some_lookup {V} (f : string -> option V) (l : list string)
    (m0 : gmap string V) (t : string) :
  fold_left (fun m k => match f k with Some v => <[ k := v ]> m | None => m end) l m0
    !! t
  = if decide (t ∈ l) then match f t with Some v => Some v | None => m0 !! t end
    else m0 !! t.
Proof.
  revert m0. induction l as [|a l IH]; intros m0; cbn [fold_left].
  - rewrite decide_False by apply not_elem_of_nil. reflexivity.
  - rewrite IH. destruct (decide (t = a)) as [-> | Hne].
    + rewrite (decide_True (P := a ∈ a :: l)) by apply list_elem_of_here.
      destruct (f a) as [v|] eqn:Hf.
      * rewrite lookup_insert_eq. destruct (decide (a ∈ l)); reflexivity.
      * destruct (decide (a ∈ l)); reflexivity.
    + assert (Hstep : (match f a with Some v => <[ a := v ]> m0 | None => m0 end) !! t
                      = m0 !! t).
      { destruct (f a); [apply lookup_insert_ne; congruence | reflexivity]. }
      rewrite Hstep.
      destruct (decide (t ∈ l)) as [Hin | Hnin].
      * rewrite decide_True by (apply list_elem_of_further; exact Hin). reflexivity.
      * rewrite decide_False; [reflexivity|].
        intros Hin. apply elem_of_cons in Hin as [? | ?]; contradiction.
Qed.

(** A loop that stores [g k] under every key [k] of [l]. *)
Lemma fold_insert_lookup {V} (g : string -> V) (l : list string)
    (m0 : gmap string V) (t : string) :
  fold_left (fun m k => <[ k := g k ]> m) l m0 !! t
  = if decide (t ∈ l) then Some (g t) else m0 !! t.
Proof.
  rewrite (fold_insert_some_lookup (fun k => Some (g k)) l m0 t). reflexivity.
Qed.

Lemma Qmin_py_min (a b : Q) : (min a b == Qmin a b)%Q.
Proof.
  unfold min. destruct (Qlt_bool b a) eqn:E.
  - apply Qlt_bool_iff in E. symmetry. apply Q.min_r. lra.
  - apply Qlt_bool_false_iff in E. symmetry. apply Q.min_l. exact E.
Qed.

Section RiskCalculator.

Variable Price : Type.
Variable get_prices : string -> string -> string -> list Price.
Variable close_column : list Price -> list Q.

Abbreviation fetch_price := (RiskManager.fetch_price Price get_prices close_column).
Abbreviation fetch_prices := (RiskManager.fetch_prices Price get_prices close_column).
Abbreviation risk_analysis_of :=
  (RiskManager.risk_analysis_of Price get_prices close_column).

Lemma fetch_prices_lookup (d : Data) (t : string) :
  fetch_prices d !! t
  = if decide (t ∈ RiskManager.all_tickers d) then fetch_price d t else None.
Proof.
  unfold RiskManager.fetch_prices.
  rewrite (fold_insert_some_lookup (fetch_price d)).
  rewrite lookup_empty.
  destruct (decide (t ∈ elements (RiskManager.all_tickers d))) as [Hin | Hnin].
  - rewrite decide_True by (apply elem_of_elements; exact Hin).
    destruct (fetch_price d t); reflexivity.
  - rewrite decide_False; [reflexivity|].
    intros Hin. apply Hnin, elem_of_elements. exact Hin.
Qed.

Lemma fetch_prices_ticker (d : Data) (t : string) :
  t ∈ tickers d -> fetch_prices d !! t = fetch_price d t.
Proof.
  intros Hin. rewrite fetch_prices_lookup, decide_True; [reflexivity|].
  unfold RiskManager.all_tickers. apply elem_of_union_l, elem_of_list_to_set.
  exact Hin.
Qed.

Lemma fetch_prices_position (d : Data) (t : string) (pos : Position) :
  (t, pos) ∈ default [] (positions (portfolio d)) ->
  fetch_prices d !! t = fetch_price d t.
Proof.
  intros Hin. rewrite fetch_prices_lookup, decide_True; [reflexivity|].
  unfold RiskManager.all_tickers, RiskManager.position_keys.
  apply elem_of_union_r, elem_of_list_to_set.
  apply (list_elem_of_fmap_2 fst) in Hin. exact Hin.
Qed.

(** The accumulation of the portfolio value is the sum of the
    specification, whatever it starts from. *)
Lemma total_value_fold (prices : gmap string Q) (price : string -> option Q)
    (l : list (string * Position)) (acc : Q) :
  (forall t pos, (t, pos) ∈ l -> prices !! t = price t) ->
  (fold_left
     (fun total_portfolio_value '(ticker, position) =>
        match prices !! ticker with
        | Some p =>
            let total_portfolio_value :=
              (total_portfolio_value + default 0 (long position) * p)%Q in
            (total_portfolio_value - default 0 (short position) * p)%Q
        | None => total_portfolio_value
        end) l acc
   == net_liquidation_value acc l price)%Q.
Proof.
  unfold net_liquidation_value. revert acc.
  induction l as [|[t pos] l IH]; intros acc Hp; cbn [fold_left fold_right].
  - lra.
  - rewrite IH by (intros; eapply Hp, list_elem_of_further; eassumption).
    rewrite (Hp t pos) by apply list_elem_of_here.
    destruct (price t) as [p|]; cbv zeta; lra.
Qed.

Lemma total_value_spec (d : Data) :
  (RiskManager.total_value (portfolio d) (fetch_prices d)
   == net_liquidation_value (default 0%Q (cash (portfolio d)))
        (default [] (positions (portfolio d))) (fetch_price d))%Q.
Proof.
  unfold RiskManager.total_value. apply total_value_fold.
  intros t pos Hin. eapply fetch_prices_position. exact Hin.
Qed.

(** A ticker without a price adds nothing to the portfolio value. *)
Lemma net_liquidation_value_drop (cash : Q) (l : list (string * Position))
    (price : string -> option Q) (t : string) :
  price t = None ->
  (net_liquidation_value cash l price
   == net_liquidation_value cash (drop_position t l) price)%Q.
Proof.
  intros Hnone. unfold net_liquidation_value, drop_position.
  apply Qplus_inj_l.
  induction l as [|[k pos] l IH]; cbn [fold_right List.filter]; [reflexivity|].
  cbn [fst]. destruct (String.eqb_spec k t) as [-> | Hne]; cbn [negb].
  - rewrite Hnone. exact IH.
  - cbn [fold_right]. destruct (price k); rewrite IH; reflexivity.
Qed.

Lemma risk_analysis_lookup (d : Data) (t : string) :
  t ∈ tickers d ->
  risk_analysis_of d !! t
  = Some (RiskManager.risk_entry (portfolio d) (fetch_prices d)
            (RiskManager.total_value (portfolio d) (fetch_prices d)) t).
Proof.
  intros Hin. unfold RiskManager.risk_analysis_of. cbv zeta.
  rewrite (fold_insert_lookup
             (RiskManager.risk_entry (portfolio d) (fetch_prices d)
                (RiskManager.total_value (portfolio d) (fetch_prices d)))).
  rewrite decide_True by exact Hin. reflexivity.
Qed.

(** Every ticker of the run, priced or not, gets an entry, and nothing
    else does. *)
Lemma risk_analysis_dom (d : Data) (t : string) :
  is_Some (risk_analysis_of d !! t) <-> t ∈ tickers d.
Proof.
  unfold RiskManager.risk_analysis_of. cbv zeta.
  rewrite (fold_insert_lookup
             (RiskManager.risk_entry (portfolio d) (fetch_prices d)
                (RiskManager.total_value (portfolio d) (fetch_prices d)))).
  destruct (decide (t ∈ tickers d)) as [Hin | Hnin].
  - split; [intros _; exact Hin | eauto].
  - rewrite lookup_empty. split; [intros [? ?]; discriminate | contradiction].
Qed.

(** The plugin returns the analysis and stores it under
    ["risk_management_agent"], keeping every other key. *)
Lemma get_risk_data_run (ticker : string) (state : AgentState) :
  RiskManager.get_risk_data Price get_prices close_column ticker (Some state)
  = (Ok (risk_analysis_of (data state)),
     Some (RiskManager.set_risk_signals state (risk_analysis_of (data state)))).
Proof. reflexivity. Qed.

End RiskCalculator.

(** ** The risk calculator against the specification *)

(** C6 as the specification states it fails on the position value: for 2
    shares long and 1 share short at a price of 3 the code records
    |2*3 - 1*3| = 3, the formula of the specification gives |2*3 - 1|*3 = 15. *)
Lemma position_value_differs :
  exists e pv cur lim rem av,
    RiskManager.risk_analysis_of Q (Sample.prices_of 3) Sample.close_column
      (Sample.data_of ["ACME"]
         (Sample.portfolio_of 100 [("ACME", Sample.position 2 1)]))
      !! "ACME" = Some e
    /\ reasoning e = ReasonLimits pv cur lim rem av
    /\ (cur == 3)%Q
    /\ ~ (cur == position_value_as_specified 2 1 3)%Q.
Proof.
  eexists _, _, _, _, _, _. split.
  - vm_compute. reflexivity.
  - split; [reflexivity|]. split.
    + reflexivity.
    + intros H. vm_compute in H. discriminate.
Qed.

(** C6 (amended).  When the price of every relevant ticker is known, the
    risk calculator computes total_portfolio_value = cash + sum over the
    positions of (long_shares * price - short_shares * price), and for every
    ticker of the run: current_position_value = |long_shares * price -
    short_shares * price|, position_limit = 0.20 * total_portfolio_value,
    remaining_limit = position_limit - current_position_value (negative
    values are not clamped), and max_position_size = min(remaining_limit,
    cash), which is the value recorded as remaining_position_limit. *)
Theorem risk_limits_when_priced (Price : Type)
    (get_prices : string -> string -> string -> list Price)
    (close_column : list Price -> list Q)
    (d : Data) (price : string -> Q) (t : string) :
  (forall k, k ∈ RiskManager.all_tickers d ->
             RiskManager.fetch_price Price get_prices close_column d k
             = Some (price k)) ->
  t ∈ tickers d ->
  let cash := default 0%Q (cash (portfolio d)) in
  let position := RiskManager.position_of (portfolio d) t in
  let long_shares := default 0%Q (position ≫= long) in
  let short_shares := default 0%Q (position ≫= short) in
  exists e pv cur lim rem av,
    RiskManager.risk_analysis_of Price get_prices close_column d !! t = Some e
    /\ current_price e = price t
    /\ reasoning e = ReasonLimits pv cur lim rem av
    /\ (pv == net_liquidation_value cash
               (default [] (positions (portfolio d)))
               (fun k => Some (price k)))%Q
    /\ (cur == Qabs (long_shares * price t - short_shares * price t))%Q
    /\ (lim == (20 # 100) * pv)%Q
    /\ (rem == lim - cur)%Q
    /\ av = cash
    /\ (remaining_position_limit e == Qmin rem cash)%Q.
Proof.
  intros Hpriced Hin cash0 position long_shares short_shares.
  assert (Hall : t ∈ RiskManager.all_tickers d).
  { unfold RiskManager.all_tickers. apply elem_of_union_l, elem_of_list_to_set.
    exact Hin. }
  rewrite (risk_analysis_lookup Price get_prices close_column d t Hin).
  unfold RiskManager.risk_entry.
  rewrite (fetch_prices_ticker Price get_prices close_column d t Hin).
  rewrite (Hpriced t Hall). cbv zeta.
  eexists _, _, _, _, _, _. split; [reflexivity|].
  cbn [current_price reasoning remaining_position_limit].
  split; [reflexivity|]. split; [reflexivity|].
  assert (Htotal :
            (RiskManager.total_value (portfolio d)
               (RiskManager.fetch_prices Price get_prices close_column d)
             == net_liquidation_value cash0
                  (default [] (positions (portfolio d)))
                  (fun k => Some (price k)))%Q).
  { unfold RiskManager.total_value. apply total_value_fold.
    intros k pos Hk.
    rewrite (fetch_prices_position Price get_prices close_column d k pos Hk).
    apply Hpriced. unfold RiskManager.all_tickers, RiskManager.position_keys.
    apply elem_of_union_r, elem_of_list_to_set.
    apply (list_elem_of_fmap_2 fst) in Hk. exact Hk. }
  split; [exact Htotal|].
  split; [reflexivity|].
  split; [ring|].
  split; [reflexivity|].
  split; [reflexivity|].
  apply Qmin_py_min.
Qed.

(** The example of the specification: cash 100000, no positions, a ticker
    priced at 50. *)
Lemma risk_limits_when_priced_witness :
  exists e pv cur lim rem av,
    RiskManager.risk_analysis_of Q (Sample.prices_of 50) Sample.close_column
      (Sample.data_of ["ACME"] (Sample.portfolio_of 100000 [])) !! "ACME" = Some e
    /\ current_price e = 50%Q
    /\ reasoning e = ReasonLimits pv cur lim rem av
    /\ (pv == net_liquidation_value 100000 [] (fun _ => Some 50%Q))%Q
    /\ (cur == Qabs (0 * 50 - 0 * 50))%Q
    /\ (lim == (20 # 100) * pv)%Q
    /\ (rem == lim - cur)%Q
    /\ av = 100000%Q
    /\ (remaining_position_limit e == Qmin rem 100000)%Q.
Proof.
  apply (risk_limits_when_priced Q (Sample.prices_of 50) Sample.close_column
           (Sample.data_of ["ACME"] (Sample.portfolio_of 100000 []))
           (fun _ => 50%Q) "ACME").
  - intros k Hk.
    unfold RiskManager.all_tickers in Hk. cbn in Hk.
    apply elem_of_union in Hk as [Hk | Hk].
    + apply elem_of_union in Hk as [Hk | Hk].
      * apply elem_of_singleton in Hk. subst k. reflexivity.
      * apply elem_of_empty in Hk. destruct Hk.
    + apply elem_of_empty in Hk. destruct Hk.
  - apply list_elem_of_here.
Defined.

(** The figures of the example. *)
Lemma risk_limits_example :
  RiskManager.risk_analysis_of Q (Sample.prices_of 50) Sample.close_column
    (Sample.data_of ["ACME"] (Sample.portfolio_of 100000 [])) !! "ACME"
  = Some {| remaining_position_limit := 2000000 # 100;
            current_price := 50;
            reasoning := ReasonLimits 100000 0 (2000000 # 100) (2000000 # 100) 100000 |}
  /\ (2000000 # 100 == 20000)%Q.
Proof. split; [vm_compute; reflexivity | reflexivity]. Qed.

(** A remaining limit below zero is recorded as it is. *)
Lemma negative_remaining_limit_recorded :
  exists e pv cur lim rem av,
    RiskManager.risk_analysis_of Q (Sample.prices_of 10) Sample.close_column
      (Sample.data_of ["ACME"]
         (Sample.portfolio_of 100 [("ACME", Sample.position 90 0)]))
      !! "ACME" = Some e
    /\ reasoning e = ReasonLimits pv cur lim rem av
    /\ (rem == -700)%Q
    /\ (remaining_position_limit e == -700)%Q.
Proof.
  eexists _, _, _, _, _, _. split; [vm_compute; reflexivity|].
  repeat split; reflexivity.
Qed.

(** C7.  For every ticker of the run whose price cannot be fetched, the
    risk calculator records remaining_position_limit = 0.0, current_price =
    0.0 and a reasoning that carries the missing-price error; the positions
    of that ticker add nothing to total_portfolio_value; and the other
    tickers of the run are still processed: each has its entry, and the
    plugin returns the analysis and stores it. *)
Theorem missing_price_entry (Price : Type)
    (get_prices : string -> string -> string -> list Price)
    (close_column : list Price -> list Q)
    (d : Data) (t : string) :
  t ∈ tickers d ->
  RiskManager.fetch_price Price get_prices close_column d t = None ->
  RiskManager.risk_analysis_of Price get_prices close_column d !! t
  = Some {| remaining_position_limit := 0;
            current_price := 0;
            reasoning := ReasonError "Missing price data for risk calculation" |}
  /\ (RiskManager.total_value (portfolio d)
        (RiskManager.fetch_prices Price get_prices close_column d)
      == net_liquidation_value (default 0%Q (cash (portfolio d)))
           (drop_position t (default [] (positions (portfolio d))))
           (RiskManager.fetch_price Price get_prices close_column d))%Q
  /\ (forall t', t' ∈ tickers d ->
        is_Some (RiskManager.risk_analysis_of Price get_prices close_column d !! t'))
  /\ (forall ticker state, data state = d ->
        RiskManager.get_risk_data Price get_prices close_column ticker (Some state)
        = (Ok (RiskManager.risk_analysis_of Price get_prices close_column d),
           Some (RiskManager.set_risk_signals state
                   (RiskManager.risk_analysis_of Price get_prices close_column d)))).
Proof.
  intros Hin Hnone. repeat split.
  - rewrite (risk_analysis_lookup Price get_prices close_column d t Hin).
    unfold RiskManager.risk_entry.
    rewrite (fetch_prices_ticker Price get_prices close_column d t Hin), Hnone.
    reflexivity.
  - rewrite total_value_spec. apply net_liquidation_value_drop. exact Hnone.
  - intros t' Hin'. apply risk_analysis_dom. exact Hin'.
  - intros ticker state <-. apply get_risk_data_run.
Qed.

Lemma missing_price_entry_witness :
  RiskManager.risk_analysis_of Q (Sample.prices_of 3) Sample.close_column
    (Sample.data_of ["ACME"; "ZZZ"]
       (Sample.portfolio_of 100 [("ZZZ", Sample.position 5 0)])) !! "ZZZ"
  = Some {| remaining_position_limit := 0;
            current_price := 0;
            reasoning := ReasonError "Missing price data for risk calculation" |}.
Proof.
  apply (missing_price_entry Q (Sample.prices_of 3) Sample.close_column
           (Sample.data_of ["ACME"; "ZZZ"]
              (Sample.portfolio_of 100 [("ZZZ", Sample.position 5 0)])) "ZZZ").
  - apply list_elem_of_further, list_elem_of_here.
  - reflexivity.
Defined.

(** C10.  For every ticker of the run with a known price p, the risk record
    holds position_limit = 0.20 * total_portfolio_value (the cash plus the
    priced positions), current_position_value = |long * p - short * p|, and
    the field remaining_position_limit is min(position_limit -
    current_position_value, cash), the cash-capped max_position_size; the
    uncapped difference is recorded as reasoning.remaining_limit only; so
    whenever cash < position_limit - current_position_value the reported
    remaining_position_limit is the cash amount, and otherwise it is the
    uncapped difference. *)
Theorem remaining_position_limit_is_cash_capped (Price : Type)
    (get_prices : string -> string -> string -> list Price)
    (close_column : list Price -> list Q)
    (d : Data) (t : string) (p : Q) :
  t ∈ tickers d ->
  RiskManager.fetch_price Price get_prices close_column d t = Some p ->
  let cash := default 0%Q (cash (portfolio d)) in
  let position := RiskManager.position_of (portfolio d) t in
  let long_shares := default 0%Q (position ≫= long) in
  let short_shares := default 0%Q (position ≫= short) in
  let total_portfolio_value :=
    RiskManager.total_value (portfolio d)
      (RiskManager.fetch_prices Price get_prices close_column d) in
  let current_position_value :=
    Qabs (long_shares * p - short_shares * p) in
  let position_limit := (total_portfolio_value * (20 # 100))%Q in
  exists e,
    RiskManager.risk_analysis_of Price get_prices close_column d !! t = Some e
    /\ current_price e = p
    /\ reasoning e
       = ReasonLimits total_portfolio_value current_position_value
           position_limit (position_limit - current_position_value)%Q cash
    /\ (total_portfolio_value
        == net_liquidation_value cash (default [] (positions (portfolio d)))
             (RiskManager.fetch_price Price get_prices close_column d))%Q
    /\ (remaining_position_limit e
        == Qmin (position_limit - current_position_value) cash)%Q
    /\ ((cash < position_limit - current_position_value)%Q ->
        remaining_position_limit e = cash)
    /\ (~ (cash < position_limit - current_position_value)%Q ->
        remaining_position_limit e
        = (position_limit - current_position_value)%Q).
Proof.
  intros Hin Hp cash0 position long_shares short_shares total
    current_position_value position_limit.
  rewrite (risk_analysis_lookup Price get_prices close_column d t Hin).
  unfold RiskManager.risk_entry.
  rewrite (fetch_prices_ticker Price get_prices close_column d t Hin), Hp.
  cbv zeta.
  eexists. split; [reflexivity|].
  cbn [current_price reasoning remaining_position_limit].
  split; [reflexivity|].
  split; [reflexivity|].
  split; [apply total_value_spec|].
  split; [apply Qmin_py_min|].
  split.
  - intros Hlt. unfold min. apply Qlt_bool_iff in Hlt.
    fold cash0 total. fold position_limit. fold position long_shares short_shares.
    fold current_position_value. rewrite Hlt. reflexivity.
  - intros Hnlt. unfold min.
    fold cash0 total. fold position_limit. fold position long_shares short_shares.
    fold current_position_value.
    destruct (Qlt_bool cash0 (position_limit - current_position_value)) eqn:E;
      [|reflexivity].
    apply Qlt_bool_iff in E. contradiction.
Qed.

(** Cash 100, a thousand shares of another ticker priced at 10, nothing held
    of the ticker itself: the limit is 0.20 * 10100 = 2020, above the cash,
    and the cash amount is what is reported. *)
Lemma remaining_position_limit_is_cash_capped_witness :
  exists e,
    RiskManager.risk_analysis_of Q Sample.prices_of_two Sample.close_column
      (Sample.data_of ["ACME"]
         (Sample.portfolio_of 100 [("OTHER", Sample.position 1000 0)]))
      !! "ACME" = Some e
    /\ (100 < 10100 * (20 # 100) - Qabs (0 * 10 - 0 * 10))%Q
    /\ remaining_position_limit e = 100%Q.
Proof.
  destruct (remaining_position_limit_is_cash_capped Q Sample.prices_of_two
              Sample.close_column
              (Sample.data_of ["ACME"]
                 (Sample.portfolio_of 100 [("OTHER", Sample.position 1000 0)]))
              "ACME" 10%Q ltac:(apply list_elem_of_here) eq_refl)
    as (e & He & _ & _ & _ & _ & Hcap & _).
  exists e. split; [exact He|].
  split; [reflexivity|].
  apply Hcap. reflexivity.
Defined.

(** With less cash than the remaining limit the cash amount is reported,
    and the uncapped limit is kept in the reasoning. *)
Lemma cash_capped_example :
  exists e pv cur lim av,
    RiskManager.risk_analysis_of Q Sample.prices_of_two Sample.close_column
      (Sample.data_of ["ACME"]
         (Sample.portfolio_of 100 [("OTHER", Sample.position 1000 0)]))
      !! "ACME" = Some e
    /\ remaining_position_limit e = 100%Q
    /\ reasoning e = ReasonLimits pv cur lim (202000 # 100) av.
Proof.
  eexists _, _, _, _, _. split; [vm_compute; reflexivity|].
  split; reflexivity.
Qed.

(** ** The state-store service *)

Section StateServerProperties.

Variable json_loads : string -> option Json.

(** What [get] returns is a document with both keys of an AgentState. *)
Lemma get_well_formed (fs : StateServer.Files) (doc : Json) :
  StateServer.get json_loads fs = Some doc ->
  has_key "data" doc = true /\ has_key "metadata" doc = true.
Proof.
  unfold StateServer.get, StateServer.load_state_from_file.
  destruct fs as [text|]; [|discriminate].
  destruct (json_loads text) as [d|]; [|discriminate].
  cbn [forallb].
  destruct (has_key "data" d) eqn:Hd; cbn [andb]; [|discriminate].
  destruct (has_key "metadata" d) eqn:Hm; cbn [andb]; [|discriminate].
  intros [= <-]. auto.
Qed.

End StateServerProperties.

(** C8.  [get] on a store with no persisted state returns the absent
    value, and so it does when the persisted text does not decode or decodes
    to a document that lacks the key data or metadata; whatever [get] returns
    has both keys.  For every state document s with the keys data and
    metadata that the JSON codec carries faithfully, [set s] followed by
    [get] returns s. *)
Theorem state_store_get_after_set
    (json_dumps : Json -> string) (json_loads : string -> option Json)
    (s : Json) (fs : StateServer.Files) :
  has_key "data" s = true ->
  has_key "metadata" s = true ->
  json_loads (json_dumps s) = Some s ->
  StateServer.get json_loads (StateServer.set json_dumps s fs) = Some s
  /\ StateServer.get json_loads None = None
  /\ (forall text, json_loads text = None ->
        StateServer.get json_loads (Some text) = None)
  /\ (forall text doc,
        json_loads text = Some doc ->
        has_key "data" doc && has_key "metadata" doc = false ->
        StateServer.get json_loads (Some text) = None)
  /\ (forall fs' doc,
        StateServer.get json_loads fs' = Some doc ->
        has_key "data" doc = true /\ has_key "metadata" doc = true).
Proof.
  intros Hd Hm Hrt. repeat split.
  - unfold StateServer.get, StateServer.set, StateServer.save_state_to_file,
      StateServer.load_state_from_file.
    rewrite Hrt. cbn [forallb]. rewrite Hd, Hm. reflexivity.
  - intros text Hnone. unfold StateServer.get, StateServer.load_state_from_file.
    rewrite Hnone. reflexivity.
  - intros text doc Hdoc Hkeys.
    unfold StateServer.get, StateServer.load_state_from_file.
    rewrite Hdoc. cbn [forallb]. rewrite andb_true_r, Hkeys. reflexivity.
  - eapply get_well_formed; eassumption.
  - eapply get_well_formed; eassumption.
Qed.

Lemma state_store_get_after_set_witness :
  StateServer.get Sample.json_loads
    (StateServer.set Sample.json_dumps Sample.state_doc None)
  = Some Sample.state_doc.
Proof.
  apply (state_store_get_after_set Sample.json_dumps Sample.json_loads
           Sample.state_doc None); reflexivity.
Defined.

(** ** Signals and the state store *)

(** C2 as the specification states it fails: after Bill Ackman's plugin has
    returned its record for ACME, the store written by [run_hedge_fund] still
    holds no record of the persona; and the portfolio plugin returns the same
    text whether or not the store holds records of a persona. *)
Lemma persona_record_not_merged :
  let state := initial_state ["ACME"] "2024-01-01" "2024-03-31"
                 (Sample.portfolio_of 100000 []) false "gpt-4o-mini" "OpenAI" in
  let outcome :=
    call_persona
      (BillAckman.get_analysis_data Sample.fmt Sample.no_metrics
         Sample.no_line_items Sample.no_market_cap "ACME" "2024-03-31")
      (Some state) in
  (exists records r, outcome.1 = Ok records /\ records !! "ACME" = Some r)
  /\ ~ merged_into_store "bill_ackman_agent" "ACME" outcome.2.
Proof.
  cbv zeta. split.
  - eexists _, _. split; [reflexivity|]. apply lookup_insert_eq.
  - intros (state & signals & Hst & Hsig & _).
    cbn in Hst. injection Hst as <-. cbn in Hsig.
    rewrite lookup_empty in Hsig. discriminate.
Qed.

(** C2 (amended).  A persona's plugin returns its record to its caller and
    leaves the state store as it is.  The only plugin that writes
    analyst_signals is the risk plugin: it stores its analysis under the key
    risk_management_agent and keeps every other key.  The portfolio plugin
    reads the store and returns the portfolio only, so what it returns does
    not depend on analyst_signals.  In the chain, a stage's message carries
    the response of the stage just before it, substituted for the
    analysis-data placeholder. *)
Theorem signals_and_the_store
    (fmt : string -> Q -> string)
    (get_financial_metrics :
       string -> string -> option string -> option Z -> list Metrics)
    (search_line_items :
       string -> list string -> string -> option string -> option Z -> list LineItem)
    (get_market_cap : string -> string -> option Q)
    (get_insider_trades : string -> string -> string -> list InsiderTrade)
    (get_company_news : string -> string -> string -> Z -> list News)
    (one_year_before : string -> result string)
    (Price : Type) (get_prices : string -> string -> string -> list Price)
    (close_column : list Price -> list Q)
    (dumps_portfolio : Portfolio -> string)
    (llm : Main.Agent -> string -> Store -> string * Store)
    (search_json_fence : string -> option string)
    (json_loads : string -> option Json) :
  (forall ticker end_date st,
     (call_persona
        (BillAckman.get_analysis_data fmt get_financial_metrics search_line_items
           get_market_cap ticker end_date) st).2 = st
     /\ (call_persona
           (MichaelBurry.get_analysis_data fmt get_financial_metrics
              search_line_items get_market_cap get_insider_trades
              get_company_news one_year_before ticker end_date) st).2 = st)
  /\ (forall ticker state,
        exists risk_analysis state',
          RiskManager.get_risk_data Price get_prices close_column ticker (Some state)
          = (Ok risk_analysis, Some state')
          /\ analyst_signals (data state') !! "risk_management_agent"
             = Some (RiskSignals risk_analysis)
          /\ (forall key, key <> "risk_management_agent" ->
                analyst_signals (data state') !! key
                = analyst_signals (data state) !! key)
          /\ portfolio (data state') = portfolio (data state)
          /\ tickers (data state') = tickers (data state))
  /\ (forall ticker state,
        PortfolioManager.get_porforlio_data dumps_portfolio ticker (Some state)
        = (Ok (dumps_portfolio (portfolio (data state))), Some state))
  /\ (forall ticker state state',
        portfolio (data state) = portfolio (data state') ->
        (PortfolioManager.get_porforlio_data dumps_portfolio ticker (Some state)).1
        = (PortfolioManager.get_porforlio_data dumps_portfolio ticker (Some state')).1)
  /\ (forall ticker end_date agent template previous analysis_data w,
        Main.invocations
          (Main.run_agent llm search_json_fence json_loads ticker end_date
             (agent, template) (Some previous, analysis_data) w).2
        = Main.invocations w
          ++ [(Main.name agent,
               replace "{$analysis_data}" previous
                 (replace "{$end_date}" end_date
                    (replace "{$ticker}" ticker template)))]).
Proof.
  split; [|split; [|split; [|split]]].
  - intros ticker end_date st. split; reflexivity.
  - intros ticker state. eexists _, _. split; [apply get_risk_data_run|].
    cbn [RiskManager.set_risk_signals data analyst_signals portfolio tickers].
    split; [apply lookup_insert_eq|].
    split; [|split; reflexivity].
    intros key Hkey. apply lookup_insert_ne. congruence.
  - intros ticker state. reflexivity.
  - intros ticker state state' Hp.
    change (Ok (dumps_portfolio (portfolio (data state)))
            = Ok (dumps_portfolio (portfolio (data state')))).
    rewrite Hp. reflexivity.
  - intros ticker end_date agent template previous analysis_data w.
    unfold Main.run_agent, Main.invoke_agent.
    unfold mbind, mret, Main.io_mbind, Main.io_mret. cbv beta.
    destruct (llm agent _ (Main.store w)) as [response st]. reflexivity.
Qed.

(** ** The orchestrator *)

Section Orchestrator.

Variable ANALYST_CONFIG : list (string * Main.AnalystConfig).
Variable llm : Main.Agent -> string -> Store -> string * Store.
Variable search_json_fence : string -> option string.
Variable json_loads : string -> option Json.
Variable environ : string -> option string.

Abbreviation parse :=
  (Main.parse_hedge_fund_response search_json_fence json_loads).
Abbreviation run_agent := (Main.run_agent llm search_json_fence json_loads).
Abbreviation run_ticker := (Main.run_ticker llm search_json_fence json_loads).
Abbreviation ticker_turn := (ticker_turn llm search_json_fence json_loads).

(** Sequencing in the monad of the orchestrator. *)
Lemma io_bind_ok {A B} (m : Main.IO A) (f : A -> Main.IO B) w a w' :
  m w = (Ok a, w') -> (m ≫= f) w = f a w'.
Proof. intros H. unfold mbind, Main.io_mbind. rewrite H. reflexivity. Qed.

Lemma io_bind_raise {A B} (m : Main.IO A) (f : A -> Main.IO B) w e w' :
  m w = (Raise e, w') -> (m ≫= f) w = (Raise e, w').
Proof. intros H. unfold mbind, Main.io_mbind. rewrite H. reflexivity. Qed.

(** One stage: the agent is invoked once, with the message of the stage;
    its answer is the next [response], and it is recorded under the
    agent's name unless the agent is the portfolio manager. *)
Lemma run_agent_run ticker end_date agent template previous analysis_data w :
  let user_message := stage_message ticker end_date template previous in
  let answer := llm agent user_message (Main.store w) in
  run_agent ticker end_date (agent, template) (previous, analysis_data) w
  = (Ok (Some answer.1,
         if negb (String.eqb (Main.name agent) "portfolio_manager_agent")
         then <[ Main.name agent := parse answer.1 ]> analysis_data
         else analysis_data),
     {| Main.store := answer.2;
        Main.invocations := Main.invocations w ++ [(Main.name agent, user_message)] |}).
Proof.
  cbv zeta. unfold Main.run_agent, Main.invoke_agent, stage_message.
  unfold mbind, mret, Main.io_mbind, Main.io_mret. cbv beta.
  destruct previous as [content|];
    match goal with
    | |- context [llm agent ?m (Main.store w)] =>
        destruct (llm agent m (Main.store w)) as [response st]
    end; reflexivity.
Qed.

(** The chain of one ticker never fails; it invokes every agent once, in
    the order of the chain, and ends with a response when there is an
    agent. *)
Lemma run_chain_spec (agents : list (Main.Agent * string))
    (ticker end_date : string) (vars : Main.chain_vars) (w : Main.World) :
  exists vars' w',
    for_each agents (run_agent ticker end_date) vars w = (Ok vars', w')
    /\ map fst (Main.invocations w')
       = map fst (Main.invocations w) ++ agent_names agents
    /\ (is_Some vars.1 \/ agents <> [] -> is_Some vars'.1).
Proof.
  revert vars w. induction agents as [|[agent template] agents IH];
    intros [previous analysis_data] w.
  - exists (previous, analysis_data), w. split; [reflexivity|].
    split; [cbn; rewrite app_nil_r; reflexivity|].
    intros [H | H]; [exact H | contradiction].
  - cbn [for_each].
    pose proof (run_agent_run ticker end_date agent template previous
                  analysis_data w) as Hrun.
    cbv zeta in Hrun.
    rewrite (io_bind_ok _ _ _ _ _ Hrun).
    match goal with
    | |- context [for_each agents _ ?v ?w1] =>
        destruct (IH v w1) as (vars' & w' & Hloop & Hnames & Hsome)
    end.
    exists vars', w'. split; [exact Hloop|]. split.
    + rewrite Hnames. cbn [Main.invocations agent_names map fst].
      rewrite map_app, <- app_assoc. reflexivity.
    + intros _. apply Hsome. left. cbn. eauto.
Qed.

Lemma run_ticker_spec agents end_date ticker w :
  exists vars' w',
    run_ticker agents end_date ticker w = (Ok vars', w')
    /\ map fst (Main.invocations w')
       = map fst (Main.invocations w) ++ agent_names agents
    /\ (agents <> [] -> is_Some vars'.1).
Proof.
  unfold Main.run_ticker.
  destruct (run_chain_spec agents ticker end_date (None, ∅) w)
    as (vars' & w' & Hrun & Hnames & Hsome).
  exists vars', w'. auto.
Qed.

(** The loop over the tickers. *)
Lemma ticker_turn_spec agents end_date ticker v w :
  exists vars' w',
    ticker_turn agents end_date ticker v w = (Ok (Some vars'), w')
    /\ run_ticker agents end_date ticker w = (Ok vars', w')
    /\ map fst (Main.invocations w')
       = map fst (Main.invocations w) ++ agent_names agents
    /\ (agents <> [] -> is_Some vars'.1).
Proof.
  destruct (run_ticker_spec agents end_date ticker w)
    as (vars' & w' & Hrun & Hnames & Hsome).
  exists vars', w'. split; [|auto].
  unfold ticker_turn. rewrite (io_bind_ok _ _ _ _ _ Hrun). reflexivity.
Qed.

Lemma run_tickers_spec agents end_date (tickers : list string) v w :
  exists v' w',
    for_each tickers (ticker_turn agents end_date) v w = (Ok v', w')
    /\ map fst (Main.invocations w')
       = map fst (Main.invocations w)
         ++ concat (map (fun _ => agent_names agents) tickers)
    /\ (tickers = [] -> v' = v /\ w' = w)
    /\ (forall ts t, tickers = ts ++ [t] ->
          exists v1 w1 vars,
            for_each ts (ticker_turn agents end_date) v w = (Ok v1, w1)
            /\ run_ticker agents end_date t w1 = (Ok vars, w')
            /\ v' = Some vars
            /\ (agents <> [] -> is_Some vars.1)).
Proof.
  revert v w. induction tickers as [|ticker tickers IH]; intros v w.
  - exists v, w. split; [reflexivity|].
    split; [cbn; rewrite app_nil_r; reflexivity|].
    split; [auto|].
    intros ts t H. destruct ts; discriminate H.
  - cbn [for_each].
    destruct (ticker_turn_spec agents end_date ticker v w)
      as (vars1 & w1 & Hturn & Hrun1 & Hnames1 & Hsome1).
    rewrite (io_bind_ok _ _ _ _ _ Hturn).
    destruct (IH (Some vars1) w1) as (v' & w' & Hloop & Hnames & Hnil & Hlast).
    exists v', w'. split; [exact Hloop|]. split.
    + rewrite Hnames, Hnames1. cbn [map concat]. rewrite <- app_assoc. reflexivity.
    + split; [discriminate|].
      intros ts t Heq. destruct ts as [|t0 ts].
      * cbn in Heq. injection Heq as -> ->.
        destruct (Hnil eq_refl) as [-> ->].
        exists v, w, vars1. split; [reflexivity|]. auto.
      * cbn in Heq. injection Heq as -> ->.
        destruct (Hlast ts t eq_refl) as (v1 & w2 & vars & Hts & Hrun & -> & Hsome).
        exists v1, w2, vars. split; [|auto].
        cbn [for_each]. rewrite (io_bind_ok _ _ _ _ _ Hturn). exact Hts.
Qed.

(** [run_hedge_fund], step by step. *)
Lemma run_hedge_fund_unfold tickers start_date end_date portfolio show_reasoning
    selected_analysts model_name model_provider w :
  Main.run_hedge_fund ANALYST_CONFIG llm search_json_fence json_loads environ tickers
    start_date end_date portfolio show_reasoning selected_analysts
    model_name model_provider w
  = let w0 :=
      {| Main.store :=
           Some (initial_state tickers start_date end_date portfolio
                   show_reasoning model_name model_provider);
         Main.invocations := Main.invocations w |} in
    match Main.create_agents ANALYST_CONFIG environ selected_analysts model_name
            model_provider with
    | Raise e => (Raise e, w0)
    | Ok agents =>
        match for_each tickers (ticker_turn agents end_date) None w0 with
        | (Raise e, w') => (Raise e, w')
        | (Ok None, w') => (Raise UnboundLocalError, w')
        | (Ok (Some (None, _)), w') => (Raise AttributeError, w')
        | (Ok (Some (Some response, analysis_data)), w') =>
            (Ok {| Main.decisions := parse response;
                   Main.analyst_signals := analysis_data |}, w')
        end
    end.
Proof.
  unfold Main.run_hedge_fund. cbv zeta.
  unfold mbind at 1. unfold Main.io_mbind at 1.
  unfold Main.io_store, mcp_upsert_state. cbn [Main.store Main.invocations].
  unfold mbind at 1. unfold Main.io_mbind at 1. unfold Main.io_result at 1.
  destruct (Main.create_agents ANALYST_CONFIG environ selected_analysts model_name
              model_provider) as [agents|e];
    [|reflexivity].
  unfold mbind at 1. unfold Main.io_mbind at 1.
  change (fun (ticker : string) (_ : option Main.chain_vars) =>
            Main.run_ticker llm search_json_fence json_loads agents end_date ticker
            ≫= fun vars => mret (Some vars))
    with (ticker_turn agents end_date).
  destruct (for_each tickers (ticker_turn agents end_date) None _)
    as [[[[[response|] analysis_data]|]|e] w']; reflexivity.
Qed.

End Orchestrator.

(** ** The pipeline that is built and run *)

Section Pipeline.

Variable ANALYST_CONFIG : list (string * Main.AnalystConfig).
Variable llm : Main.Agent -> string -> Store -> string * Store.
Variable search_json_fence : string -> option string.
Variable json_loads : string -> option Json.
Variable environ : string -> option string.

(** An agent is named after its key. *)
Lemma make_agent_name (kernel : Agents.Kernel) (analyst_key : string)
    (agent : Main.Agent) (template : string) :
  Main.make_agent ANALYST_CONFIG kernel analyst_key = Ok (agent, template) ->
  Main.name agent = analyst_key +:+ "_agent".
Proof.
  unfold Main.make_agent, Main.lookup_key, Main.get_analyst_nodes.
  destruct (List.find _ _) as [[key [[[node_name instructions] tmpl] plugins]]|]
    eqn:Hfind; cbn [mbind result_bind]; [|discriminate].
  apply find_some in Hfind as [Hin Hkey]. cbn [fst] in Hkey.
  apply String.eqb_eq in Hkey. subst key.
  apply in_map_iff in Hin as ([key config] & Heq & _).
  injection Heq as -> <- _ _ _.
  cbn [snd]. intros [= <- _]. reflexivity.
Qed.

Lemma create_agents_loop_names (kernel : Agents.Kernel) (selected : list string)
    (acc agents : list (Main.Agent * string)) :
  for_each selected
    (fun analyst_key agents =>
       agent ← Main.make_agent ANALYST_CONFIG kernel analyst_key;
       Ok (agents ++ [agent]))
    acc = Ok agents ->
  agent_names agents
  = agent_names acc ++ map (fun key => key +:+ "_agent") selected.
Proof.
  revert acc. induction selected as [|key selected IH]; intros acc.
  - cbn. intros [= <-]. rewrite app_nil_r. reflexivity.
  - cbn [for_each].
    destruct (Main.make_agent ANALYST_CONFIG kernel key)
      as [[agent template]|e] eqn:Hmake;
      cbn [mbind result_bind]; [|discriminate].
    intros Hloop. apply IH in Hloop. rewrite Hloop.
    unfold agent_names. rewrite map_app. cbn [map fst].
    rewrite (make_agent_name kernel key agent template Hmake), <- app_assoc.
    reflexivity.
Qed.

(** The chain is the selected analysts in the order given, then the
    portfolio manager. *)
Lemma create_agents_names (selected : list string)
    (model_name model_provider : string) (agents : list (Main.Agent * string)) :
  Main.create_agents ANALYST_CONFIG environ selected model_name model_provider
    = Ok agents ->
  agent_names agents
  = map (fun key => key +:+ "_agent") selected ++ ["portfolio_manager_agent"].
Proof.
  unfold Main.create_agents.
  destruct (Agents.create_kernel_with_chat_completion environ model_name
              model_provider "HedgeFundAgent") as [[kernel settings]|e];
    cbn [mbind result_bind]; [|discriminate].
  destruct (for_each selected _ []) as [chain|e] eqn:Hloop;
    cbn [mbind result_bind]; [|discriminate].
  destruct (Main.make_agent ANALYST_CONFIG kernel "portfolio_manager")
    as [[agent template]|e] eqn:Hmake; cbn [mbind result_bind]; [|discriminate].
  intros [= <-]. apply create_agents_loop_names in Hloop.
  unfold agent_names in *. rewrite map_app, Hloop. cbn [map fst app].
  rewrite (make_agent_name kernel _ agent template Hmake). reflexivity.
Qed.

Lemma create_agents_nonempty (selected : list string)
    (model_name model_provider : string) (agents : list (Main.Agent * string)) :
  Main.create_agents ANALYST_CONFIG environ selected model_name model_provider
    = Ok agents ->
  agents <> [].
Proof.
  intros H ->. apply create_agents_names in H. cbn in H.
  destruct (map _ selected); discriminate H.
Qed.

(** A run over at least one ticker returns; it invokes, for every ticker
    in turn, every agent of the chain once and in order; and what it
    returns is made of the responses of the last ticker's chain alone. *)
Lemma run_hedge_fund_spec (ts : list string) (t : string)
    (start_date end_date : string) (portfolio : Portfolio) (show_reasoning : bool)
    (selected : list string) (model_name model_provider : string)
    (agents : list (Main.Agent * string)) (w : Main.World) :
  Main.create_agents ANALYST_CONFIG environ selected model_name model_provider
    = Ok agents ->
  exists w1 response analysis_data w',
    Main.run_ticker llm search_json_fence json_loads agents end_date t w1
      = (Ok (Some response, analysis_data), w')
    /\ Main.run_hedge_fund ANALYST_CONFIG llm search_json_fence json_loads environ
         (ts ++ [t]) start_date end_date portfolio show_reasoning selected
         model_name model_provider w
       = (Ok {| Main.decisions :=
                  Main.parse_hedge_fund_response search_json_fence json_loads
                    response;
                Main.analyst_signals := analysis_data |}, w')
    /\ map fst (Main.invocations w')
       = map fst (Main.invocations w)
         ++ concat (map (fun _ => agent_names agents) (ts ++ [t])).
Proof.
  intros Hagents. rewrite run_hedge_fund_unfold. cbv zeta. rewrite Hagents.
  match goal with
  | |- context [for_each (ts ++ [t]) _ None ?w0] =>
      destruct (run_tickers_spec llm search_json_fence json_loads agents end_date
                  (ts ++ [t]) None w0)
        as (v' & w' & Hloop & Hnames & _ & Hlast)
  end.
  destruct (Hlast ts t eq_refl) as (v1 & w1 & vars & _ & Hrun & -> & Hsome).
  destruct vars as [[response|] analysis_data].
  2:{ destruct (Hsome (create_agents_nonempty _ _ _ _ Hagents)) as [? H].
      discriminate H. }
  exists w1, response, analysis_data, w'.
  split; [exact Hrun|]. rewrite Hloop. split; [reflexivity|].
  exact Hnames.
Qed.

End Pipeline.

(** C1 (fails on the code).  The claim: the result of a run maps every
    ticker to its decision and every persona to a record for every ticker.
    For the tickers AAPL and MSFT, one analyst, a backend that answers about
    the ticker it is asked about and a decoder that reads the answer T as the
    document with the one key T, all four stages run in order, but the
    result holds the decision and the analyst's record of MSFT only. *)
Theorem run_returns_last_ticker_only :
  let outcome :=
    Main.run_hedge_fund Sample.analyst_config Sample.llm Sample.no_json_fence
      Sample.decode_answer Sample.environ ["AAPL"; "MSFT"] "2024-01-01"
      "2024-03-31" (Sample.portfolio_of 100000 []) false ["bill_ackman"]
      "gpt-4o-mini" "OpenAI" Sample.empty_world in
  exists r,
    outcome.1 = Ok r
    /\ Main.invocations outcome.2
       = [ ("bill_ackman_agent", "AAPL"); ("portfolio_manager_agent", "AAPL");
           ("bill_ackman_agent", "MSFT"); ("portfolio_manager_agent", "MSFT") ]
    /\ Main.decisions r = Some (JDict [("MSFT", JStr "hold")])
    /\ Main.analyst_signals r !! "bill_ackman_agent"
       = Some (Some (JDict [("MSFT", JStr "hold")]))
    /\ ~ covers_tickers ["AAPL"; "MSFT"] (Main.decisions r).
Proof.
  cbv zeta. eexists. split; [vm_compute; reflexivity|].
  split; [vm_compute; reflexivity|].
  split; [reflexivity|].
  split; [vm_compute; reflexivity|].
  intros H. destruct (H "AAPL" (list_elem_of_here _ _)) as (j & Hj & Hkey).
  cbn in Hj. injection Hj as <-. vm_compute in Hkey. discriminate Hkey.
Qed.

(** ** Checks of the configuration *)

(** C9 as the specification states it fails twice.  With a start date of
    2024-06-01 and an end date of 2024-01-01, both well formed, the script
    runs the whole pipeline; and [run_hedge_fund] on an empty ticker list
    writes the initial state before it stops. *)
Lemma invalid_configuration_not_rejected :
  (exists start_date end_date,
     Sample.strptime "2024-06-01" = Some start_date
     /\ Sample.strptime "2024-01-01" = Some end_date
     /\ Sample.date_before end_date start_date
     /\ ~ rejected_before_pipeline Sample.empty_world
          (Main.main Sample.analyst_config Sample.llm Sample.no_json_fence
             Sample.decode_answer Sample.environ Sample.Date Sample.strptime
             "2024-03-31" Sample.three_months_before Sample.available_models []
             Sample.no_ollama
             (Sample.args (Some "2024-06-01") (Some "2024-01-01"))
             ["bill_ackman"] Sample.answers Sample.empty_world))
  /\ ~ rejected_before_pipeline Sample.empty_world
       (Main.run_hedge_fund Sample.analyst_config Sample.llm Sample.no_json_fence
          Sample.decode_answer Sample.environ [] "2024-01-01" "2024-03-31"
          (Sample.portfolio_of 100000 []) false ["bill_ackman"] "gpt-4o-mini"
          "OpenAI" Sample.empty_world).
Proof.
  split.
  - eexists _, _. split; [vm_compute; reflexivity|].
    split; [vm_compute; reflexivity|].
    split; [cbn; lia|].
    intros (Hfail & _). vm_compute in Hfail. discriminate Hfail.
  - intros (_ & Hstore & _). vm_compute in Hstore. discriminate Hstore.
Qed.

Section Configuration.

Variable ANALYST_CONFIG : list (string * Main.AnalystConfig).
Variable llm : Main.Agent -> string -> Store -> string * Store.
Variable search_json_fence : string -> option string.
Variable json_loads : string -> option Json.
Variable Date : Type.
Variable strptime : string -> option Date.
Variable today : string.
Variable three_months_before : Date -> string.

(** A given date that does not parse stops the script. *)
Lemma resolve_dates_malformed (args : Main.Args) (s : string) :
  (Main.given (Main.start_date_arg args) = Some s
   \/ Main.given (Main.end_date_arg args) = Some s) ->
  strptime s = None ->
  Main.resolve_dates Date strptime today three_months_before args
  = Raise ValueError.
Proof.
  intros Hgiven Hbad. unfold Main.resolve_dates, Main.validate_date.
  destruct Hgiven as [Hs | He].
  - rewrite Hs, Hbad. reflexivity.
  - rewrite He, Hbad.
    destruct (Main.given (Main.start_date_arg args)) as [s'|]; [|reflexivity].
    destruct (strptime s'); reflexivity.
Qed.

(** Two given dates that parse are taken as they are, in any order. *)
Lemma resolve_dates_given (args : Main.Args) (s e : string) (ds de : Date) :
  Main.given (Main.start_date_arg args) = Some s ->
  Main.given (Main.end_date_arg args) = Some e ->
  strptime s = Some ds ->
  strptime e = Some de ->
  Main.resolve_dates Date strptime today three_months_before args = Ok (s, e).
Proof.
  intros Hs He Hds Hde. unfold Main.resolve_dates, Main.validate_date.
  rewrite Hs, He, Hds, Hde. reflexivity.
Qed.

End Configuration.

(** C9 (amended).  The script checks the dates it is given for their
    format only: once the analysts and the model are selected, a given date
    that is not of the form YYYY-MM-DD stops the run with an error before any
    state is written and before any stage runs.  The order of the two dates
    is not checked: with two well-formed dates the script calls
    [run_hedge_fund] with them as they are, and every stage runs for every
    ticker.  [run_hedge_fund] does not reject an empty ticker list before it
    starts: it writes the initial state first, and then no stage runs. *)
Theorem configuration_checks
    (ANALYST_CONFIG : list (string * Main.AnalystConfig))
    (llm : Main.Agent -> string -> Store -> string * Store)
    (search_json_fence : string -> option string)
    (json_loads : string -> option Json)
    (environ : string -> option string)
    (Date : Type) (strptime : string -> option Date) (today : string)
    (three_months_before : Date -> string)
    (AVAILABLE_MODELS OLLAMA_MODELS : list Models.LLMModel)
    (ensure_ollama_and_model : string -> bool)
    (args : Main.Args) (choices : list string) (answers : Main.Prompts)
    (model_name model_provider : string) (w : Main.World) :
  choices <> [] ->
  Main.select_model AVAILABLE_MODELS OLLAMA_MODELS ensure_ollama_and_model
    args answers = Ok (model_name, model_provider) ->
  (forall s,
     (Main.given (Main.start_date_arg args) = Some s
      \/ Main.given (Main.end_date_arg args) = Some s) ->
     strptime s = None ->
     Main.main ANALYST_CONFIG llm search_json_fence json_loads environ Date
       strptime today three_months_before AVAILABLE_MODELS OLLAMA_MODELS
       ensure_ollama_and_model args choices answers w
     = (Raise ValueError, w))
  /\ (forall s e ds de,
        Main.given (Main.start_date_arg args) = Some s ->
        Main.given (Main.end_date_arg args) = Some e ->
        strptime s = Some ds ->
        strptime e = Some de ->
        let tickers := map strip (split_comma (Main.tickers_arg args)) in
        Main.main ANALYST_CONFIG llm search_json_fence json_loads environ Date
          strptime today three_months_before AVAILABLE_MODELS OLLAMA_MODELS
          ensure_ollama_and_model args choices answers w
        = Main.run_hedge_fund ANALYST_CONFIG llm search_json_fence json_loads
            environ tickers s e (Main.initial_portfolio args tickers)
            (Main.show_reasoning_arg args) choices model_name model_provider w
        /\ forall agents,
             Main.create_agents ANALYST_CONFIG environ choices model_name
               model_provider = Ok agents ->
             exists r w',
               Main.main ANALYST_CONFIG llm search_json_fence json_loads environ
                 Date strptime today three_months_before AVAILABLE_MODELS
                 OLLAMA_MODELS ensure_ollama_and_model args choices answers w
               = (Ok r, w')
               /\ map fst (Main.invocations w')
                  = map fst (Main.invocations w)
                    ++ concat (map (fun _ => agent_names agents) tickers))
  /\ (forall start_date end_date portfolio show_reasoning,
        (Main.run_hedge_fund ANALYST_CONFIG llm search_json_fence json_loads
           environ [] start_date end_date portfolio show_reasoning choices
           model_name model_provider w).2
        = {| Main.store :=
               Some (initial_state [] start_date end_date portfolio show_reasoning
                       model_name model_provider);
             Main.invocations := Main.invocations w |}).
Proof.
  intros Hchoices Hmodel.
  assert (Hnonempty : is_empty choices = false).
  { destruct choices; [contradiction | reflexivity]. }
  split; [|split].
  - intros s Hgiven Hbad. unfold Main.main. cbv zeta. rewrite Hnonempty, Hmodel.
    unfold mbind, Main.io_mbind, Main.io_result.
    rewrite (resolve_dates_malformed Date strptime today three_months_before
               args s Hgiven Hbad).
    reflexivity.
  - intros s e ds de Hs He Hds Hde tickers.
    assert (Hmain :
              Main.main ANALYST_CONFIG llm search_json_fence json_loads environ
                Date strptime today three_months_before AVAILABLE_MODELS
                OLLAMA_MODELS ensure_ollama_and_model args choices answers w
              = Main.run_hedge_fund ANALYST_CONFIG llm search_json_fence
                  json_loads environ tickers s e
                  (Main.initial_portfolio args tickers)
                  (Main.show_reasoning_arg args) choices model_name
                  model_provider w).
    { unfold Main.main. cbv zeta. rewrite Hnonempty, Hmodel.
      unfold mbind at 1. unfold Main.io_mbind at 1. unfold Main.io_result at 1.
      unfold mbind at 1. unfold Main.io_mbind at 1. unfold Main.io_result at 1.
      rewrite (resolve_dates_given Date strptime today three_months_before
                 args s e ds de Hs He Hds Hde).
      reflexivity. }
    split; [exact Hmain|].
    intros agents Hagents. rewrite Hmain.
    assert (Hts : exists ts t, tickers = ts ++ [t]).
    { subst tickers. destruct (map strip (split_comma (Main.tickers_arg args)))
        as [|t0 l] eqn:Hl.
      - apply map_eq_nil in Hl. unfold split_comma in Hl.
        exfalso. revert Hl. generalize "" at 1.
        induction (Main.tickers_arg args) as [|c rest IH]; intros cur; cbn.
        + discriminate.
        + destruct (Ascii.eqb c ","); [discriminate | apply IH].
      - destruct (exists_last (l := t0 :: l)) as (ts & t & ->); [discriminate|].
        eauto. }
    destruct Hts as (ts & t & ->).
    destruct (run_hedge_fund_spec ANALYST_CONFIG llm search_json_fence json_loads
                environ ts t s e (Main.initial_portfolio args (ts ++ [t]))
                (Main.show_reasoning_arg args) choices model_name model_provider
                agents w Hagents)
      as (w1 & response & analysis_data & w' & _ & Hrun & Hnames).
    eexists _, w'. split; [exact Hrun | exact Hnames].
  - intros start_date end_date portfolio show_reasoning.
    rewrite run_hedge_fund_unfold. cbv zeta.
    destruct (Main.create_agents ANALYST_CONFIG environ choices model_name
                model_provider); reflexivity.
Qed.

Lemma configuration_checks_witness :
  Main.main Sample.analyst_config Sample.llm Sample.no_json_fence
    Sample.decode_answer Sample.environ Sample.Date Sample.strptime "2024-03-31"
    Sample.three_months_before Sample.available_models [] Sample.no_ollama
    (Sample.args (Some "2024-13-01") None) ["bill_ackman"] Sample.answers
    Sample.empty_world
  = (Raise ValueError, Sample.empty_world).
Proof.
  apply (proj1 (configuration_checks Sample.analyst_config Sample.llm
                  Sample.no_json_fence Sample.decode_answer Sample.environ
                  Sample.Date Sample.strptime "2024-03-31"
                  Sample.three_months_before Sample.available_models []
                  Sample.no_ollama (Sample.args (Some "2024-13-01") None)
                  ["bill_ackman"] Sample.answers "gpt-4o-mini" "OpenAI"
                  Sample.empty_world ltac:(discriminate) eq_refl) "2024-13-01").
  - left. reflexivity.
  - reflexivity.
Defined.

(** * Further properties of the code *)

(** ** The thresholds in whole points *)

Lemma classify_20 (total : Z) :
  (classify total 20 = bullish <-> 14 <= total)
  /\ (classify total 20 = bearish <-> total <= 6).
Proof.
  unfold classify.
  destruct (Qle_bool ((7 # 10) * inject_Z 20) (inject_Z total)) eqn:Hbull.
  - apply Qle_bool_iff in Hbull. unfold Qle in Hbull. cbn in Hbull.
    split; split; intros H; try reflexivity; try discriminate; lia.
  - apply Qle_bool_false_iff in Hbull. unfold Qlt in Hbull. cbn in Hbull.
    destruct (Qle_bool (inject_Z total) ((3 # 10) * inject_Z 20)) eqn:Hbear.
    + apply Qle_bool_iff in Hbear. unfold Qle in Hbear. cbn in Hbear.
      split; split; intros H; try reflexivity; try discriminate; lia.
    + apply Qle_bool_false_iff in Hbear. unfold Qlt in Hbear. cbn in Hbear.
      split; split; intros H; try reflexivity; try discriminate; lia.
Qed.

Lemma classify_12 (total : Z) :
  (classify total 12 = bullish <-> 9 <= total)
  /\ (classify total 12 = bearish <-> total <= 3).
Proof.
  unfold classify.
  destruct (Qle_bool ((7 # 10) * inject_Z 12) (inject_Z total)) eqn:Hbull.
  - apply Qle_bool_iff in Hbull. unfold Qle in Hbull. cbn in Hbull.
    split; split; intros H; try reflexivity; try discriminate; lia.
  - apply Qle_bool_false_iff in Hbull. unfold Qlt in Hbull. cbn in Hbull.
    destruct (Qle_bool (inject_Z total) ((3 # 10) * inject_Z 12)) eqn:Hbear.
    + apply Qle_bool_iff in Hbear. unfold Qle in Hbear. cbn in Hbear.
      split; split; intros H; try reflexivity; try discriminate; lia.
    + apply Qle_bool_false_iff in Hbear. unfold Qlt in Hbear. cbn in Hbear.
      split; split; intros H; try reflexivity; try discriminate; lia.
Qed.

(** X13.  The classification is monotone in the total score: raising the
    total never takes a signal out of bullish, lowering it never takes a
    signal out of bearish, whatever the maximum. *)
Theorem classify_monotone (total total' max : Z) :
  total <= total' ->
  (classify total max = bullish -> classify total' max = bullish)
  /\ (classify total' max = bearish -> classify total max = bearish).
Proof.
  intros Hle.
  assert (Hq : (inject_Z total <= inject_Z total')%Q) by (rewrite <- Zle_Qle; exact Hle).
  unfold classify.
  destruct (Qle_bool ((7 # 10) * inject_Z max) (inject_Z total)) eqn:H1;
    destruct (Qle_bool ((7 # 10) * inject_Z max) (inject_Z total')) eqn:H2;
    destruct (Qle_bool (inject_Z total) ((3 # 10) * inject_Z max)) eqn:H3;
    destruct (Qle_bool (inject_Z total') ((3 # 10) * inject_Z max)) eqn:H4;
    split; intros H; try reflexivity; try discriminate H;
    repeat match goal with
      | E : Qle_bool _ _ = true |- _ => apply Qle_bool_iff in E
      | E : Qle_bool _ _ = false |- _ => apply Qle_bool_false_iff in E
      end; lra.
Qed.

Lemma classify_monotone_witness :
  (classify 14 20 = bullish -> classify 15 20 = bullish)
  /\ (classify 15 20 = bearish -> classify 14 20 = bearish).
Proof. apply (classify_monotone 14 15 20). lia. Defined.

(** ** Bill Ackman's sub-analyses *)

(** X1.  The business-quality analysis never raises; its score lies
    between 0 and 7; without metrics or without line items it is 0 with the
    one detail that says that data is insufficient. *)
Theorem business_quality_score (fmt : string -> Q -> string)
    (metrics : list Metrics) (items : list LineItem) :
  exists a,
    BillAckman.analyze_business_quality fmt metrics items = Ok a
    /\ 0 <= score a <= 7
    /\ (metrics = [] \/ items = [] ->
        a = {| score := 0;
               details := "Insufficient data to analyze business quality" |}).
Proof.
  destruct (analyze_business_quality_bounds fmt metrics items) as (a & Ha & Hb).
  exists a. split; [exact Ha|]. split; [exact Hb|].
  intros Hempty. unfold BillAckman.analyze_business_quality in Ha.
  destruct Hempty as [-> | ->].
  - cbn in Ha. congruence.
  - rewrite orb_true_r in Ha. congruence.
Qed.

(** X2.  The financial-discipline analysis never raises; its score lies
    between 0 and 4; without metrics or without line items it is 0 with the
    one detail that says that data is insufficient. *)
Theorem financial_discipline_score (metrics : list Metrics) (items : list LineItem) :
  exists a,
    BillAckman.analyze_financial_discipline metrics items = Ok a
    /\ 0 <= score a <= 4
    /\ (metrics = [] \/ items = [] ->
        a = {| score := 0;
               details := "Insufficient data to analyze financial discipline" |}).
Proof.
  destruct (analyze_financial_discipline_bounds metrics items) as (a & Ha & Hb).
  exists a. split; [exact Ha|]. split; [exact Hb|].
  intros Hempty. unfold BillAckman.analyze_financial_discipline in Ha.
  destruct Hempty as [-> | ->].
  - cbn in Ha. congruence.
  - rewrite orb_true_r in Ha. congruence.
Qed.

(** X3.  The activism analysis never raises; its score is 0 or 2; with
    fewer than two revenue figures or no operating margin at all it is 0. *)
Theorem activism_score (fmt : string -> Q -> string) (items : list LineItem) :
  exists a,
    BillAckman.analyze_activism_potential fmt items = Ok a
    /\ (score a = 0 \/ score a = 2)
    /\ (len (omap revenue items) < 2 \/ omap operating_margin items = [] ->
        score a = 0).
Proof.
  unfold BillAckman.analyze_activism_potential.
  destruct (is_empty items); [eexists; split; [reflexivity|]; cbn; auto|].
  cbv zeta.
  set (revenues := omap revenue items).
  set (op_margins := omap operating_margin items).
  destruct ((len revenues <? 2) || is_empty op_margins) eqn:Hc;
    [eexists; split; [reflexivity|]; cbn; auto|].
  apply orb_false_iff in Hc as [Hlen Hm]. apply Z.ltb_ge in Hlen.
  destruct (last_ok revenues ltac:(lia)) as [i Hi]. rewrite Hi.
  destruct (first_ok revenues ltac:(lia)) as [f Hf]. rewrite Hf.
  cbn [mbind result_bind].
  assert (Hg : exists g, (if nonzero i then div (f - i)%Q (Qabs i) else Ok 0%Q) = Ok g).
  { destruct (nonzero i) eqn:Hnz; [|eauto].
    apply nonzero_iff in Hnz. rewrite (div_ok _ _ (Qabs_nonzero _ Hnz)). eauto. }
  destruct Hg as [g ->]. cbn [mbind result_bind].
  rewrite (div_ok _ _ (inject_Z_nonzero _ (is_empty_false_len _ Hm))).
  cbn [mbind result_bind].
  match goal with
  | |- context [if ?c then _ else _] => destruct c
  end; (eexists; split; [reflexivity|]); cbn [score award note fst snd];
    (split; [auto|]); intros [Hlt | Hnil].
  - lia.
  - rewrite Hnil in Hm. discriminate Hm.
  - reflexivity.
  - reflexivity.
Qed.

(** X4.  Whenever the valuation returns, its score follows the bands of
    the margin of safety: 3 above 0.3, 1 above 0.1 and up to 0.3, 0 up to
    0.1; and it is 0 when no margin of safety is reported. *)
Theorem valuation_score_bands (fmt : string -> Q -> string)
    (items : list LineItem) (market_cap : option Q) (v : BillAckman.Valuation) :
  BillAckman.analyze_valuation fmt items market_cap = Ok v ->
  match BillAckman.margin_of_safety v with
  | Some mos =>
      (BillAckman.v_score v = 3 <-> (3 # 10 < mos)%Q)
      /\ (BillAckman.v_score v = 1 <-> (1 # 10 < mos)%Q /\ (mos <= 3 # 10)%Q)
      /\ (BillAckman.v_score v = 0 <-> (mos <= 1 # 10)%Q)
  | None => BillAckman.v_score v = 0
  end.
Proof.
  destruct items as [|latest rest].
  { rewrite analyze_valuation_insufficient by auto. intros [= <-]. reflexivity. }
  destruct market_cap as [c|].
  2:{ rewrite analyze_valuation_insufficient by auto. intros [= <-]. reflexivity. }
  destruct (Qlt_le_dec 0 (or_zero (free_cash_flow latest))) as [Hpos | Hneg].
  2:{ rewrite (analyze_valuation_no_fcf _ _ _ _ Hneg). intros [= <-]. reflexivity. }
  unfold BillAckman.analyze_valuation. cbv zeta.
  apply Qle_bool_false_iff in Hpos. rewrite Hpos.
  destruct (dcf_loop (or_zero (free_cash_flow latest))) as (pv & Hloop & _).
  rewrite Hloop. cbn [mbind result_bind].
  rewrite div_ok by (intros H; vm_compute in H; discriminate).
  cbn [mbind result_bind].
  destruct (div _ c) as [mos|e]; cbn [mbind result_bind]; [|discriminate].
  intros [= <-]. cbn [BillAckman.margin_of_safety BillAckman.v_score].
  destruct (Qlt_bool (3 # 10) mos) eqn:H3.
  - apply Qlt_bool_iff in H3.
    repeat split; intros; try lia; try lra; try assumption.
  - apply Qlt_bool_false_iff in H3.
    destruct (Qlt_bool (1 # 10) mos) eqn:H1.
    + apply Qlt_bool_iff in H1.
      repeat split; intros; try lia; try lra; try assumption.
    + apply Qlt_bool_false_iff in H1.
      repeat split; intros; try lia; try lra; try assumption.
Qed.

Lemma valuation_score_bands_witness :
  exists v,
    BillAckman.analyze_valuation Sample.fmt [Sample.line_item 100] (Some 1000%Q) = Ok v
    /\ match BillAckman.margin_of_safety v with
       | Some mos =>
           (BillAckman.v_score v = 3 <-> (3 # 10 < mos)%Q)
           /\ (BillAckman.v_score v = 1 <-> (1 # 10 < mos)%Q /\ (mos <= 3 # 10)%Q)
           /\ (BillAckman.v_score v = 0 <-> (mos <= 1 # 10)%Q)
       | None => BillAckman.v_score v = 0
       end.
Proof.
  eexists. split; [vm_compute; reflexivity|].
  apply (valuation_score_bands Sample.fmt [Sample.line_item 100] (Some 1000%Q)).
  vm_compute. reflexivity.
Defined.

(** X5.  The valuation raises in one case only: there are line items, the
    market capitalisation is present and zero, and the latest free cash flow
    is positive; the exception is then [ZeroDivisionError]. *)
Theorem valuation_failure (fmt : string -> Q -> string)
    (items : list LineItem) (market_cap : option Q) (e : exn) :
  BillAckman.analyze_valuation fmt items market_cap = Raise e
  <-> e = ZeroDivisionError
      /\ exists latest rest c,
           items = latest :: rest /\ market_cap = Some c /\ (c == 0)%Q
           /\ (0 < or_zero (free_cash_flow latest))%Q.
Proof.
  split.
  - destruct items as [|latest rest].
    { rewrite analyze_valuation_insufficient by auto. discriminate. }
    destruct market_cap as [c|].
    2:{ rewrite analyze_valuation_insufficient by auto. discriminate. }
    destruct (Qlt_le_dec 0 (or_zero (free_cash_flow latest))) as [Hpos | Hneg].
    2:{ rewrite (analyze_valuation_no_fcf _ _ _ _ Hneg). discriminate. }
    destruct (Qeq_dec c 0) as [Hc | Hc].
    + rewrite (analyze_valuation_zero_market_cap _ _ _ _ Hpos Hc).
      intros [= <-]. split; [reflexivity|]. eauto 10.
    + destruct (analyze_valuation_dcf fmt latest rest c Hpos Hc)
        as (v & iv & mos & -> & _). discriminate.
  - intros (-> & latest & rest & c & -> & -> & Hc & Hpos).
    apply analyze_valuation_zero_market_cap; assumption.
Qed.

(** ** Bill Ackman's record *)

(** X6.  When Ackman's plugin returns, it returns one record, under the
    ticker: the sub-analyses of the provider's data, their scores added up
    as the total, a maximum of 20.  The total lies between 0 and 16, so that
    the signal is bullish exactly from 14 points on and bearish exactly up
    to 6 points. *)
Theorem ackman_record_contents (fmt : string -> Q -> string)
    (get_financial_metrics : string -> string -> option string -> option Z -> list Metrics)
    (search_line_items :
       string -> list string -> string -> option string -> option Z -> list LineItem)
    (get_market_cap : string -> string -> option Q)
    (ticker end_date : string) (records : gmap string BillAckman.SignalRecord) :
  BillAckman.get_analysis_data fmt get_financial_metrics search_line_items
    get_market_cap ticker end_date = Ok records ->
  let metrics := get_financial_metrics ticker end_date (Some "annual") (Some 5) in
  let items :=
    search_line_items ticker BillAckman.line_item_fields end_date (Some "annual")
      (Some 5) in
  exists r,
    records = <[ ticker := r ]> ∅
    /\ BillAckman.analyze_business_quality fmt metrics items
       = Ok (BillAckman.quality_analysis r)
    /\ BillAckman.analyze_financial_discipline metrics items
       = Ok (BillAckman.balance_sheet_analysis r)
    /\ BillAckman.analyze_activism_potential fmt items
       = Ok (BillAckman.activism_analysis r)
    /\ BillAckman.analyze_valuation fmt items (get_market_cap ticker end_date)
       = Ok (BillAckman.valuation_analysis r)
    /\ BillAckman.total_score r
       = score (BillAckman.quality_analysis r)
         + score (BillAckman.balance_sheet_analysis r)
         + score (BillAckman.activism_analysis r)
         + BillAckman.v_score (BillAckman.valuation_analysis r)
    /\ BillAckman.max_score r = 20
    /\ 0 <= BillAckman.total_score r <= 16
    /\ (BillAckman.signal r = bullish <-> 14 <= BillAckman.total_score r)
    /\ (BillAckman.signal r = bearish <-> BillAckman.total_score r <= 6).
Proof.
  unfold BillAckman.get_analysis_data. cbv zeta.
  destruct (analyze_business_quality_bounds fmt
              (get_financial_metrics ticker end_date (Some "annual") (Some 5))
              (search_line_items ticker BillAckman.line_item_fields end_date
                 (Some "annual") (Some 5)))
    as (q & -> & Hq).
  destruct (analyze_financial_discipline_bounds
              (get_financial_metrics ticker end_date (Some "annual") (Some 5))
              (search_line_items ticker BillAckman.line_item_fields end_date
                 (Some "annual") (Some 5)))
    as (b & -> & Hb).
  destruct (analyze_activism_potential_bounds fmt
              (search_line_items ticker BillAckman.line_item_fields end_date
                 (Some "annual") (Some 5)))
    as (a & -> & Ha).
  cbn [mbind result_bind].
  destruct (BillAckman.analyze_valuation fmt _ _) as [v|e] eqn:Hv;
    cbn [mbind result_bind]; [|discriminate].
  apply analyze_valuation_bounds in Hv.
  intros [= <-]. eexists. split; [reflexivity|].
  cbn [BillAckman.signal BillAckman.total_score BillAckman.max_score
       BillAckman.quality_analysis BillAckman.balance_sheet_analysis
       BillAckman.activism_analysis BillAckman.valuation_analysis].
  do 4 (split; [reflexivity|]).
  split; [reflexivity|]. split; [reflexivity|]. split; [lia|].
  apply classify_20.
Qed.

Lemma ackman_record_contents_witness :
  exists r,
    BillAckman.get_analysis_data Sample.fmt Sample.one_metrics
      Sample.one_line_item (fun _ _ => Some 1000%Q) "ACME" "2024-01-01"
    = Ok (<[ "ACME" := r ]> ∅)
    /\ BillAckman.max_score r = 20
    /\ 0 <= BillAckman.total_score r <= 16
    /\ (BillAckman.signal r = bearish <-> BillAckman.total_score r <= 6).
Proof.
  destruct (ackman_record_contents Sample.fmt Sample.one_metrics
              Sample.one_line_item (fun _ _ => Some 1000%Q) "ACME" "2024-01-01"
              _ ltac:(vm_compute; reflexivity))
    as (r & Hr & _ & _ & _ & _ & _ & Hmax & Hbound & _ & Hbear).
  exists r. split; [|split; [exact Hmax | split; [exact Hbound | exact Hbear]]].
  rewrite <- Hr. vm_compute. reflexivity.
Defined.

(** X7.  Ackman's plugin raises in one case only, the one in which its
    valuation does: the provider reports line items whose latest free cash
    flow is positive and a market capitalisation of zero.  The exception is
    [ZeroDivisionError]; on every other answer of the provider the plugin
    returns. *)
Theorem ackman_plugin_failure (fmt : string -> Q -> string)
    (get_financial_metrics : string -> string -> option string -> option Z -> list Metrics)
    (search_line_items :
       string -> list string -> string -> option string -> option Z -> list LineItem)
    (get_market_cap : string -> string -> option Q)
    (ticker end_date : string) (e : exn) :
  BillAckman.get_analysis_data fmt get_financial_metrics search_line_items
    get_market_cap ticker end_date = Raise e
  <-> e = ZeroDivisionError
      /\ exists latest rest c,
           search_line_items ticker BillAckman.line_item_fields end_date
             (Some "annual") (Some 5) = latest :: rest
           /\ get_market_cap ticker end_date = Some c
           /\ (c == 0)%Q
           /\ (0 < or_zero (free_cash_flow latest))%Q.
Proof.
  assert (Hrun :
    BillAckman.get_analysis_data fmt get_financial_metrics search_line_items
      get_market_cap ticker end_date = Raise e
    <-> BillAckman.analyze_valuation fmt
          (search_line_items ticker BillAckman.line_item_fields end_date
             (Some "annual") (Some 5))
          (get_market_cap ticker end_date) = Raise e).
  { unfold BillAckman.get_analysis_data. cbv zeta.
    destruct (analyze_business_quality_bounds fmt
                (get_financial_metrics ticker end_date (Some "annual") (Some 5))
                (search_line_items ticker BillAckman.line_item_fields end_date
                   (Some "annual") (Some 5)))
      as (q & -> & _).
    destruct (analyze_financial_discipline_bounds
                (get_financial_metrics ticker end_date (Some "annual") (Some 5))
                (search_line_items ticker BillAckman.line_item_fields end_date
                   (Some "annual") (Some 5)))
      as (b & -> & _).
    destruct (analyze_activism_potential_bounds fmt
                (search_line_items ticker BillAckman.line_item_fields end_date
                   (Some "annual") (Some 5)))
      as (a & -> & _).
    cbn [mbind result_bind].
    destruct (BillAckman.analyze_valuation fmt _ _) as [v|e'];
      cbn [mbind result_bind]; split; intros H; try discriminate H;
      injection H as ->; reflexivity. }
  rewrite Hrun.
  generalize (search_line_items ticker BillAckman.line_item_fields end_date
                (Some "annual") (Some 5)).
  generalize (get_market_cap ticker end_date).
  intros market_cap items.
  split.
  - destruct items as [|latest rest].
    { rewrite analyze_valuation_insufficient by auto. discriminate. }
    destruct market_cap as [c|].
    2:{ rewrite analyze_valuation_insufficient by auto. discriminate. }
    destruct (Qlt_le_dec 0 (or_zero (free_cash_flow latest))) as [Hpos | Hneg].
    2:{ rewrite (analyze_valuation_no_fcf _ _ _ _ Hneg). discriminate. }
    destruct (Qeq_dec c 0) as [Hc | Hc].
    + rewrite (analyze_valuation_zero_market_cap _ _ _ _ Hpos Hc).
      intros [= <-]. split; [reflexivity|]. eauto 10.
    + destruct (analyze_valuation_dcf fmt latest rest c Hpos Hc)
        as (v & iv & mos & -> & _). discriminate.
  - intros (-> & latest & rest & c & -> & -> & Hc & Hpos).
    apply analyze_valuation_zero_market_cap; assumption.
Qed.

(** ** Michael Burry's sub-analyses *)

(** X8.  Burry's value analysis never raises, a market capitalisation of
    zero included; its score lies between 0 and its maximum of 6.  The free
    cash flow yield gives points only when the latest line item reports a
    free cash flow and the market capitalisation is present and not zero:
    otherwise the score is at most 2.  Without metrics it is at most 4. *)
Theorem burry_value_score (fmt : string -> Q -> string)
    (metrics : list Metrics) (line_items : list LineItem) (market_cap : option Q) :
  exists a,
    MichaelBurry._analyze_value fmt metrics line_items market_cap = Ok a
    /\ s_max_score a = 6
    /\ 0 <= s_score a <= 6
    /\ (head line_items ≫= free_cash_flow = None
        \/ market_cap = None
        \/ (exists c, market_cap = Some c /\ (c == 0)%Q) ->
        s_score a <= 2)
    /\ (metrics = [] -> s_score a <= 4).
Proof.
  unfold MichaelBurry._analyze_value, MichaelBurry._latest_line_item. cbv zeta.
  match goal with
  | |- exists a, (?m ≫= ?f) = Ok a /\ _ =>
      cut (exists t : tally, m = Ok t /\ 0 <= t.1 <= 4
             /\ (head line_items ≫= free_cash_flow = None
                 \/ market_cap = None
                 \/ (exists c, market_cap = Some c /\ (c == 0)%Q) -> t.1 = 0));
      [ intros (t & -> & Ht & Hzero); change (Ok t ≫= f) with (f t); cbv beta | ]
  end.
  - eexists; split; [reflexivity|]. cbn [s_score s_max_score].
    split; [reflexivity|].
    split; [|split].
    + split_conditions; unfold award, note; cbn [fst snd]; lia.
    + intros H. specialize (Hzero H).
      split_conditions; unfold award, note; cbn [fst snd]; lia.
    + intros ->. unfold note; cbn [fst snd]. lia.
  - destruct (head line_items ≫= free_cash_flow) as [fcf|].
    2:{ eexists; split; [reflexivity|]. cbn. split; [lia|]. reflexivity. }
    destruct market_cap as [mc|].
    2:{ eexists; split; [reflexivity|]. cbn. split; [lia|]. reflexivity. }
    destruct (nonzero mc) eqn:Hmc.
    2:{ eexists; split; [reflexivity|]. cbn. split; [lia|]. reflexivity. }
    apply nonzero_iff in Hmc. rewrite (div_ok _ _ Hmc).
    cbn [mbind result_bind].
    split_conditions; (eexists; split; [reflexivity|]);
      unfold award, note; cbn [fst snd]; (split; [lia|]);
      (intros [H | [H | (c & [= <-] & H)]]; [discriminate H | discriminate H | contradiction]).
Qed.

(** X9.  Burry's balance-sheet analysis scores between 0 and its maximum
    of 3.  It gives the full 3 points exactly when the latest metrics report
    a debt-to-equity ratio below 0.5 and the latest line item reports cash
    above its total debt; without a debt-to-equity ratio it gives at most 1,
    without line items at most 2. *)
Theorem burry_balance_sheet_score (fmt : string -> Q -> string)
    (metrics : list Metrics) (line_items : list LineItem) :
  let a := MichaelBurry._analyze_balance_sheet fmt metrics line_items in
  s_max_score a = 3
  /\ 0 <= s_score a <= 3
  /\ (s_score a = 3
      <-> (exists d, head metrics ≫= m_debt_to_equity = Some d /\ (d < 5 # 10)%Q)
          /\ (exists item cash debt,
                head line_items = Some item
                /\ cash_and_equivalents item = Some cash
                /\ total_debt item = Some debt
                /\ (debt < cash)%Q))
  /\ (head metrics ≫= m_debt_to_equity = None -> s_score a <= 1)
  /\ (line_items = [] -> s_score a <= 2).
Proof.
  unfold MichaelBurry._analyze_balance_sheet, MichaelBurry._latest_line_item.
  cbv zeta. cbn [s_score s_max_score].
  split; [reflexivity|].
  destruct (head metrics ≫= m_debt_to_equity) as [d|].
  - destruct (Qlt_bool d (5 # 10)) eqn:Hd.
    + apply Qlt_bool_iff in Hd.
      destruct (head line_items) as [item|] eqn:Hitem.
      * destruct (cash_and_equivalents item) as [cash|] eqn:Hcash.
        -- destruct (total_debt item) as [debt|] eqn:Hdebt.
           ++ destruct (Qlt_bool debt cash) eqn:Hnet.
              ** apply Qlt_bool_iff in Hnet.
                 unfold award, note; cbn [fst snd].
                 split; [lia|]. split; [|split; [discriminate|]].
                 --- split; [|reflexivity]. intros _. split; [eauto|].
                     exists item, cash, debt. auto.
                 --- intros ->. discriminate Hitem.
              ** apply Qlt_bool_false_iff in Hnet.
                 unfold award, note; cbn [fst snd].
                 split; [lia|]. split; [|split; [discriminate|]].
                 --- split; [lia|].
                     intros (_ & item' & cash' & debt' & [= <-] & Hc & Ht & Hlt).
                     rewrite Hcash in Hc. rewrite Hdebt in Ht.
                     injection Hc as <-. injection Ht as <-. lra.
                 --- intros ->. discriminate Hitem.
           ++ unfold award, note; cbn [fst snd].
              split; [lia|]. split; [|split; [discriminate|]].
              ** split; [lia|].
                 intros (_ & item' & cash' & debt' & [= <-] & _ & Ht & _).
                 rewrite Hdebt in Ht. discriminate Ht.
              ** intros ->. discriminate Hitem.
        -- unfold award, note; cbn [fst snd].
           split; [lia|]. split; [|split; [discriminate|]].
           ++ split; [lia|].
              intros (_ & item' & cash' & debt' & [= <-] & Hc & _).
              rewrite Hcash in Hc. discriminate Hc.
           ++ intros ->. discriminate Hitem.
      * unfold award; cbn [fst snd].
        split; [lia|]. split; [|split; [discriminate | lia]].
        split; [lia|].
        intros (_ & item' & cash' & debt' & Hi & _). discriminate Hi.
    + apply Qlt_bool_false_iff in Hd.
      assert (Hno : ~ exists d', Some d = Some d' /\ (d' < 5 # 10)%Q).
      { intros (d' & [= <-] & Hlt). lra. }
      split; [|split; [|split; [discriminate|]]].
      * split_conditions; unfold award, note; cbn [fst snd]; lia.
      * split.
        -- split_conditions; unfold award, note; cbn [fst snd]; lia.
        -- intros [H _]. destruct (Hno H).
      * intros ->. cbn [head]. split_conditions; unfold award, note; cbn [fst snd]; lia.
  - split; [|split; [|split]].
    + split_conditions; unfold award, note; cbn [fst snd]; lia.
    + split.
      * split_conditions; unfold award, note; cbn [fst snd]; lia.
      * intros [(d & Hd & _) _]. discriminate Hd.
    + intros _. split_conditions; unfold award, note; cbn [fst snd]; lia.
    + intros ->. cbn [head]. unfold note; cbn [fst snd]. lia.
Qed.

(** Sums of share counts. *)
Lemma sum_from_nonneg (l : list Q) (acc : Q) :
  Forall (fun x => 0 <= x)%Q l -> (acc <= fold_left Qplus l acc)%Q.
Proof.
  revert acc. induction l as [|x l IH]; intros acc Hl; cbn.
  - lra.
  - inversion Hl as [|? ? Hx Hl']; subst.
    specialize (IH (acc + x)%Q Hl'). lra.
Qed.

Lemma sum_positive (l : list Q) :
  Forall (fun x => 0 < x)%Q l -> l <> [] -> (0 < sum l)%Q.
Proof.
  intros Hl Hne. destruct l as [|x l]; [contradiction|].
  inversion Hl as [|? ? Hx Hl']; subst.
  unfold sum. cbn.
  assert (H : (0 + x <= fold_left Qplus l (0 + x))%Q).
  { apply sum_from_nonneg. eapply Forall_impl; [exact Hl'|].
    cbn. intros. lra. }
  lra.
Qed.

Lemma bought_shares_positive (trades : list InsiderTrade) :
  Forall (fun x => 0 < x)%Q
    (map MichaelBurry.shares_or_0
       (List.filter (fun t => Qlt_bool 0 (MichaelBurry.shares_or_0 t)) trades)).
Proof.
  induction trades as [|t trades IH]; cbn; [constructor|].
  destruct (Qlt_bool 0 (MichaelBurry.shares_or_0 t)) eqn:E; [|exact IH].
  cbn. constructor; [|exact IH]. apply Qlt_bool_iff. exact E.
Qed.

Lemma filter_none {A} (p : A -> bool) (l : list A) :
  Forall (fun x => p x = false) l -> List.filter p l = [].
Proof.
  induction 1 as [|x l Hx _ IH]; cbn; [reflexivity|]. now rewrite Hx.
Qed.

(** X10.  Burry's insider analysis never raises; its score lies between 0
    and its maximum of 2.  When no trade bought shares the score is 0; when
    some trade bought shares and none sold any, the score is at least 1. *)
Theorem burry_insider_score (fmt : string -> Q -> string)
    (insider_trades : list InsiderTrade) :
  exists a,
    MichaelBurry._analyze_insider_activity fmt insider_trades = Ok a
    /\ s_max_score a = 2
    /\ 0 <= s_score a <= 2
    /\ (Forall (fun t => (MichaelBurry.shares_or_0 t <= 0)%Q) insider_trades ->
        s_score a = 0)
    /\ (Forall (fun t => (0 <= MichaelBurry.shares_or_0 t)%Q) insider_trades ->
        Exists (fun t => (0 < MichaelBurry.shares_or_0 t)%Q) insider_trades ->
        1 <= s_score a).
Proof.
  unfold MichaelBurry._analyze_insider_activity. cbv zeta.
  destruct (is_empty insider_trades) eqn:Hempty.
  { eexists; split; [reflexivity|]. cbn.
    split; [reflexivity|]. split; [lia|]. split; [reflexivity|].
    intros _ Hex. destruct insider_trades; [|discriminate Hempty].
    inversion Hex. }
  set (bought := sum (map MichaelBurry.shares_or_0
                        (List.filter (fun t => Qlt_bool 0 (MichaelBurry.shares_or_0 t))
                           insider_trades))).
  set (sold := Qabs (sum (map MichaelBurry.shares_or_0
                            (List.filter (fun t => Qlt_bool (MichaelBurry.shares_or_0 t) 0)
                               insider_trades)))).
  assert (Hnone : Forall (fun t => (MichaelBurry.shares_or_0 t <= 0)%Q) insider_trades ->
                  (bought == 0)%Q).
  { intros Hall. subst bought. rewrite filter_none; [reflexivity|].
    eapply Forall_impl; [exact Hall|]. cbn. intros t Ht.
    apply Qlt_bool_false_iff. exact Ht. }
  assert (Hsome : Forall (fun t => (0 <= MichaelBurry.shares_or_0 t)%Q) insider_trades ->
                  Exists (fun t => (0 < MichaelBurry.shares_or_0 t)%Q) insider_trades ->
                  (0 < bought - sold)%Q).
  { intros Hall Hex. subst bought sold.
    rewrite (filter_none (fun t => Qlt_bool (MichaelBurry.shares_or_0 t) 0)).
    2:{ eapply Forall_impl; [exact Hall|]. cbn. intros t Ht.
        apply Qlt_bool_false_iff. exact Ht. }
    cbn [map]. unfold sum at 2. cbn [fold_left].
    assert (Hpos : (0 < sum (map MichaelBurry.shares_or_0
                               (List.filter
                                  (fun t => Qlt_bool 0 (MichaelBurry.shares_or_0 t))
                                  insider_trades)))%Q).
    { apply sum_positive; [apply bought_shares_positive|].
      apply Exists_exists in Hex as (t & Hin & Ht).
      intros Hnil. apply map_eq_nil in Hnil.
      assert (Hf : In t (List.filter
                           (fun t => Qlt_bool 0 (MichaelBurry.shares_or_0 t))
                           insider_trades)).
      { apply filter_In. split; [apply list_elem_of_In; exact Hin|].
        apply Qlt_bool_iff. exact Ht. }
      rewrite Hnil in Hf. destruct Hf. }
    change (Qabs 0) with 0%Q. lra. }
  assert (Hsold : (0 <= sold)%Q) by apply Qabs_nonneg.
  destruct (Qlt_bool 0 (bought - sold)) eqn:Hnet.
  - rewrite (div_ok _ _ (max_one_nonzero _)). cbn [mbind result_bind].
    eexists; split; [reflexivity|]. cbn [s_score s_max_score].
    split; [reflexivity|].
    apply Qlt_bool_iff in Hnet.
    split; [|split].
    + split_conditions; unfold award; cbn [fst snd]; lia.
    + intros Hall. specialize (Hnone Hall). lra.
    + intros _ _. split_conditions; unfold award; cbn [fst snd]; lia.
  - eexists; split; [reflexivity|]. cbn.
    split; [reflexivity|]. split; [lia|]. split; [reflexivity|].
    intros Hall Hex. apply Qlt_bool_false_iff in Hnet.
    specialize (Hsome Hall Hex). lra.
Qed.

(** X11.  Burry's contrarian analysis scores 1 exactly when at least five
    headlines carry a negative sentiment and 0 otherwise, so that fewer
    than five headlines always score 0.  A headline is negative exactly when
    its sentiment, in lower case, is [negative] or [bearish]. *)
Theorem burry_contrarian_score (fmt : string -> Q -> string) (news : list News) :
  let a := MichaelBurry._analyze_contrarian_sentiment fmt news in
  s_max_score a = 1
  /\ (s_score a = 1 <-> 5 <= count MichaelBurry.is_negative_sentiment news)
  /\ (s_score a = 0 <-> count MichaelBurry.is_negative_sentiment news < 5)
  /\ (len news < 5 -> s_score a = 0)
  /\ (forall n,
        MichaelBurry.is_negative_sentiment n = true
        <-> exists s, sentiment n = Some s
                      /\ (lower s = "negative" \/ lower s = "bearish")).
Proof.
  assert (Hcount : count MichaelBurry.is_negative_sentiment news <= len news).
  { unfold count, len. apply inj_le. apply filter_length_le. }
  assert (Hneg : forall n,
             MichaelBurry.is_negative_sentiment n = true
             <-> exists s, sentiment n = Some s
                           /\ (lower s = "negative" \/ lower s = "bearish")).
  { intros n. unfold MichaelBurry.is_negative_sentiment, str_in.
    destruct (sentiment n) as [s|].
    + cbn [existsb]. rewrite orb_false_r. split.
      * intros H. apply andb_true_iff in H as [_ H].
        apply orb_true_iff in H as [H | H]; apply String.eqb_eq in H; eauto.
      * intros (s' & [= <-] & H). apply andb_true_iff. split.
        -- apply negb_true_iff. apply String.eqb_neq. intros ->.
           destruct H as [H | H]; discriminate H.
        -- apply orb_true_iff.
           destruct H as [H | H]; [left | right]; apply String.eqb_eq; exact H.
    + split; [discriminate|]. intros (s & Hs & _). discriminate Hs. }
  unfold MichaelBurry._analyze_contrarian_sentiment. cbv zeta.
  destruct news as [|n news'].
  - cbn [is_empty s_score s_max_score note fst].
    change (count MichaelBurry.is_negative_sentiment []) with 0.
    split; [reflexivity|]. split; [|split; [|split; [|exact Hneg]]].
    + split; intros; lia.
    + split; intros; [lia | reflexivity].
    + reflexivity.
  - cbn [is_empty].
    destruct (5 <=? count MichaelBurry.is_negative_sentiment (n :: news')) eqn:E.
    + apply Z.leb_le in E. cbn [s_score s_max_score award fst].
      split; [reflexivity|]. split; [|split; [|split; [|exact Hneg]]].
      * split; intros; [exact E | reflexivity].
      * split; intros; lia.
      * intros; lia.
    + apply Z.leb_gt in E. cbn [s_score s_max_score note fst].
      split; [reflexivity|]. split; [|split; [|split; [|exact Hneg]]].
      * split; intros; lia.
      * split; intros; [exact E | reflexivity].
      * reflexivity.
Qed.

(** ** Michael Burry's record *)

(** Burry's plugin raises exactly when the computation of the start date
    does, with that exception. *)
Lemma burry_plugin_failure (fmt : string -> Q -> string)
    (get_financial_metrics : string -> string -> option string -> option Z -> list Metrics)
    (search_line_items :
       string -> list string -> string -> option string -> option Z -> list LineItem)
    (get_market_cap : string -> string -> option Q)
    (get_insider_trades : string -> string -> string -> list InsiderTrade)
    (get_company_news : string -> string -> string -> Z -> list News)
    (one_year_before : string -> result string)
    (ticker end_date : string) (e : exn) :
  MichaelBurry.get_analysis_data fmt get_financial_metrics search_line_items
    get_market_cap get_insider_trades get_company_news one_year_before
    ticker end_date = Raise e
  <-> one_year_before end_date = Raise e.
Proof.
  destruct (one_year_before end_date) as [start_date|e'] eqn:Hd.
  - destruct (burry_returns fmt get_financial_metrics search_line_items
                get_market_cap get_insider_trades get_company_news
                one_year_before ticker end_date start_date Hd) as [records ->].
    split; discriminate.
  - unfold MichaelBurry.get_analysis_data. rewrite Hd. cbn [mbind result_bind].
    split; intros [= <-]; reflexivity.
Qed.

(** The record Burry's plugin returns. *)
Lemma burry_record_fields (fmt : string -> Q -> string)
    (get_financial_metrics : string -> string -> option string -> option Z -> list Metrics)
    (search_line_items :
       string -> list string -> string -> option string -> option Z -> list LineItem)
    (get_market_cap : string -> string -> option Q)
    (get_insider_trades : string -> string -> string -> list InsiderTrade)
    (get_company_news : string -> string -> string -> Z -> list News)
    (one_year_before : string -> result string)
    (ticker end_date : string) (records : gmap string MichaelBurry.SignalRecord) :
  MichaelBurry.get_analysis_data fmt get_financial_metrics search_line_items
    get_market_cap get_insider_trades get_company_news one_year_before
    ticker end_date = Ok records ->
  exists r,
    records = <[ ticker := r ]> ∅
    /\ MichaelBurry.total_score r
       = s_score (MichaelBurry.value_analysis r)
         + s_score (MichaelBurry.balance_sheet_analysis r)
         + s_score (MichaelBurry.insider_analysis r)
         + s_score (MichaelBurry.contrarian_analysis r)
    /\ MichaelBurry.max_score r = 12
    /\ 0 <= MichaelBurry.total_score r <= 12
    /\ (MichaelBurry.signal r = bullish <-> 9 <= MichaelBurry.total_score r)
    /\ (MichaelBurry.signal r = bearish <-> MichaelBurry.total_score r <= 3)
    /\ MichaelBurry.market_cap r = get_market_cap ticker end_date.
Proof.
  unfold MichaelBurry.get_analysis_data.
  destruct (one_year_before end_date) as [start_date|e];
    cbn [mbind result_bind]; [|discriminate].
  cbv zeta.
  destruct (_analyze_value_bounds fmt
              (get_financial_metrics ticker end_date (Some "ttm") (Some 5))
              (search_line_items ticker MichaelBurry.line_item_fields end_date None None)
              (get_market_cap ticker end_date)) as (v & -> & Hv & Hvm).
  destruct (_analyze_insider_activity_bounds fmt
              (get_insider_trades ticker end_date start_date))
    as (i & -> & Hi & Him).
  cbn [mbind result_bind].
  pose proof (_analyze_balance_sheet_bounds fmt
                (get_financial_metrics ticker end_date (Some "ttm") (Some 5))
                (search_line_items ticker MichaelBurry.line_item_fields end_date
                   None None))
    as [Hb Hbm].
  pose proof (_analyze_contrarian_sentiment_bounds fmt
                (get_company_news ticker end_date start_date 250)) as [Hc Hcm].
  cbv zeta in Hb, Hbm, Hc, Hcm.
  generalize dependent (MichaelBurry._analyze_balance_sheet fmt
                          (get_financial_metrics ticker end_date (Some "ttm") (Some 5))
                          (search_line_items ticker MichaelBurry.line_item_fields
                             end_date None None)).
  generalize dependent (MichaelBurry._analyze_contrarian_sentiment fmt
                          (get_company_news ticker end_date start_date 250)).
  intros c Hc Hcm b Hb Hbm.
  intros [= <-]. eexists. split; [reflexivity|].
  cbn [MichaelBurry.signal MichaelBurry.total_score MichaelBurry.max_score
       MichaelBurry.value_analysis MichaelBurry.balance_sheet_analysis
       MichaelBurry.insider_analysis MichaelBurry.contrarian_analysis
       MichaelBurry.market_cap].
  split; [reflexivity|].
  rewrite Hvm, Hbm, Him, Hcm. change (6 + 3 + 2 + 1) with 12.
  split; [reflexivity|]. split; [lia|].
  split; [apply classify_12|]. split; [apply classify_12 | reflexivity].
Qed.

(** X12.  Burry's plugin raises exactly when the end date is not a date
    (the computation of the start date raises), with that exception: none of
    its sub-analyses raises.  Otherwise it returns one record, under the
    ticker: the total is the sum of the four sub-scores, the maximum is 12,
    the total lies between 0 and 12, the signal is bullish exactly from 9
    points on and bearish exactly up to 3 points, and the market
    capitalisation is the provider's. *)
Theorem burry_plugin_outcome (fmt : string -> Q -> string)
    (get_financial_metrics : string -> string -> option string -> option Z -> list Metrics)
    (search_line_items :
       string -> list string -> string -> option string -> option Z -> list LineItem)
    (get_market_cap : string -> string -> option Q)
    (get_insider_trades : string -> string -> string -> list InsiderTrade)
    (get_company_news : string -> string -> string -> Z -> list News)
    (one_year_before : string -> result string)
    (ticker end_date : string) :
  match MichaelBurry.get_analysis_data fmt get_financial_metrics search_line_items
          get_market_cap get_insider_trades get_company_news one_year_before
          ticker end_date
  with
  | Ok records =>
      is_ok (one_year_before end_date) = true
      /\ exists r,
           records = <[ ticker := r ]> ∅
           /\ MichaelBurry.total_score r
              = s_score (MichaelBurry.value_analysis r)
                + s_score (MichaelBurry.balance_sheet_analysis r)
                + s_score (MichaelBurry.insider_analysis r)
                + s_score (MichaelBurry.contrarian_analysis r)
           /\ MichaelBurry.max_score r = 12
           /\ 0 <= MichaelBurry.total_score r <= 12
           /\ (MichaelBurry.signal r = bullish <-> 9 <= MichaelBurry.total_score r)
           /\ (MichaelBurry.signal r = bearish <-> MichaelBurry.total_score r <= 3)
           /\ MichaelBurry.market_cap r = get_market_cap ticker end_date
  | Raise e => one_year_before end_date = Raise e
  end.
Proof.
  destruct (MichaelBurry.get_analysis_data fmt get_financial_metrics
              search_line_items get_market_cap get_insider_trades get_company_news
              one_year_before ticker end_date) as [records|e] eqn:Hrun.
  - split.
    + destruct (one_year_before end_date) as [start_date|e] eqn:Hd; [reflexivity|].
      apply (burry_plugin_failure fmt get_financial_metrics search_line_items
               get_market_cap get_insider_trades get_company_news one_year_before
               ticker end_date e) in Hd.
      rewrite Hrun in Hd. discriminate Hd.
    + apply burry_record_fields in Hrun. exact Hrun.
  - apply burry_plugin_failure in Hrun. exact Hrun.
Qed.

(** ** The risk plugin as a whole *)

(** X15.  The risk plugin does not use the ticker it is called with, and it
    is idempotent: called again, with any ticker, on the store it has left,
    it returns the same analysis and leaves the same store. *)
Theorem risk_plugin_idempotent (Price : Type)
    (get_prices : string -> string -> string -> list Price)
    (close_column : list Price -> list Q)
    (ticker ticker' : string) (state : AgentState) :
  let once := RiskManager.get_risk_data Price get_prices close_column ticker
                (Some state) in
  RiskManager.get_risk_data Price get_prices close_column ticker' once.2 = once.
Proof.
  cbv zeta. rewrite get_risk_data_run. cbn [snd]. rewrite get_risk_data_run.
  assert (Hsame :
            RiskManager.risk_analysis_of Price get_prices close_column
              (data (RiskManager.set_risk_signals state
                       (RiskManager.risk_analysis_of Price get_prices close_column
                          (data state))))
            = RiskManager.risk_analysis_of Price get_prices close_column (data state)).
  { reflexivity. }
  rewrite Hsame. f_equal. f_equal.
  unfold RiskManager.set_risk_signals. cbn [data metadata tickers portfolio
    start_date end_date analyst_signals].
  rewrite insert_insert_eq. reflexivity.
Qed.

(** X16.  Every entry of the risk analysis belongs to a ticker of the run.
    It is the missing-price entry exactly when no price was fetched for the
    ticker; otherwise it carries the fetched price, a position value that is
    not negative, and a remaining position limit that exceeds neither the
    cash nor the uncapped remaining limit. *)
Theorem risk_entry_kinds (Price : Type)
    (get_prices : string -> string -> string -> list Price)
    (close_column : list Price -> list Q)
    (d : Data) (t : string) (e : RiskEntry) :
  RiskManager.risk_analysis_of Price get_prices close_column d !! t = Some e ->
  t ∈ tickers d
  /\ match RiskManager.fetch_price Price get_prices close_column d t with
     | None =>
         e = {| remaining_position_limit := 0; current_price := 0;
                reasoning := ReasonError "Missing price data for risk calculation" |}
     | Some p =>
         current_price e = p
         /\ exists pv cur lim rem av,
              reasoning e = ReasonLimits pv cur lim rem av
              /\ (0 <= cur)%Q
              /\ av = default 0%Q (cash (portfolio d))
              /\ (remaining_position_limit e <= av)%Q
              /\ (remaining_position_limit e <= rem)%Q
              /\ (remaining_position_limit e = av \/ remaining_position_limit e = rem)
     end.
Proof.
  intros He.
  assert (Hin : t ∈ tickers d).
  { apply (risk_analysis_dom Price get_prices close_column). eauto. }
  split; [exact Hin|].
  rewrite (risk_analysis_lookup Price get_prices close_column d t Hin) in He.
  injection He as <-. unfold RiskManager.risk_entry.
  rewrite (fetch_prices_ticker Price get_prices close_column d t Hin).
  destruct (RiskManager.fetch_price Price get_prices close_column d t) as [p|];
    [|reflexivity].
  cbv zeta. cbn [current_price reasoning remaining_position_limit].
  split; [reflexivity|].
  eexists _, _, _, _, _. split; [reflexivity|].
  split; [apply Qabs_nonneg|]. split; [reflexivity|].
  unfold min.
  match goal with
  | |- context [Qlt_bool ?a ?b] => destruct (Qlt_bool a b) eqn:E
  end.
  - apply Qlt_bool_iff in E. split; [lra|]. split; [lra|]. left. reflexivity.
  - apply Qlt_bool_false_iff in E. split; [lra|]. split; [lra|]. right. reflexivity.
Qed.

Lemma risk_entry_kinds_witness :
  let d := Sample.data_of ["ACME"; "ZZZ"]
             (Sample.portfolio_of 100 [("ZZZ", Sample.position 5 0)]) in
  let e := {| remaining_position_limit := 0; current_price := 0;
              reasoning := ReasonError "Missing price data for risk calculation" |} in
  "ZZZ" ∈ tickers d
  /\ match RiskManager.fetch_price Q (Sample.prices_of 3) Sample.close_column d "ZZZ"
     with
     | None =>
         e = {| remaining_position_limit := 0; current_price := 0;
                reasoning := ReasonError "Missing price data for risk calculation" |}
     | Some p =>
         current_price e = p
         /\ exists pv cur lim rem av,
              reasoning e = ReasonLimits pv cur lim rem av
              /\ (0 <= cur)%Q
              /\ av = default 0%Q (cash (portfolio d))
              /\ (remaining_position_limit e <= av)%Q
              /\ (remaining_position_limit e <= rem)%Q
              /\ (remaining_position_limit e = av \/ remaining_position_limit e = rem)
     end.
Proof.
  cbv zeta.
  apply (risk_entry_kinds Q (Sample.prices_of 3) Sample.close_column
           (Sample.data_of ["ACME"; "ZZZ"]
              (Sample.portfolio_of 100 [("ZZZ", Sample.position 5 0)])) "ZZZ").
  vm_compute. reflexivity.
Defined.

(** ** The portfolio the script starts from *)

Lemma str_in_elem_of (x : string) (l : list string) : str_in x l = true <-> x ∈ l.
Proof.
  unfold str_in. rewrite existsb_exists. split.
  - intros (y & Hy & Heq). apply String.eqb_eq in Heq. subst y.
    apply list_elem_of_In. exact Hy.
  - intros Hx. exists x. split; [apply list_elem_of_In; exact Hx|].
    apply String.eqb_refl.
Qed.

Lemma dict_keys_elem_of (seen l : list string) (x : string) :
  x ∈ Main.dict_keys seen l <-> x ∈ l /\ x ∉ seen.
Proof.
  revert seen. induction l as [|y l IH]; intros seen; cbn [Main.dict_keys].
  - split; [intros H; inversion H | intros [H _]; inversion H].
  - destruct (str_in y seen) eqn:Hy.
    + apply str_in_elem_of in Hy. rewrite IH, elem_of_cons. split.
      * intros [? ?]. auto.
      * intros [[-> | ?] ?]; [contradiction | auto].
    + assert (Hy' : y ∉ seen).
      { intros Hin. apply str_in_elem_of in Hin. congruence. }
      rewrite elem_of_cons, IH, not_elem_of_cons, elem_of_cons.
      destruct (decide (x = y)) as [-> | Hne]; [tauto|]. tauto.
Qed.

Lemma dict_keys_NoDup (seen l : list string) : NoDup (Main.dict_keys seen l).
Proof.
  revert seen. induction l as [|y l IH]; intros seen; cbn [Main.dict_keys].
  - constructor.
  - destruct (str_in y seen); [apply IH|].
    constructor; [|apply IH].
    rewrite dict_keys_elem_of. intros [_ H]. apply H. apply list_elem_of_here.
Qed.

(** X17.  The portfolio the script starts from holds the initial cash and
    one position and one realized-gains entry for every distinct ticker and
    for nothing else; every position is empty. *)
Theorem initial_portfolio_positions (args : Main.Args) (tickers : list string) :
  let p := Main.initial_portfolio args tickers in
  cash p = Some (Main.initial_cash args)
  /\ NoDup (RiskManager.position_keys p)
  /\ (forall t, t ∈ RiskManager.position_keys p <-> t ∈ tickers)
  /\ map fst (realized_gains p) = RiskManager.position_keys p
  /\ (forall t pos, (t, pos) ∈ default [] (positions p) -> pos = Main.empty_position)
  /\ (forall t, t ∈ tickers ->
        RiskManager.position_of p t = Some Main.empty_position).
Proof.
  cbv zeta. unfold RiskManager.position_keys, Main.initial_portfolio.
  cbn [cash positions realized_gains from_option id].
  assert (Hfst : forall l : list string,
             map fst (map (fun ticker => (ticker, Main.empty_position)) l) = l).
  { intros l. rewrite map_map. cbn [fst]. apply map_id. }
  split; [reflexivity|]. rewrite Hfst.
  split; [apply dict_keys_NoDup|].
  split.
  { intros t. rewrite dict_keys_elem_of. split; [intros [? _]; assumption|].
    intros H. split; [exact H | apply not_elem_of_nil]. }
  split.
  { rewrite map_map. cbn [fst]. apply map_id. }
  split.
  { intros t pos Hin. apply list_elem_of_In, in_map_iff in Hin as (k & [= _ <-] & _).
    reflexivity. }
  intros t Hin. unfold RiskManager.position_of. cbn [positions from_option id].
  assert (Hk : t ∈ Main.dict_keys [] tickers).
  { apply dict_keys_elem_of. split; [exact Hin | apply not_elem_of_nil]. }
  induction (Main.dict_keys [] tickers) as [|k keys IH]; [inversion Hk|].
  cbn [map find fst]. destruct (String.eqb_spec k t) as [-> | Hne].
  - reflexivity.
  - apply IH. apply elem_of_cons in Hk as [-> | Hk]; [contradiction | exact Hk].
Qed.

Lemma initial_portfolio_positions_witness :
  RiskManager.position_of
    (Main.initial_portfolio (Sample.args None None) ["AAPL"; "MSFT"; "AAPL"]) "MSFT"
  = Some Main.empty_position.
Proof.
  apply (initial_portfolio_positions (Sample.args None None) ["AAPL"; "MSFT"; "AAPL"]).
  apply list_elem_of_further, list_elem_of_here.
Defined.

Lemma total_value_of_empty_positions (prices : gmap string Q) (keys : list string)
    (acc : Q) :
  (fold_left
     (fun total_portfolio_value '(ticker, position) =>
        match prices !! ticker with
        | Some price =>
            let total_portfolio_value :=
              (total_portfolio_value + default 0 (long position) * price)%Q in
            (total_portfolio_value - default 0 (short position) * price)%Q
        | None => total_portfolio_value
        end)
     (map (fun ticker => (ticker, Main.empty_position)) keys) acc
   == acc)%Q.
Proof.
  revert acc. induction keys as [|k keys IH]; intros acc; cbn [map fold_left].
  - reflexivity.
  - rewrite IH. destruct (prices !! k); [|reflexivity].
    cbv zeta. cbn [Main.empty_position long short from_option id]. ring.
Qed.

(** X18.  On the portfolio the script starts from, the risk calculator
    values the portfolio at the initial cash whatever the prices are, finds
    no exposure in any ticker, and so sets every priced ticker's limit to
    20% of the initial cash when that cash is not negative. *)
Theorem fresh_portfolio_limit (Price : Type)
    (get_prices : string -> string -> string -> list Price)
    (close_column : list Price -> list Q)
    (args : Main.Args) (d : Data) (t : string) (p : Q) :
  portfolio d = Main.initial_portfolio args (tickers d) ->
  t ∈ tickers d ->
  RiskManager.fetch_price Price get_prices close_column d t = Some p ->
  (0 <= Main.initial_cash args)%Q ->
  exists e pv cur lim rem av,
    RiskManager.risk_analysis_of Price get_prices close_column d !! t = Some e
    /\ reasoning e = ReasonLimits pv cur lim rem av
    /\ (pv == Main.initial_cash args)%Q
    /\ (cur == 0)%Q
    /\ (lim == (20 # 100) * Main.initial_cash args)%Q
    /\ (rem == lim)%Q
    /\ (remaining_position_limit e == (20 # 100) * Main.initial_cash args)%Q.
Proof.
  intros Hp Hin Hprice Hcash.
  rewrite (risk_analysis_lookup Price get_prices close_column d t Hin).
  unfold RiskManager.risk_entry.
  rewrite (fetch_prices_ticker Price get_prices close_column d t Hin), Hprice.
  cbv zeta.
  assert (Hpos : RiskManager.position_of (portfolio d) t = Some Main.empty_position).
  { rewrite Hp. apply initial_portfolio_positions. exact Hin. }
  assert (Htotal :
            (RiskManager.total_value (portfolio d)
               (RiskManager.fetch_prices Price get_prices close_column d)
             == Main.initial_cash args)%Q).
  { unfold RiskManager.total_value. rewrite Hp.
    cbn [Main.initial_portfolio positions cash from_option id].
    apply total_value_of_empty_positions. }
  rewrite Hpos. cbn [mbind option_bind Main.empty_position long short from_option id].
  assert (Hcur : (Qabs (0 * p - 0 * p) == 0)%Q).
  { assert (H0 : (0 * p - 0 * p == 0)%Q) by ring.
    rewrite (Qabs_wd _ _ H0). reflexivity. }
  eexists _, _, _, _, _, _. split; [reflexivity|].
  cbn [reasoning remaining_position_limit].
  split; [reflexivity|]. split; [exact Htotal|]. split; [exact Hcur|].
  split; [lra|]. split; [lra|].
  assert (Hc : default 0%Q (cash (portfolio d)) = Main.initial_cash args).
  { rewrite Hp. reflexivity. }
  rewrite Hc. unfold min.
  match goal with
  | |- context [Qlt_bool ?a ?b] => destruct (Qlt_bool a b) eqn:E
  end.
  - apply Qlt_bool_iff in E. lra.
  - lra.
Qed.

Lemma fresh_portfolio_limit_witness :
  exists e pv cur lim rem av,
    RiskManager.risk_analysis_of Q (fun _ _ _ => [50%Q]) Sample.close_column
      (Sample.data_of ["AAPL"; "MSFT"]
         (Main.initial_portfolio (Sample.args None None) ["AAPL"; "MSFT"]))
      !! "MSFT" = Some e
    /\ reasoning e = ReasonLimits pv cur lim rem av
    /\ (pv == 100000)%Q
    /\ (cur == 0)%Q
    /\ (lim == (20 # 100) * 100000)%Q
    /\ (rem == lim)%Q
    /\ (remaining_position_limit e == (20 # 100) * 100000)%Q.
Proof.
  apply (fresh_portfolio_limit Q (fun _ _ _ => [50%Q]) Sample.close_column
           (Sample.args None None)
           (Sample.data_of ["AAPL"; "MSFT"]
              (Main.initial_portfolio (Sample.args None None) ["AAPL"; "MSFT"]))
           "MSFT" 50%Q).
  - reflexivity.
  - apply list_elem_of_further, list_elem_of_here.
  - reflexivity.
  - vm_compute. discriminate.
Defined.

(** ** The agents built from the configuration *)

(** The kernel has its one service exactly when the provider is one of
    the three the code knows and the variable of its token is set. *)
Lemma create_kernel_cases (environ : string -> option string)
    (model_id model_provider service_id : string) :
  match Agents.create_kernel_with_chat_completion environ model_id model_provider
          service_id with
  | Ok (kernel, settings) =>
      (exists variable api_key,
         token_variable model_provider = Some variable
         /\ environ variable = Some api_key)
      /\ (exists service,
            kernel = [service] /\ Agents.service_id_of service = service_id)
      /\ settings = {| Agents.settings_service_id := service_id;
                       Agents.function_choice_behavior := Some Agents.Auto |}
  | Raise e =>
      match token_variable model_provider with
      | Some variable => e = KeyError /\ environ variable = None
      | None => e = KernelServiceNotFoundError
      end
  end.
Proof.
  unfold Agents.create_kernel_with_chat_completion, token_variable,
    Agents.environ_item, Agents.add_service,
    Agents.get_prompt_execution_settings_from_service_id.
  cbv zeta.
  destruct (String.eqb model_provider "OpenAI");
    [|destruct (String.eqb model_provider "DeepSeek");
      [|destruct (String.eqb model_provider "Gemini")]].
  - destruct (environ "GITHUB_TOKEN") as [api_key|] eqn:Henv;
      cbn [mbind result_bind app find Agents.service_id_of]; [|auto].
    rewrite String.eqb_refl. cbn [mbind result_bind Agents.settings_service_id].
    split; [eauto|]. split; [eexists; split; reflexivity | reflexivity].
  - destruct (environ "DEEPSEEK_API_KEY") as [api_key|] eqn:Henv;
      cbn [mbind result_bind app find Agents.service_id_of]; [|auto].
    rewrite String.eqb_refl. cbn [mbind result_bind Agents.settings_service_id].
    split; [eauto|]. split; [eexists; split; reflexivity | reflexivity].
  - destruct (environ "GOOGLE_API_KEY") as [api_key|] eqn:Henv;
      cbn [mbind result_bind app find Agents.service_id_of]; [|auto].
    rewrite String.eqb_refl. cbn [mbind result_bind Agents.settings_service_id].
    split; [eauto|]. split; [eexists; split; reflexivity | reflexivity].
  - reflexivity.
Qed.

Section Agents.

Variable ANALYST_CONFIG : list (string * Main.AnalystConfig).
Variable kernel : Agents.Kernel.

Lemma analyst_node_cases (key : string) :
  match Main.lookup_key key (Main.get_analyst_nodes ANALYST_CONFIG) with
  | Ok node =>
      exists config,
        (key, config) ∈ ANALYST_CONFIG
        /\ node = (key +:+ "_agent", Main.agent_instructions config,
                   Main.agent_message_template config, Main.agent_plugins config)
  | Raise e => e = KeyError /\ key ∉ map fst ANALYST_CONFIG
  end.
Proof.
  unfold Main.lookup_key, Main.get_analyst_nodes.
  induction ANALYST_CONFIG as [|[k c] rest IH]; cbn [map find fst].
  - split; [reflexivity | apply not_elem_of_nil].
  - destruct (String.eqb_spec k key) as [-> | Hne].
    + exists c. split; [apply list_elem_of_here | reflexivity].
    + destruct (find _ _) as [kv|].
      * destruct IH as (config & Hin & Hnode). exists config.
        split; [apply list_elem_of_further; exact Hin | exact Hnode].
      * destruct IH as [He Hnin]. split; [exact He|].
        apply not_elem_of_cons. split; [congruence | exact Hnin].
Qed.

Lemma make_agent_cases (key : string) :
  match Main.make_agent ANALYST_CONFIG kernel key with
  | Ok a =>
      exists config, (key, config) ∈ ANALYST_CONFIG /\ built_from key config kernel a
  | Raise e => e = KeyError /\ key ∉ map fst ANALYST_CONFIG
  end.
Proof.
  unfold Main.make_agent.
  pose proof (analyst_node_cases key) as H.
  destruct (Main.lookup_key key _) as [[[[node_name instructions] tmpl] plugins]|e];
    cbn [mbind result_bind]; [|exact H].
  destruct H as (config & Hin & [= -> -> -> ->]).
  exists config. split; [exact Hin|]. repeat split.
Qed.

Lemma create_agents_loop_cases (selected : list string)
    (acc : list (Main.Agent * string)) :
  match for_each selected
          (fun analyst_key agents =>
             agent ← Main.make_agent ANALYST_CONFIG kernel analyst_key;
             Ok (agents ++ [agent])) acc
  with
  | Ok agents =>
      exists new,
        agents = acc ++ new
        /\ Forall2 (fun key a => exists config,
                      (key, config) ∈ ANALYST_CONFIG
                      /\ built_from key config kernel a)
             selected new
  | Raise e =>
      e = KeyError /\ Exists (fun key => key ∉ map fst ANALYST_CONFIG) selected
  end.
Proof.
  revert acc. induction selected as [|key selected IH]; intros acc; cbn [for_each].
  - exists []. split; [rewrite app_nil_r; reflexivity | constructor].
  - pose proof (make_agent_cases key) as Hkey.
    destruct (Main.make_agent ANALYST_CONFIG kernel key) as [a|e];
      cbn [mbind result_bind].
    + specialize (IH (acc ++ [a])).
      destruct (for_each selected _ (acc ++ [a])) as [agents|e].
      * destruct IH as (new & -> & Hnew). exists (a :: new).
        split; [rewrite <- app_assoc; reflexivity|].
        constructor; [exact Hkey | exact Hnew].
      * destruct IH as [He Hex]. split; [exact He|].
        apply Exists_cons_tl. exact Hex.
    + destruct Hkey as [He Hnin]. split; [exact He|].
      apply Exists_cons_hd. exact Hnin.
Qed.

(** The chain of a kernel: the loop over the selection, then the
    portfolio manager. *)
Lemma chain_cases (selected : list string) :
  match (agents ← for_each selected
                     (fun analyst_key agents =>
                        agent ← Main.make_agent ANALYST_CONFIG kernel analyst_key;
                        Ok (agents ++ [agent])) [];
         agent ← Main.make_agent ANALYST_CONFIG kernel "portfolio_manager";
         Ok (agents ++ [agent])) with
  | Ok agents =>
      Forall2 (fun key a => exists config,
                 (key, config) ∈ ANALYST_CONFIG /\ built_from key config kernel a)
        (selected ++ ["portfolio_manager"]) agents
  | Raise e =>
      e = KeyError
      /\ Exists (fun key => key ∉ map fst ANALYST_CONFIG)
           (selected ++ ["portfolio_manager"])
  end.
Proof.
  pose proof (create_agents_loop_cases selected []) as Hloop.
  destruct (for_each selected _ []) as [chain|e]; cbn [mbind result_bind].
  - destruct Hloop as (new & -> & Hnew). cbn [app].
    pose proof (make_agent_cases "portfolio_manager") as Hpm.
    destruct (Main.make_agent ANALYST_CONFIG kernel "portfolio_manager") as [a|e];
      cbn [mbind result_bind].
    + apply Forall2_app; [exact Hnew|]. constructor; [exact Hpm | constructor].
    + destruct Hpm as [He Hnin]. split; [exact He|].
      apply Exists_app. right. apply Exists_cons_hd. exact Hnin.
  - destruct Hloop as [He Hex]. split; [exact He|].
    apply Exists_app. left. exact Hex.
Qed.

End Agents.

(** X19.  [create_agents] first creates the kernel.  It raises
    [KernelServiceNotFoundError] when the provider is none of OpenAI,
    DeepSeek and Gemini, and [KeyError] when the variable of the provider's
    token is not set or when a selected key or the key portfolio_manager is
    not a key of the configuration; in every other case it returns.  When
    it returns, the chain holds one agent for every selected key, in the
    order of the selection, and then the portfolio manager; each agent has
    the kernel, the name, the instructions and the message template of its
    entry, and of the plugins its entry names those that are in the plugin
    registry, the others being left out. *)
Theorem create_agents_outcome (ANALYST_CONFIG : list (string * Main.AnalystConfig))
    (environ : string -> option string)
    (selected_analysts : list string) (model_id model_provider : string) :
  match Main.create_agents ANALYST_CONFIG environ selected_analysts model_id
          model_provider with
  | Ok agents =>
      exists kernel settings,
        Agents.create_kernel_with_chat_completion environ model_id model_provider
          "HedgeFundAgent" = Ok (kernel, settings)
        /\ (exists variable api_key,
              token_variable model_provider = Some variable
              /\ environ variable = Some api_key)
        /\ Forall2 (fun key a =>
                      exists config,
                        (key, config) ∈ ANALYST_CONFIG
                        /\ built_from key config kernel a
                        /\ Forall (fun plugin_name =>
                                     plugin_name ∈ Main.plugin_registry)
                             (Main.plugins a.1))
             (selected_analysts ++ ["portfolio_manager"]) agents
  | Raise e =>
      match token_variable model_provider with
      | None => e = KernelServiceNotFoundError
      | Some variable =>
          e = KeyError
          /\ (environ variable = None
              \/ Exists (fun key => key ∉ map fst ANALYST_CONFIG)
                   (selected_analysts ++ ["portfolio_manager"]))
      end
  end.
Proof.
  unfold Main.create_agents.
  pose proof (create_kernel_cases environ model_id model_provider "HedgeFundAgent")
    as Hkernel.
  destruct (Agents.create_kernel_with_chat_completion environ model_id
              model_provider "HedgeFundAgent") as [[kernel settings]|e];
    cbn [mbind result_bind].
  - destruct Hkernel as (Htoken & _ & _).
    pose proof (chain_cases ANALYST_CONFIG kernel selected_analysts) as Hchain.
    match type of Hchain with
    | match ?m with _ => _ end => destruct m as [agents|e]
    end.
    + exists kernel, settings. split; [reflexivity|]. split; [exact Htoken|].
      eapply Forall2_impl; [exact Hchain|].
      intros key b (config & Hin & Hb). exists config.
      split; [exact Hin|]. split; [exact Hb|].
      destruct Hb as (_ & _ & _ & _ & ->).
      apply Forall_forall. intros plugin_name Hp.
      apply list_elem_of_In, filter_In in Hp as [_ Hp].
      apply str_in_elem_of. exact Hp.
    + destruct Htoken as (variable & api_key & -> & _).
      destruct Hchain as [-> Hex]. auto.
  - destruct (token_variable model_provider) as [variable|]; [|exact Hkernel].
    destruct Hkernel as [-> Hnone]. auto.
Qed.

(** ** Outcomes of a run *)

Lemma length_concat_const {A B} (l : list A) (ts : list B) :
  length (concat (map (fun _ => l) ts)) = (length ts * length l)%nat.
Proof.
  induction ts as [|t ts IH]; cbn [map concat length]; [reflexivity|].
  rewrite length_app, IH. lia.
Qed.

Lemma create_agents_raises (ANALYST_CONFIG : list (string * Main.AnalystConfig))
    (environ : string -> option string) (selected : list string)
    (model_id model_provider : string) (e : exn) :
  Main.create_agents ANALYST_CONFIG environ selected model_id model_provider
    = Raise e ->
  match token_variable model_provider with
  | None => e = KernelServiceNotFoundError
  | Some variable => e = KeyError
  end.
Proof.
  unfold Main.create_agents.
  pose proof (create_kernel_cases environ model_id model_provider "HedgeFundAgent")
    as Hkernel.
  destruct (Agents.create_kernel_with_chat_completion environ model_id
              model_provider "HedgeFundAgent") as [[kernel settings]|e'];
    cbn [mbind result_bind].
  - destruct Hkernel as ((variable & api_key & -> & _) & _ & _).
    pose proof (chain_cases ANALYST_CONFIG kernel selected) as Hchain.
    match type of Hchain with
    | match ?m with _ => _ end => destruct m as [agents|e'']
    end; [discriminate|].
    intros [= <-]. apply Hchain.
  - intros [= <-].
    destruct (token_variable model_provider); [apply Hkernel | exact Hkernel].
Qed.

(** X20.  A run first writes the initial state.  Then it raises what
    [create_agents] raises when the chain cannot be built
    ([KernelServiceNotFoundError] for a provider that is none of OpenAI,
    DeepSeek and Gemini, [KeyError] otherwise), and [UnboundLocalError] when
    there is no ticker, in both cases without invoking any agent; otherwise,
    with a backend that answers every invocation, it returns after
    [number of tickers * (number of selected analysts + 1)] invocations. *)
Theorem run_hedge_fund_outcome
    (ANALYST_CONFIG : list (string * Main.AnalystConfig))
    (llm : Main.Agent -> string -> Store -> string * Store)
    (search_json_fence : string -> option string)
    (json_loads : string -> option Json)
    (environ : string -> option string)
    (tickers : list string) (start_date end_date : string) (portfolio : Portfolio)
    (show_reasoning : bool) (selected_analysts : list string)
    (model_name model_provider : string) (w : Main.World) :
  let outcome :=
    Main.run_hedge_fund ANALYST_CONFIG llm search_json_fence json_loads environ
      tickers start_date end_date portfolio show_reasoning selected_analysts
      model_name model_provider w in
  let written :=
    {| Main.store :=
         Some (initial_state tickers start_date end_date portfolio show_reasoning
                 model_name model_provider);
       Main.invocations := Main.invocations w |} in
  match Main.create_agents ANALYST_CONFIG environ selected_analysts model_name
          model_provider, tickers with
  | Raise e, _ =>
      outcome = (Raise e, written)
      /\ match token_variable model_provider with
         | None => e = KernelServiceNotFoundError
         | Some variable => e = KeyError
         end
  | Ok _, [] => outcome = (Raise UnboundLocalError, written)
  | Ok _, _ :: _ =>
      exists r w',
        outcome = (Ok r, w')
        /\ length (Main.invocations w')
           = (length (Main.invocations w)
              + length tickers * (length selected_analysts + 1))%nat
  end.
Proof.
  cbv zeta. rewrite run_hedge_fund_unfold. cbv zeta.
  destruct (Main.create_agents ANALYST_CONFIG environ selected_analysts model_name
              model_provider) as [agents|e] eqn:Hagents.
  2:{ split; [reflexivity|]. eapply create_agents_raises. exact Hagents. }
  destruct tickers as [|t0 ts]; [reflexivity|].
  destruct (exists_last (l := t0 :: ts)) as (ts' & t & Hlast); [discriminate|].
  match goal with
  | |- context [for_each (t0 :: ts) _ None ?w0] =>
      destruct (run_tickers_spec llm search_json_fence json_loads agents end_date
                  (t0 :: ts) None w0)
        as (v' & w' & Hloop & Hnames & _ & Hvars)
  end.
  destruct (Hvars ts' t Hlast) as (v1 & w1 & vars & _ & _ & -> & Hsome).
  rewrite Hloop.
  destruct vars as [[response|] analysis_data].
  2:{ destruct (Hsome (create_agents_nonempty _ _ _ _ _ _ Hagents)) as [? H].
      discriminate H. }
  eexists _, w'. split; [reflexivity|].
  apply (f_equal (@length string)) in Hnames.
  rewrite length_app, !length_map, length_concat_const in Hnames.
  cbn [Main.invocations] in Hnames. rewrite Hnames.
  pose proof (create_agents_names _ _ _ _ _ _ Hagents) as Hn.
  apply (f_equal (@length string)) in Hn.
  unfold agent_names in Hn. rewrite length_app, !length_map in Hn.
  cbn [length] in Hn. unfold agent_names. rewrite length_map, Hn. reflexivity.
Qed.

Section Chain.

Variable llm : Main.Agent -> string -> Store -> string * Store.
Variable search_json_fence : string -> option string.
Variable json_loads : string -> option Json.

(** The keys recorded by a chain are the names of its agents, the
    portfolio manager's apart. *)
Lemma run_chain_keys (agents : list (Main.Agent * string))
    (ticker end_date : string) (vars vars' : Main.chain_vars) (w w' : Main.World) :
  for_each agents (Main.run_agent llm search_json_fence json_loads ticker end_date)
    vars w = (Ok vars', w') ->
  forall key,
    is_Some (vars'.2 !! key)
    <-> is_Some (vars.2 !! key)
        \/ (key ∈ agent_names agents /\ key <> "portfolio_manager_agent").
Proof.
  revert vars w. induction agents as [|[agent template] agents IH];
    intros [previous analysis_data] w.
  - cbn. intros [= <- <-] key. split; [auto|].
    intros [H | [H _]]; [exact H | inversion H].
  - cbn [for_each].
    pose proof (run_agent_run llm search_json_fence json_loads ticker end_date
                  agent template previous analysis_data w) as Hrun.
    cbv zeta in Hrun.
    rewrite (io_bind_ok _ _ _ _ _ Hrun).
    intros Hloop key. rewrite (IH _ _ Hloop key). cbn [snd agent_names map fst].
    rewrite elem_of_cons.
    destruct (String.eqb_spec (Main.name agent) "portfolio_manager_agent")
      as [Hpm | Hpm]; cbn [negb].
    + split.
      * intros [H | [H Hne]]; [auto | right; auto].
      * intros [H | [[-> | H] Hne]]; [auto | congruence | right; auto].
    + destruct (decide (key = Main.name agent)) as [-> | Hne].
      * rewrite lookup_insert_eq. split; intros _; [right; auto | left; eauto].
      * rewrite lookup_insert_ne by congruence. split.
        -- intros [H | [H Hk]]; [auto | right; auto].
        -- intros [H | [[-> | H] Hk]]; [auto | contradiction | right; auto].
Qed.

(** A backend that leaves the store alone leaves it alone along a chain
    and along the loop over the tickers. *)
Lemma run_chain_store (agents : list (Main.Agent * string))
    (ticker end_date : string) (vars : Main.chain_vars) (w : Main.World) :
  (forall agent user_message st, (llm agent user_message st).2 = st) ->
  Main.store
    (for_each agents (Main.run_agent llm search_json_fence json_loads ticker end_date)
       vars w).2
  = Main.store w.
Proof.
  intros Hpure. revert vars w.
  induction agents as [|[agent template] agents IH]; intros [previous analysis_data] w.
  - reflexivity.
  - cbn [for_each].
    pose proof (run_agent_run llm search_json_fence json_loads ticker end_date
                  agent template previous analysis_data w) as Hrun.
    cbv zeta in Hrun.
    rewrite (io_bind_ok _ _ _ _ _ Hrun), IH. cbn [Main.store]. apply Hpure.
Qed.

Lemma run_tickers_store (agents : list (Main.Agent * string)) (end_date : string)
    (tickers : list string) (v : option Main.chain_vars) (w : Main.World) :
  (forall agent user_message st, (llm agent user_message st).2 = st) ->
  Main.store
    (for_each tickers (ticker_turn llm search_json_fence json_loads agents end_date)
       v w).2
  = Main.store w.
Proof.
  intros Hpure. revert v w. induction tickers as [|ticker tickers IH]; intros v w.
  - reflexivity.
  - cbn [for_each].
    destruct (ticker_turn_spec llm search_json_fence json_loads agents end_date
                ticker v w) as (vars1 & w1 & Hturn & Hrun1 & _).
    rewrite (io_bind_ok _ _ _ _ _ Hturn), IH.
    pose proof (run_chain_store agents ticker end_date (None, ∅) w Hpure) as Hst.
    unfold Main.run_ticker in Hrun1. rewrite Hrun1 in Hst. exact Hst.
Qed.

End Chain.

(** X21.  The analyst signals a run returns have one key for every
    selected analyst, the name of its agent, and no other key; the portfolio
    manager's answer is not among them. *)
Theorem analyst_signals_keys
    (ANALYST_CONFIG : list (string * Main.AnalystConfig))
    (llm : Main.Agent -> string -> Store -> string * Store)
    (search_json_fence : string -> option string)
    (json_loads : string -> option Json)
    (environ : string -> option string)
    (tickers : list string) (start_date end_date : string) (portfolio : Portfolio)
    (show_reasoning : bool) (selected_analysts : list string)
    (model_name model_provider : string) (w w' : Main.World) (r : Main.RunResult) :
  Main.run_hedge_fund ANALYST_CONFIG llm search_json_fence json_loads environ
    tickers start_date end_date portfolio show_reasoning selected_analysts
    model_name model_provider w = (Ok r, w') ->
  forall key,
    is_Some (Main.analyst_signals r !! key)
    <-> key ∈ map (fun analyst_key => analyst_key +:+ "_agent") selected_analysts
        /\ key <> "portfolio_manager_agent".
Proof.
  intros Hrun key.
  pose proof (run_hedge_fund_unfold ANALYST_CONFIG llm search_json_fence json_loads
                environ tickers start_date end_date portfolio show_reasoning
                selected_analysts model_name model_provider w) as Hunfold.
  cbv zeta in Hunfold. rewrite Hrun in Hunfold.
  destruct (Main.create_agents ANALYST_CONFIG environ selected_analysts model_name
              model_provider) as [agents|e] eqn:Hagents;
    [|discriminate Hunfold].
  destruct tickers as [|t0 ts]; [discriminate Hunfold|].
  destruct (exists_last (l := t0 :: ts)) as (ts' & t & Hlast); [discriminate|].
  rewrite Hlast in Hunfold.
  destruct (run_hedge_fund_spec ANALYST_CONFIG llm search_json_fence json_loads
              environ ts' t start_date end_date portfolio show_reasoning
              selected_analysts model_name model_provider agents w Hagents)
    as (w1 & response & analysis_data & w2 & Hticker & Hresult & _).
  rewrite <- Hlast in Hresult. rewrite Hrun in Hresult.
  injection Hresult as -> ->.
  unfold Main.run_ticker in Hticker.
  pose proof (run_chain_keys llm search_json_fence json_loads agents t end_date
                _ _ _ _ Hticker key) as Hkeys.
  cbn [snd] in Hkeys. cbn [Main.analyst_signals]. rewrite Hkeys, lookup_empty.
  rewrite (create_agents_names _ _ _ _ _ _ Hagents), elem_of_app,
    list_elem_of_singleton.
  split.
  - intros [[? H] | [[H | ->] Hne]]; [discriminate H | auto | contradiction].
  - intros [H Hne]. right. auto.
Qed.

Lemma analyst_signals_keys_witness :
  exists r w',
    Main.run_hedge_fund Sample.analyst_config Sample.llm Sample.no_json_fence
      Sample.decode_answer Sample.environ ["AAPL"; "MSFT"] "2024-01-01"
      "2024-03-31" (Sample.portfolio_of 100000 []) false ["bill_ackman"]
      "gpt-4o-mini" "OpenAI" Sample.empty_world = (Ok r, w')
    /\ (is_Some (Main.analyst_signals r !! "portfolio_manager_agent")
        <-> "portfolio_manager_agent"
              ∈ map (fun analyst_key => analyst_key +:+ "_agent") ["bill_ackman"]
            /\ "portfolio_manager_agent" <> "portfolio_manager_agent").
Proof.
  eexists _, _. split; [vm_compute; reflexivity|].
  eapply (analyst_signals_keys Sample.analyst_config Sample.llm Sample.no_json_fence
            Sample.decode_answer Sample.environ ["AAPL"; "MSFT"] "2024-01-01"
            "2024-03-31" (Sample.portfolio_of 100000 []) false ["bill_ackman"]
            "gpt-4o-mini" "OpenAI" Sample.empty_world).
  vm_compute. reflexivity.
Defined.

(** X22.  The orchestrator writes the store once, at the start: with a
    backend whose agents leave the store alone, the store after a run,
    whatever its outcome, holds the initial state of that run. *)
Theorem store_written_once
    (ANALYST_CONFIG : list (string * Main.AnalystConfig))
    (llm : Main.Agent -> string -> Store -> string * Store)
    (search_json_fence : string -> option string)
    (json_loads : string -> option Json)
    (environ : string -> option string)
    (tickers : list string) (start_date end_date : string) (portfolio : Portfolio)
    (show_reasoning : bool) (selected_analysts : list string)
    (model_name model_provider : string) (w : Main.World) :
  (forall agent user_message st, (llm agent user_message st).2 = st) ->
  Main.store
    (Main.run_hedge_fund ANALYST_CONFIG llm search_json_fence json_loads environ
       tickers start_date end_date portfolio show_reasoning selected_analysts
       model_name model_provider w).2
  = Some (initial_state tickers start_date end_date portfolio show_reasoning
            model_name model_provider).
Proof.
  intros Hpure. rewrite run_hedge_fund_unfold. cbv zeta.
  destruct (Main.create_agents ANALYST_CONFIG environ selected_analysts model_name
              model_provider) as [agents|e];
    [|reflexivity].
  match goal with
  | |- context [for_each tickers ?body None ?w0] =>
      pose proof (run_tickers_store llm search_json_fence json_loads agents end_date
                    tickers None w0 Hpure) as Hst;
      destruct (for_each tickers body None w0)
        as [[[[[response|] analysis_data]|]|e] w']
  end; exact Hst.
Qed.

Lemma store_written_once_witness :
  Main.store
    (Main.run_hedge_fund Sample.analyst_config Sample.llm Sample.no_json_fence
       Sample.decode_answer Sample.environ ["AAPL"; "MSFT"] "2024-01-01"
       "2024-03-31" (Sample.portfolio_of 100000 []) false ["bill_ackman"]
       "gpt-4o-mini" "OpenAI" Sample.empty_world).2
  = Some (initial_state ["AAPL"; "MSFT"] "2024-01-01" "2024-03-31"
            (Sample.portfolio_of 100000 []) false "gpt-4o-mini" "OpenAI").
Proof.
  apply (store_written_once Sample.analyst_config Sample.llm Sample.no_json_fence
           Sample.decode_answer Sample.environ).
  intros agent user_message st. reflexivity.
Defined.

(** ** The script *)


Section Script.

Variable ANALYST_CONFIG : list (string * Main.AnalystConfig).
Variable llm : Main.Agent -> string -> Store -> string * Store.
Variable search_json_fence : string -> option string.
Variable json_loads : string -> option Json.
Variable environ : string -> option string.
Variable Date : Type.
Variable strptime : string -> option Date.
Variable today : string.
Variable three_months_before : Date -> string.
Variable AVAILABLE_MODELS : list Models.LLMModel.
Variable OLLAMA_MODELS : list Models.LLMModel.
Variable ensure_ollama_and_model : string -> bool.






End Script.




(** ** The models offered for selection *)

Lemma provider_of_cases (text : string) :
  match Models.provider_of text with
  | Ok p => Models.value p = text
  | Raise e => e = ValueError /\ forall p, Models.value p <> text
  end.
Proof.
  unfold Models.provider_of, Models.all_providers. cbn [find Models.value].
  repeat match goal with
    | |- context [String.eqb ?a text] =>
        destruct (String.eqb_spec a text) as [<- | ?]; [reflexivity|]
    end.
  split; [reflexivity|]. intros []; cbn [Models.value]; assumption.
Qed.

Lemma load_models_loop (models_data : list Models.model_data)
    (acc : list Models.LLMModel) :
  match for_each models_data
          (fun '(display, name, provider_text) models =>
             provider_enum ← Models.provider_of provider_text;
             Ok (models ++ [ {| Models.display_name := display;
                                Models.model_name := name;
                                Models.provider := provider_enum |} ]))
          acc
  with
  | Ok models =>
      exists new, models = acc ++ new /\ map Models.to_choice_tuple new = models_data
  | Raise e =>
      e = ValueError
      /\ Exists (fun entry => forall p, Models.value p <> entry.2) models_data
  end.
Proof.
  revert acc. induction models_data as [|[[display name] text] rest IH]; intros acc;
    cbn [for_each].
  - exists []. split; [rewrite app_nil_r; reflexivity | reflexivity].
  - pose proof (provider_of_cases text) as Hp.
    destruct (Models.provider_of text) as [p|e]; cbn [mbind result_bind].
    + match goal with
      | |- context [for_each rest _ ?acc'] => specialize (IH acc')
      end.
      destruct (for_each rest _ _) as [models|e].
      * destruct IH as (new & -> & Hnew). eexists (_ :: new).
        split; [rewrite <- app_assoc; reflexivity|].
        cbn [map]. unfold Models.to_choice_tuple at 1.
        cbn [Models.display_name Models.model_name Models.provider].
        rewrite Hp, Hnew. reflexivity.
      * destruct IH as [He Hex]. split; [exact He|]. apply Exists_cons_tl. exact Hex.
    + destruct Hp as [He Hp]. split; [exact He|]. apply Exists_cons_hd. exact Hp.
Qed.

(** X25.  Loading a models file and listing the loaded models as choice
    tuples gives back the entries of the file, in their order.  Loading
    fails, with [ValueError], exactly when an entry names a provider that is
    not one of the six. *)
Theorem load_models_round_trip (models_data : list Models.model_data) :
  match Models.load_models_from_json models_data with
  | Ok models => map Models.to_choice_tuple models = models_data
  | Raise e =>
      e = ValueError
      /\ Exists (fun entry => forall p, Models.value p <> entry.2) models_data
  end.
Proof.
  unfold Models.load_models_from_json.
  pose proof (load_models_loop models_data []) as H.
  destruct (for_each models_data _ []) as [models|e]; [|exact H].
  destruct H as (new & -> & Hnew). exact Hnew.
Qed.

(** X26.  [get_model_info] returns a model of the two lists with the
    name and the provider asked for, the first one there is, and nothing
    exactly when there is none.  For every choice offered from [LLM_ORDER]
    or [OLLAMA_LLM_ORDER] it returns a model. *)
Theorem get_model_info_found (AVAILABLE_MODELS OLLAMA_MODELS : list Models.LLMModel)
    (name provider_text : string) :
  let all_models := AVAILABLE_MODELS ++ OLLAMA_MODELS in
  let fits (m : Models.LLMModel) :=
    Models.model_name m = name /\ Models.value (Models.provider m) = provider_text in
  match Models.get_model_info AVAILABLE_MODELS OLLAMA_MODELS name provider_text with
  | Some model =>
      exists before after,
        all_models = before ++ model :: after
        /\ fits model
        /\ Forall (fun m => ~ fits m) before
  | None => Forall (fun m => ~ fits m) all_models
  end
  /\ (forall display,
        (display, name, provider_text)
          ∈ Models.LLM_ORDER AVAILABLE_MODELS ++ Models.OLLAMA_LLM_ORDER OLLAMA_MODELS ->
        is_Some (Models.get_model_info AVAILABLE_MODELS OLLAMA_MODELS name
                   provider_text)).
Proof.
  cbv zeta. unfold Models.get_model_info, Models.LLM_ORDER, Models.OLLAMA_LLM_ORDER.
  cbv zeta. rewrite <- map_app.
  generalize (AVAILABLE_MODELS ++ OLLAMA_MODELS). intros all_models.
  assert (Htest : forall m,
             String.eqb (Models.model_name m) name
             && String.eqb (Models.value (Models.provider m)) provider_text = true
             <-> Models.model_name m = name
                 /\ Models.value (Models.provider m) = provider_text).
  { intros m. rewrite andb_true_iff, !String.eqb_eq. reflexivity. }
  split.
  - induction all_models as [|m rest IH]; cbn [find]; [constructor|].
    destruct (String.eqb (Models.model_name m) name
              && String.eqb (Models.value (Models.provider m)) provider_text) eqn:Hm.
    + exists [], rest. split; [reflexivity|]. split; [apply Htest; exact Hm|].
      constructor.
    + assert (Hno : ~ (Models.model_name m = name
                       /\ Models.value (Models.provider m) = provider_text)).
      { intros H. apply Htest in H. congruence. }
      destruct (find _ rest) as [model|].
      * destruct IH as (before & after & -> & Hfits & Hbefore).
        exists (m :: before), after. split; [reflexivity|].
        split; [exact Hfits|]. constructor; assumption.
      * constructor; assumption.
  - intros display Hin.
    apply list_elem_of_In, in_map_iff in Hin as (m & Heq & Hm).
    unfold Models.to_choice_tuple in Heq. injection Heq as _ Hname Hprov.
    destruct (find _ all_models) as [model|] eqn:Hfind; [eauto|].
    exfalso. eapply find_none in Hfind; [|exact Hm].
    cbv beta in Hfind. rewrite (proj2 (Htest m)) in Hfind by auto. discriminate.
Qed.

(** ** The analysts offered for selection *)

Section Sorting.

Context {A : Type} (key : A -> Z).

Lemma insert_sorted_perm (x : A) (l : list A) :
  Permutation (Analysts.insert_sorted key x l) (x :: l).
Proof.
  induction l as [|y l IH]; cbn [Analysts.insert_sorted]; [reflexivity|].
  destruct (key x <? key y); [reflexivity|].
  rewrite IH. apply perm_swap.
Qed.

Lemma insert_sorted_sorted (x : A) (l : list A) :
  StronglySorted (fun a b => key a <= key b) l ->
  StronglySorted (fun a b => key a <= key b) (Analysts.insert_sorted key x l).
Proof.
  induction 1 as [|y l Hl IH Hy]; cbn [Analysts.insert_sorted].
  - constructor; constructor.
  - destruct (key x <? key y) eqn:E.
    + apply Z.ltb_lt in E. constructor; [constructor; assumption|].
      constructor; [lia|].
      eapply Forall_impl; [exact Hy|]. cbv beta. intros; lia.
    + apply Z.ltb_ge in E. constructor; [exact IH|].
      eapply Permutation_Forall; [symmetry; apply insert_sorted_perm|].
      constructor; assumption.
Qed.

Lemma sorted_from (l acc : list A) :
  StronglySorted (fun a b => key a <= key b) acc ->
  StronglySorted (fun a b => key a <= key b)
    (fold_left (fun acc x => Analysts.insert_sorted key x acc) l acc)
  /\ Permutation (fold_left (fun acc x => Analysts.insert_sorted key x acc) l acc)
       (acc ++ l).
Proof.
  revert acc. induction l as [|x l IH]; intros acc Hacc; cbn [fold_left].
  - rewrite app_nil_r. auto.
  - destruct (IH _ (insert_sorted_sorted x acc Hacc)) as [Hs Hp].
    split; [exact Hs|]. rewrite Hp, insert_sorted_perm.
    apply Permutation_middle.
Qed.

Lemma filter_sorted (p : A -> bool) (l : list A) :
  StronglySorted (fun a b => key a <= key b) l ->
  StronglySorted (fun a b => key a <= key b) (List.filter p l).
Proof.
  induction 1 as [|y l Hl IH Hy]; cbn [List.filter]; [constructor|].
  destruct (p y); [|exact IH].
  constructor; [exact IH|].
  apply Forall_forall. intros z Hz.
  apply list_elem_of_In, filter_In in Hz as [Hz _].
  rewrite Forall_forall in Hy. apply Hy, list_elem_of_In. exact Hz.
Qed.

End Sorting.

Lemma filter_perm {A} (p : A -> bool) (l l' : list A) :
  Permutation l l' -> Permutation (List.filter p l) (List.filter p l').
Proof.
  induction 1 as [|x l l' Hp IH|x y l|l l' l'' Hp1 IH1 Hp2 IH2];
    cbn [List.filter].
  - reflexivity.
  - destruct (p x); [constructor; exact IH | exact IH].
  - destruct (p x), (p y); try reflexivity. apply perm_swap.
  - etransitivity; eassumption.
Qed.

(** X27.  The analysts offered for selection are the entries of the
    configuration whose order is at most 10, each once, by ascending order;
    every offer is the display name and the key of its entry. *)
Theorem analyst_order_offers (ANALYST_CONFIG : list (string * Main.AnalystConfig)) :
  let entries := Analysts.offered ANALYST_CONFIG in
  Analysts.ANALYST_ORDER ANALYST_CONFIG
  = map (fun kv => (Main.display_name kv.2, kv.1)) entries
  /\ StronglySorted (fun a b => Main.order a.2 <= Main.order b.2) entries
  /\ Permutation entries
       (List.filter (fun kv => Main.order kv.2 <=? 10) ANALYST_CONFIG)
  /\ (forall kv, kv ∈ entries <-> kv ∈ ANALYST_CONFIG /\ Main.order kv.2 <= 10).
Proof.
  cbv zeta. unfold Analysts.ANALYST_ORDER, Analysts.offered, Analysts.sorted.
  destruct (sorted_from (fun kv : string * Main.AnalystConfig => Main.order kv.2)
              ANALYST_CONFIG [] (SSorted_nil _)) as [Hs Hp].
  cbn [app] in Hp.
  split; [reflexivity|].
  split; [apply filter_sorted; exact Hs|].
  pose proof (filter_perm (fun kv : string * Main.AnalystConfig =>
                             Main.order kv.2 <=? 10) _ _ Hp) as Hperm.
  split; [exact Hperm|].
  intros kv. rewrite (elem_of_Permutation_proper _ _ _ Hperm).
  rewrite !list_elem_of_In, filter_In, Z.leb_le. reflexivity.
Qed.

(** X28.  Whatever is selected among the analysts offered, the chain can
    be built as soon as the kernel can (the provider is one of OpenAI,
    DeepSeek and Gemini and the variable of its token is set) and the
    configuration has an entry for the portfolio manager: [create_agents]
    does not raise. *)
Theorem offered_selection_builds
    (ANALYST_CONFIG : list (string * Main.AnalystConfig))
    (environ : string -> option string)
    (selected_analysts : list string) (model_id model_provider : string)
    (variable api_key : string) :
  Forall (fun key => key ∈ map snd (Analysts.ANALYST_ORDER ANALYST_CONFIG))
    selected_analysts ->
  "portfolio_manager" ∈ map fst ANALYST_CONFIG ->
  token_variable model_provider = Some variable ->
  environ variable = Some api_key ->
  exists agents,
    Main.create_agents ANALYST_CONFIG environ selected_analysts model_id
      model_provider = Ok agents
    /\ length agents = S (length selected_analysts).
Proof.
  intros Hsel Hpm Htoken Henv.
  assert (Hkeys : Forall (fun key => key ∈ map fst ANALYST_CONFIG)
                    (selected_analysts ++ ["portfolio_manager"])).
  { apply Forall_app. split; [|constructor; [exact Hpm | constructor]].
    eapply Forall_impl; [exact Hsel|]. cbv beta. intros key Hkey.
    unfold Analysts.ANALYST_ORDER in Hkey. rewrite map_map in Hkey. cbn [snd] in Hkey.
    apply list_elem_of_In, in_map_iff in Hkey as ([k c] & <- & Hin).
    unfold Analysts.offered in Hin. apply filter_In in Hin as [Hin _].
    destruct (sorted_from (fun kv : string * Main.AnalystConfig => Main.order kv.2)
                ANALYST_CONFIG [] (SSorted_nil _)) as [_ Hp].
    cbn [app] in Hp. unfold Analysts.sorted in Hin.
    apply (Permutation_in _ Hp) in Hin.
    apply list_elem_of_In. apply in_map_iff. exists (k, c). auto. }
  unfold Main.create_agents.
  pose proof (create_kernel_cases environ model_id model_provider "HedgeFundAgent")
    as Hkernel.
  destruct (Agents.create_kernel_with_chat_completion environ model_id
              model_provider "HedgeFundAgent") as [[kernel settings]|e];
    cbn [mbind result_bind].
  - pose proof (chain_cases ANALYST_CONFIG kernel selected_analysts) as Hchain.
    match type of Hchain with
    | match ?m with _ => _ end => destruct m as [agents|e]
    end.
    + exists agents. split; [reflexivity|].
      apply Forall2_length in Hchain. rewrite length_app in Hchain.
      cbn [length] in Hchain. lia.
    + destruct Hchain as [_ Hex]. exfalso.
      apply Exists_exists in Hex as (key & Hin & Hnin).
      rewrite Forall_forall in Hkeys. exact (Hnin (Hkeys key Hin)).
  - exfalso. rewrite Htoken in Hkernel. destruct Hkernel as [_ Hnone].
    congruence.
Qed.

Lemma offered_selection_builds_witness :
  exists agents,
    Main.create_agents Sample.analyst_config Sample.environ ["bill_ackman"]
      "gpt-4o-mini" "OpenAI" = Ok agents
    /\ length agents = 2%nat.
Proof.
  apply (offered_selection_builds Sample.analyst_config Sample.environ
           ["bill_ackman"] "gpt-4o-mini" "OpenAI" "GITHUB_TOKEN" "token").
  - constructor; [|constructor]. vm_compute. apply list_elem_of_here.
  - vm_compute. apply list_elem_of_further, list_elem_of_here.
  - reflexivity.
  - reflexivity.
Defined.

(** ** The listings of the analysts *)

Lemma sorted_map {A B} (f : A -> B) (R : A -> A -> Prop) (R' : B -> B -> Prop)
    (l : list A) :
  (forall a b, R a b -> R' (f a) (f b)) ->
  StronglySorted R l -> StronglySorted R' (map f l).
Proof.
  intros Hf. induction 1 as [|a l Hl IH Ha]; cbn [map]; constructor; [exact IH|].
  apply Forall_forall. intros b Hb.
  apply list_elem_of_In, in_map_iff in Hb as (b' & <- & Hb').
  apply Hf. rewrite Forall_forall in Ha. apply Ha, list_elem_of_In. exact Hb'.
Qed.

Lemma sorted_spec {A} (key : A -> Z) (l : list A) :
  StronglySorted (fun a b => key a <= key b) (Analysts.sorted key l)
  /\ Permutation (Analysts.sorted key l) l.
Proof.
  unfold Analysts.sorted.
  destruct (sorted_from key l [] (SSorted_nil _)) as [Hs Hp]. auto.
Qed.

Section Listings.

Variable ANALYST_CONFIG : list (string * Main.AnalystConfig).
Variable config_description : Main.AnalystConfig -> string.
Variable config_investing_style : Main.AnalystConfig -> string.

Abbreviation grouped kv :=
  {| AnalystLists.g_key := kv.1;
     AnalystLists.g_display_name := Main.display_name kv.2;
     AnalystLists.g_description := config_description kv.2;
     AnalystLists.g_order := Main.order kv.2 |}.

Abbreviation members style l :=
  (map (fun kv : string * Main.AnalystConfig => grouped kv)
     (List.filter (fun kv => String.eqb (config_investing_style kv.2) style) l)).

Abbreviation grouping l groups :=
  (fold_left
     (fun groups '(key, config) =>
        AnalystLists.append_to (config_investing_style config)
          {| AnalystLists.g_key := key;
             AnalystLists.g_display_name := Main.display_name config;
             AnalystLists.g_description := config_description config;
             AnalystLists.g_order := Main.order config |} groups)
     l groups).

Abbreviation group_of style groups :=
  (snd <$> List.find (fun g : string * list AnalystLists.GroupedAgent =>
                        String.eqb g.1 style) groups).

Lemma append_to_keys style agent groups :
  map fst (AnalystLists.append_to style agent groups)
  = if str_in style (map fst groups) then map fst groups
    else map fst groups ++ [style].
Proof.
  unfold str_in.
  induction groups as [|[s agents] groups IH]; cbn [AnalystLists.append_to map fst existsb app].
  - reflexivity.
  - rewrite (String.eqb_sym style s).
    destruct (String.eqb s style); cbn [orb map fst]; [reflexivity|].
    rewrite IH. destruct (existsb _ _); reflexivity.
Qed.

Lemma append_to_group style agent groups style' :
  group_of style' (AnalystLists.append_to style agent groups)
  = if String.eqb style style'
    then Some (default [] (group_of style groups) ++ [agent])
    else group_of style' groups.
Proof.
  induction groups as [|[s agents] groups IH]; cbn [AnalystLists.append_to].
  - cbn [find fst]. destruct (String.eqb style style'); reflexivity.
  - destruct (String.eqb_spec s style) as [-> | Hs].
    + cbn [find fst]. rewrite String.eqb_refl.
      destruct (String.eqb style style'); reflexivity.
    + cbn [find fst]. destruct (String.eqb_spec s style') as [-> | Hs'].
      * destruct (String.eqb_spec style style') as [-> | _]; [contradiction|].
        reflexivity.
      * rewrite IH. destruct (String.eqb_spec s style); [contradiction|].
        reflexivity.
Qed.

Lemma grouping_group l groups style :
  group_of style (grouping l groups)
  = match group_of style groups with
    | Some agents => Some (agents ++ members style l)
    | None => if is_empty (members style l) then None else Some (members style l)
    end.
Proof.
  revert groups. induction l as [|[key config] l IH]; intros groups;
    cbn [fold_left List.filter map].
  - cbn [is_empty]. destruct (group_of style groups); [|reflexivity].
    rewrite app_nil_r. reflexivity.
  - rewrite IH, append_to_group. cbn [snd].
    destruct (String.eqb_spec (config_investing_style config) style) as [<- | Hne].
    + cbn [map is_empty].
      destruct (group_of (config_investing_style config) groups) as [agents|];
        cbn [default from_option id app]; [|reflexivity].
      rewrite <- app_assoc. reflexivity.
    + reflexivity.
Qed.

Lemma grouping_keys l groups :
  NoDup (map fst groups) ->
  NoDup (map fst (grouping l groups))
  /\ forall style,
       style ∈ map fst (grouping l groups)
       <-> style ∈ map fst groups
           \/ exists kv, kv ∈ l /\ config_investing_style kv.2 = style.
Proof.
  revert groups. induction l as [|[key config] l IH]; intros groups Hnd;
    cbn [fold_left].
  - split; [exact Hnd|]. intros style. split; [auto|].
    intros [H | (kv & H & _)]; [exact H | inversion H].
  - match goal with
    | |- context [fold_left _ l ?g] => destruct (IH g) as [Hnd' Hkeys]
    end.
    { rewrite append_to_keys.
      destruct (str_in (config_investing_style config) (map fst groups)) eqn:Hin;
        [exact Hnd|].
      apply NoDup_app. split; [exact Hnd|]. split; [|apply NoDup_singleton].
      intros s Hs Hs'. apply list_elem_of_singleton in Hs'. subst s.
      apply str_in_elem_of in Hs. congruence. }
    split; [exact Hnd'|]. intros style. rewrite Hkeys, append_to_keys.
    destruct (str_in (config_investing_style config) (map fst groups)) eqn:Hin.
    + apply str_in_elem_of in Hin. split.
      * intros [H | (kv & H & Hs)]; [auto|]. right. exists kv.
        split; [apply list_elem_of_further; exact H | exact Hs].
      * intros [H | (kv & H & Hs)]; [auto|].
        apply elem_of_cons in H as [-> | H]; [|right; eauto].
        left. cbn [snd] in Hs. rewrite <- Hs. exact Hin.
    + rewrite elem_of_app, list_elem_of_singleton. split.
      * intros [[H | ->] | (kv & H & Hs)]; [auto | |].
        -- right. exists (key, config). split; [apply list_elem_of_here | reflexivity].
        -- right. exists kv. split; [apply list_elem_of_further; exact H | exact Hs].
      * intros [H | (kv & H & Hs)]; [auto|].
        apply elem_of_cons in H as [-> | H]; [|right; eauto].
        left. right. cbn [snd] in Hs. auto.
Qed.

Lemma sorted_groups_group (groups : list (string * list AnalystLists.GroupedAgent))
    style :
  group_of style
    (map (fun '(style, agents) =>
            (style, Analysts.sorted AnalystLists.g_order agents)) groups)
  = Analysts.sorted AnalystLists.g_order <$> group_of style groups.
Proof.
  induction groups as [|[s agents] groups IH]; cbn [map find fst]; [reflexivity|].
  destruct (String.eqb s style); [reflexivity | exact IH].
Qed.

Lemma sorted_groups_keys (groups : list (string * list AnalystLists.GroupedAgent)) :
  map fst
    (map (fun '(style, agents) =>
            (style, Analysts.sorted AnalystLists.g_order agents)) groups)
  = map fst groups.
Proof.
  rewrite map_map. apply map_ext. intros [s agents]. reflexivity.
Qed.

End Listings.

(** X14.  [get_agents_list] lists every entry of the configuration once,
    by ascending order; and the analysts offered for selection,
    [ANALYST_ORDER], are those of this list whose order is at most 10, in
    the order of the list. *)
Theorem agents_list_sorted (ANALYST_CONFIG : list (string * Main.AnalystConfig))
    (config_description config_investing_style : Main.AnalystConfig -> string) :
  let agents :=
    AnalystLists.get_agents_list ANALYST_CONFIG config_description
      config_investing_style in
  StronglySorted (fun a b => AnalystLists.order a <= AnalystLists.order b) agents
  /\ Permutation agents
       (map (fun kv =>
               {| AnalystLists.key := kv.1;
                  AnalystLists.display_name := Main.display_name kv.2;
                  AnalystLists.description := config_description kv.2;
                  AnalystLists.investing_style := config_investing_style kv.2;
                  AnalystLists.order := Main.order kv.2 |}) ANALYST_CONFIG)
  /\ Analysts.ANALYST_ORDER ANALYST_CONFIG
     = map (fun a => (AnalystLists.display_name a, AnalystLists.key a))
         (List.filter (fun a => AnalystLists.order a <=? 10) agents).
Proof.
  cbv zeta. unfold AnalystLists.get_agents_list.
  destruct (sorted_spec (fun kv : string * Main.AnalystConfig => Main.order kv.2)
              ANALYST_CONFIG) as [Hs Hp].
  split; [|split].
  - eapply sorted_map; [|exact Hs]. intros [k c] [k' c'] H. exact H.
  - etransitivity; [apply Permutation_map; exact Hp|].
    erewrite map_ext; [reflexivity|]. intros [k c]. reflexivity.
  - unfold Analysts.ANALYST_ORDER, Analysts.offered. clear Hs Hp.
    induction (Analysts.sorted _ ANALYST_CONFIG) as [|[k c] l IH];
      cbn [map List.filter AnalystLists.order snd]; [reflexivity|].
    destruct (Main.order c <=? 10); cbn [map]; rewrite IH; reflexivity.
Qed.

(** X29.  [get_agents_by_investing_style] has one group for every
    investing style that an entry of the configuration has, and no other
    group; the group of a style holds exactly the entries of that style,
    each once, by ascending order, and is never empty. *)
Theorem agents_grouped_by_style
    (ANALYST_CONFIG : list (string * Main.AnalystConfig))
    (config_description config_investing_style : Main.AnalystConfig -> string) :
  let groups :=
    AnalystLists.get_agents_by_investing_style ANALYST_CONFIG config_description
      config_investing_style in
  NoDup (map fst groups)
  /\ forall style,
       let entries :=
         map (fun kv =>
                {| AnalystLists.g_key := kv.1;
                   AnalystLists.g_display_name := Main.display_name kv.2;
                   AnalystLists.g_description := config_description kv.2;
                   AnalystLists.g_order := Main.order kv.2 |})
           (List.filter (fun kv => String.eqb (config_investing_style kv.2) style)
              ANALYST_CONFIG) in
       match snd <$> List.find (fun g => String.eqb g.1 style) groups with
       | Some agents =>
           agents <> []
           /\ StronglySorted
                (fun a b => AnalystLists.g_order a <= AnalystLists.g_order b) agents
           /\ Permutation agents entries
       | None => entries = [] /\ style ∉ map fst groups
       end.
Proof.
  cbv zeta. unfold AnalystLists.get_agents_by_investing_style. cbv zeta.
  destruct (grouping_keys config_description config_investing_style
              ANALYST_CONFIG [] (NoDup_nil_2 (A := string))) as [Hnd Hkeys].
  split; [rewrite sorted_groups_keys; exact Hnd|].
  intros style. rewrite sorted_groups_group, sorted_groups_keys.
  pose proof (grouping_group config_description config_investing_style
                ANALYST_CONFIG [] style) as Hgroup.
  cbn [find fmap option_fmap option_map] in Hgroup.
  rewrite Hgroup.
  match goal with
  | |- context [is_empty ?m] => destruct m as [|a entries] eqn:Hm
  end; cbn [is_empty fmap option_fmap option_map].
  - split; [reflexivity|]. rewrite Hkeys. intros [H | (kv & Hin & Hs)]; [inversion H|].
    assert (Hmem : In kv (List.filter
                            (fun kv => String.eqb (config_investing_style kv.2) style)
                            ANALYST_CONFIG)).
    { apply filter_In. split; [apply list_elem_of_In; exact Hin|].
      apply String.eqb_eq. exact Hs. }
    destruct (List.filter _ ANALYST_CONFIG); [destruct Hmem | discriminate Hm].
  - destruct (sorted_spec AnalystLists.g_order (a :: entries)) as [Hs Hp].
    split; [|split; [exact Hs | exact Hp]].
    intros Hnil. rewrite Hnil in Hp. apply Permutation_nil in Hp. discriminate Hp.
Qed.

(** X30.  [get_investing_styles] lists every investing style once, and its
    styles are exactly the keys of [get_agents_by_investing_style]. *)
Theorem investing_styles_are_group_keys
    (ANALYST_CONFIG : list (string * Main.AnalystConfig))
    (config_description config_investing_style : Main.AnalystConfig -> string) :
  NoDup (AnalystLists.get_investing_styles ANALYST_CONFIG config_investing_style)
  /\ forall style,
       style ∈ AnalystLists.get_investing_styles ANALYST_CONFIG config_investing_style
       <-> style ∈ map fst
                     (AnalystLists.get_agents_by_investing_style ANALYST_CONFIG
                        config_description config_investing_style).
Proof.
  unfold AnalystLists.get_investing_styles. split; [apply NoDup_elements|].
  intros style. unfold AnalystLists.get_agents_by_investing_style. cbv zeta.
  destruct (grouping_keys config_description config_investing_style
              ANALYST_CONFIG [] (NoDup_nil_2 (A := string))) as [_ Hkeys].
  rewrite sorted_groups_keys, Hkeys, elem_of_elements, elem_of_list_to_set.
  rewrite list_elem_of_In, in_map_iff. split.
  - intros (kv & Hs & Hin). right. exists kv.
    split; [apply list_elem_of_In; exact Hin | exact Hs].
  - intros [H | (kv & Hin & Hs)]; [inversion H|].
    exists kv. split; [exact Hs | apply list_elem_of_In; exact Hin].
Qed.
